(** * desmos-animate: a shallow embedding of [main.js]

    The script drives a Desmos calculator.  [setup] installs the bounds
    folder, the corner points, the time slider and the animate trigger;
    [getMathBounds] reads the viewport; [captureFrames] sweeps the time
    slider and takes one screenshot per sample; [createVideo] replays the
    screenshots on a canvas that is being recorded; [render] chains them.

    - JavaScript numbers are IEEE 754 binary64 values.  They are the
      Standard Library's [spec_float] at precision 53 and maximal
      exponent 1024, with the library's operations, which round as the
      hardware does.
    - The calculator is its expression list and its three display flags.
      [setExpression] updates the item with the given id, leaving the
      properties it is not given, or appends a new item.
    - Asynchronous code is written in a state monad over the calculator,
      the [bounds] global and a log of the requests made to the host and
      the browser.  A computation returns, throws, or stays pending for
      ever, as an [await] on a promise nobody settles does.
    - What the host does is a parameter: the values the calculator
      publishes for a helper expression, its answer to a screenshot
      request, and whether the browser decodes an image. *)

From Stdlib Require Import ZArith List String Bool Lia.
From Stdlib Require Import SpecFloat.
Import ListNotations.

Set Implicit Arguments.

Local Open Scope string_scope.
Local Open Scope list_scope.

(** ** JavaScript numbers *)

Module Number.

Definition number : Type := spec_float.

Definition prec : Z := 53.
Definition emax : Z := 1024.

Definition NaN : number := S754_nan.

(** An integer literal, and the loop counter of a [for] loop. *)
Definition of_Z (z : Z) : number := binary_normalize prec emax z 0 false.
Definition of_nat (n : nat) : number := of_Z (Z.of_nat n).

Definition add : number -> number -> number := SFadd prec emax.
Definition sub : number -> number -> number := SFsub prec emax.
Definition mul : number -> number -> number := SFmul prec emax.
Definition div : number -> number -> number := SFdiv prec emax.
Definition neg : number -> number := SFopp.

(** A decimal literal [m / d] with [d] a power of ten, such as 9.6 =
    96/10: both operands are exact and the division rounds to nearest,
    so this is the double the literal denotes. *)
Definition decimal (m d : Z) : number := div (of_Z m) (of_Z d).

(** [a < b], [a <= b], [a === b] and [a !== b]: all false on NaN but
    the last. *)
Definition ltb : number -> number -> bool := SFltb.
Definition leb : number -> number -> bool := SFleb.
Definition eqb : number -> number -> bool := SFeqb.
Definition neqb (a b : number) : bool := negb (SFeqb a b).

Definition is_nan (a : number) : bool :=
  match a with S754_nan => true | _ => false end.

(** [Math.min] and [Math.max]: NaN if an argument is NaN, and -0 is
    below +0. *)
Definition Math_min (a b : number) : number :=
  match SFcompare a b with
  | None => NaN
  | Some Lt => a
  | Some Gt => b
  | Some Eq => match a with S754_zero true => a | _ => b end
  end.

Definition Math_max (a b : number) : number :=
  match SFcompare a b with
  | None => NaN
  | Some Lt => b
  | Some Gt => a
  | Some Eq => match a with S754_zero false => a | _ => b end
  end.

(** [Math.floor]: a finite value with a negative exponent is
    [m * 2^e]; shifting right rounds towards minus infinity. *)
Definition Math_floor (x : number) : number :=
  match x with
  | S754_finite s m e =>
      if (0 <=? e)%Z then x
      else binary_normalize prec emax
             (Z.shiftr (cond_Zopp s (Zpos m)) (- e)) 0 false
  | _ => x
  end.

End Number.

Import Number.

(** ** The calculator (Desmos API 1.6) *)

Inductive item_type : Type := Expression | Folder.

(** The text of an expression.  [TimeAssign time] is the template literal
    of [captureFrames], [t_{ime}=${time}], kept with its number. *)
Inductive tex : Type :=
| Tex (s : string)
| TimeAssign (time : number).

Record slider_bounds : Type := { min : string; max : string }.

(** An item of the expression list, as [getExpressions] and
    [getState().expressions.list] return it. *)
Record expression : Type := {
  id : string;
  type : item_type;
  latex : option tex;
  hidden : bool;
  secret : bool;
  color : option string;
  fill : option bool;
  folderId : option string;
  title : option string;
  sliderBounds : option slider_bounds
}.

(** The argument of [setExpression]: an id and the properties to set. *)
Record expression_state : Type := {
  u_id : string;
  u_type : option item_type;
  u_latex : option tex;
  u_hidden : option bool;
  u_secret : option bool;
  u_color : option string;
  u_fill : option bool;
  u_sliderBounds : option slider_bounds
}.

Record graph_settings : Type := {
  showGrid : bool;
  showXAxis : bool;
  showYAxis : bool
}.

Record calculator : Type := {
  expressions : list expression;
  settings : graph_settings
}.

Module Calc.

Definition GREEN : string := "#388c46".

Definition or_else {A} (o : option A) (d : A) : A :=
  match o with Some a => a | None => d end.

Definition or_keep {A} (o old : option A) : option A :=
  match o with Some a => Some a | None => old end.

(** A new item made from the properties given. *)
Definition create (u : expression_state) : expression :=
  {| id := u_id u;
     type := or_else (u_type u) Expression;
     latex := u_latex u;
     hidden := or_else (u_hidden u) false;
     secret := or_else (u_secret u) false;
     color := u_color u;
     fill := u_fill u;
     folderId := None;
     title := None;
     sliderBounds := u_sliderBounds u |}.

(** An existing item with the given properties overwritten. *)
Definition merge (u : expression_state) (e : expression) : expression :=
  {| id := id e;
     type := or_else (u_type u) (type e);
     latex := or_keep (u_latex u) (latex e);
     hidden := or_else (u_hidden u) (hidden e);
     secret := or_else (u_secret u) (secret e);
     color := or_keep (u_color u) (color e);
     fill := or_keep (u_fill u) (fill e);
     folderId := folderId e;
     title := title e;
     sliderBounds := or_keep (u_sliderBounds u) (sliderBounds e) |}.

(** [setExpression]: update the item with that id, or add one at the
    end of the list. *)
Fixpoint set_item (u : expression_state) (l : list expression)
  : list expression :=
  match l with
  | [] => [create u]
  | e :: r =>
      if String.eqb (id e) (u_id u) then merge u e :: r
      else e :: set_item u r
  end.

Definition set_items (us : list expression_state) (l : list expression)
  : list expression :=
  fold_left (fun acc u => set_item u acc) us l.

Definition setExpression (u : expression_state) (c : calculator)
  : calculator :=
  {| expressions := set_item u (expressions c); settings := settings c |}.

Definition setExpressions (us : list expression_state) (c : calculator)
  : calculator :=
  {| expressions := set_items us (expressions c); settings := settings c |}.

Definition getExpressions (c : calculator) : list expression :=
  expressions c.

(** [Array.prototype.find] with the test [expr.id === i]. *)
Definition find_id (i : string) (l : list expression) : option expression :=
  List.find (fun e => String.eqb (id e) i) l.

(** [updateSettings] with the three flags the script passes. *)
Definition updateSettings (g : graph_settings) (c : calculator)
  : calculator :=
  {| expressions := expressions c; settings := g |}.

Definition getSettings (c : calculator) : graph_settings := settings c.

Definition getState (c : calculator) : calculator := c.
Definition setState (state : calculator) (c : calculator) : calculator :=
  state.

(** The properties object with only an id. *)
Definition item (i : string) : expression_state :=
  {| u_id := i; u_type := None; u_latex := None; u_hidden := None;
     u_secret := None; u_color := None; u_fill := None;
     u_sliderBounds := None |}.

End Calc.

Import Calc.

(** ** Promises, helper expressions and the browser *)

(** No promise of the script is ever rejected: every executor ignores
    its [rej] argument. *)
Inductive promise (A : Type) : Type :=
| Pending
| Fulfilled (a : A).
Arguments Pending {A}.
Arguments Fulfilled {A} a.

(** Calling a promise's [res]: only the first call settles it. *)
Definition res {A} (a : A) (p : promise A) : promise A :=
  match p with
  | Pending => Fulfilled a
  | Fulfilled _ => p
  end.

(** A helper expression: its text, its current value and the number of
    callbacks registered on [numericValue]. *)
Record helper : Type := {
  helperLatex : string;
  numericValue : number;
  observers : nat
}.

Definition HelperExpression (l : string) : helper :=
  {| helperLatex := l; numericValue := NaN; observers := 0 |}.

(** A promise whose executor observes a helper: the helper, the promise
    and the number of times the callback has run. *)
Record observation (A : Type) : Type := {
  observed : helper;
  settled : promise A;
  calls : nat
}.

(** [new Promise((res, rej) => h.observe("numericValue", _ => res(cb h)))] *)
Definition observe {A} (h : helper) : observation A :=
  {| observed := {| helperLatex := helperLatex h;
                    numericValue := numericValue h;
                    observers := S (observers h) |};
     settled := Pending;
     calls := 0 |}.

(** The calculator publishes a new value: the helper takes it and, as
    long as the callback is registered, the callback runs. *)
Definition notify {A} (cb : helper -> A) (o : observation A) (v : number)
  : observation A :=
  let h := {| helperLatex := helperLatex (observed o);
              numericValue := v;
              observers := observers (observed o) |} in
  match observers h with
  | 0 => {| observed := h; settled := settled o; calls := calls o |}
  | S _ => {| observed := h;
              settled := res (cb h) (settled o);
              calls := S (calls o) |}
  end.

Definition deliver {A} (cb : helper -> A) (vs : list number)
  (o : observation A) : observation A :=
  fold_left (notify cb) vs o.

(** What an asynchronous request to the host comes to. *)
Inductive answer (A : Type) : Type :=
| CallsBack (a : A)
| Throws
| Never.
Arguments CallsBack {A} a.
Arguments Throws {A}.
Arguments Never {A}.

Record rect : Type := {
  left : number;
  right : number;
  bottom : number;
  top : number
}.

Record screenshot_opts : Type := {
  width : number;
  height : number;
  mode : string;
  mathBounds : rect
}.

(** The [settings] object of the script. *)
Module Settings.
Record t : Type := {
  duration : number;
  frames : nat;
  resolution : number
}.
End Settings.

(** The host: the values the calculator publishes for a helper
    expression, its answer to a screenshot request, and whether the
    browser decodes an image source ([onload]) or not ([onerror]). *)
Record host : Type := {
  numericValues : calculator -> string -> list number;
  asyncScreenshot : calculator -> screenshot_opts -> answer string;
  decodes : string -> bool
}.

Inductive timer_action : Type :=
| DrawImage (i : nat) (image : string)
| RecorderStop
| RevokeObjectURL.

(** A recorded video: the draws and the stop, with their offsets. *)
Record blob : Type := {
  timeline : list (number * string);
  stopped_at : number
}.

Inductive event : Type :=
| Screenshot (opts : screenshot_opts) (shown : calculator)
| CreateCanvas (w h : number)
| NewMediaRecorder
| NewImage (src : string)
| RecorderStart
| SetTimeout (a : timer_action) (delay : number)
| Download (b : blob) (filename : string).

Record bounds_t : Type := { x1 : helper; x2 : helper; y1 : helper; y2 : helper }.

Record world : Type := {
  calc : calculator;
  bounds : bounds_t;
  trace : list event
}.

(** ** The monad of asynchronous code *)

Inductive outcome (A : Type) : Type :=
| Returned (a : A) (w : world)
| Threw (message : string) (w : world)
| Hangs (w : world).
Arguments Returned {A} a w.
Arguments Threw {A} message w.
Arguments Hangs {A} w.

Definition M (A : Type) : Type := world -> outcome A.

Definition ret {A} (a : A) : M A := fun w => Returned a w.

Definition bind {A B} (m : M A) (k : A -> M B) : M B :=
  fun w =>
    match m w with
    | Returned a w' => k a w'
    | Threw e w' => Threw e w'
    | Hangs w' => Hangs w'
    end.

Declare Scope js_scope.
Delimit Scope js_scope with js.
Notation "x <- m ;; k" := (bind m (fun x => k))
  (at level 61, m at next level, right associativity) : js_scope.
Notation "m ;; k" := (bind m (fun _ => k))
  (at level 61, right associativity) : js_scope.
Local Open Scope js_scope.

Definition throw {A} (message : string) : M A := fun w => Threw message w.

Definition get_calc : M calculator := fun w => Returned (calc w) w.

Definition on_calc (f : calculator -> calculator) : M unit :=
  fun w => Returned tt {| calc := f (calc w); bounds := bounds w;
                          trace := trace w |}.

Definition set_bounds (b : bounds_t) : M unit :=
  fun w => Returned tt {| calc := calc w; bounds := b; trace := trace w |}.

Definition emit (e : event) : M unit :=
  fun w => Returned tt {| calc := calc w; bounds := bounds w;
                          trace := trace w ++ [e] |}.

(** [await p] *)
Definition await {A} (p : promise A) : M A :=
  fun w => match p with Fulfilled a => Returned a w | Pending => Hangs w end.

(** Reading a property of [undefined] is a TypeError. *)
Definition property {A} (o : option A) : M A :=
  match o with
  | Some a => ret a
  | None => throw "TypeError"
  end.

(** A loop whose body is awaited at each turn. *)
Fixpoint for_each {A B} (body : A -> M B) (l : list A) : M (list B) :=
  match l with
  | [] => ret []
  | a :: r => b <- body a ;; bs <- for_each body r ;; ret (b :: bs)
  end.

(** The result of a run, without the world. *)
Definition world_of {A} (o : outcome A) : world :=
  match o with Returned _ w | Threw _ w | Hangs w => w end.

Definition returned {A} (o : outcome A) : option A :=
  match o with Returned a _ => Some a | _ => None end.

(** ** The script *)

(** [Promise.all] of promises that are never rejected. *)
Fixpoint Promise_all {A} (ps : list (promise A)) : promise (list A) :=
  match ps with
  | [] => Fulfilled []
  | p :: r =>
      match p, Promise_all r with
      | Fulfilled a, Fulfilled l => Fulfilled (a :: l)
      | _, _ => Pending
      end
  end.

(** The elements of an array with their indices from [i]. *)
Fixpoint indexed {A} (i : nat) (l : list A) : list (nat * A) :=
  match l with
  | [] => []
  | a :: r => (i, a) :: indexed (S i) r
  end.

(** The sets of properties [setup] passes to [setExpressions]. *)
Definition folder_item : expression_state :=
  {| u_id := "bounds"; u_type := Some Folder; u_latex := None;
     u_hidden := Some false; u_secret := None; u_color := None;
     u_fill := None; u_sliderBounds := None |}.

Definition secret_item (i : string) (s : bool) (c : option string)
  (f : option bool) (l : string) : expression_state :=
  {| u_id := i; u_type := None; u_latex := Some (Tex l); u_hidden := None;
     u_secret := Some s; u_color := c; u_fill := f;
     u_sliderBounds := None |}.

Definition base_items : list expression_state :=
  [ folder_item;
    secret_item "bounds x1y1" true (Some GREEN) None
      "\left(B_{x1},B_{y1}\right)";
    secret_item "bounds x2y2" true (Some GREEN) None
      "\left(B_{x2},B_{y2}\right)";
    secret_item "bounds rect" true (Some GREEN) (Some false)
      "\operatorname{polygon}\left(\left[\left(B_{x1},B_{y1}\right),\left(B_{x1},B_{y2}\right),\left(B_{x2},B_{y2}\right),\left(B_{x2},B_{y1}\right)\right]\right)";
    secret_item "bounds animate" true None None "a_{nimate}=0";
    secret_item "bounds start action" false None None
      "a_{nimate} \to a_{nimate}+1" ].

Definition edge_items : list expression_state :=
  [ secret_item "bounds x1" true None None "B_{x1}=-9.6";
    secret_item "bounds x2" true None None "B_{x2}= 9.6";
    secret_item "bounds y1" true None None "B_{y1}=-5.4";
    secret_item "bounds y2" true None None "B_{y2}= 5.4" ].

Definition time_item : expression_state :=
  {| u_id := "bounds time"; u_type := None;
     u_latex := Some (Tex "t_{ime}=0"); u_hidden := None; u_secret := None;
     u_color := None; u_fill := None;
     u_sliderBounds := Some {| min := "0"; max := "1" |} |}.

(** [new Set(...).has(i)] on the ids read at the start of [setup]. *)
Definition has (i : string) (ids : list string) : bool :=
  existsb (String.eqb i) ids.

(** The body of the loop over [state.expressions.list]. *)
Definition place (e : expression) : expression :=
  if String.eqb (id e) "bounds" then
    {| id := id e; type := type e; latex := latex e; hidden := hidden e;
       secret := secret e; color := color e; fill := fill e;
       folderId := folderId e; title := Some "Bounds";
       sliderBounds := sliderBounds e |}
  else if String.prefix "bounds" (id e) then
    {| id := id e; type := type e; latex := latex e; hidden := hidden e;
       secret := secret e; color := color e; fill := fill e;
       folderId := Some "bounds"; title := title e;
       sliderBounds := sliderBounds e |}
  else e.

Definition place_all (state : calculator) : calculator :=
  {| expressions := map place (expressions state);
     settings := settings state |}.

(** The part of [setup] that writes to the calculator (lines 70-110). *)
Definition setup_calc (c : calculator) : calculator :=
  let ids := map id (getExpressions c) in
  let c1 := setExpressions base_items c in
  let c2 := if negb (has "bounds x1" ids)
            then setExpressions edge_items c1 else c1 in
  let c3 := if negb (has "bounds time" ids)
            then setExpression time_item c2 else c2 in
  let state := getState c3 in
  setState (place_all state) c3.

Section Script.

Variable h : host.

(** [loadImage]: fulfilled by [onload]; nothing listens to [onerror]. *)
Definition loadImage (src : string) : M (promise string) :=
  emit (NewImage src) ;;
  ret (if decodes h src then Fulfilled src else Pending).

Definition downloadBlob (b : blob) (filename : string) : M unit :=
  emit (Download b filename) ;;
  emit (SetTimeout RevokeObjectURL (of_Z 1000)).

(** [createVideo].  The browser is taken to support the codec asked
    for, so that [new MediaRecorder] and [recorder.start] do not throw,
    and to run the timers, so that [recorder.onstop] settles the promise
    of the video once the stop has been scheduled.  The blob stands for
    the chunks of the recorder: the draws that were scheduled, with
    their offsets, and the offset of the stop. *)
Definition createVideo (frames : list string) (width height : number)
  (settings : Settings.t) : M blob :=
  emit (CreateCanvas width height) ;;
  emit NewMediaRecorder ;;
  loads <- for_each loadImage frames ;;
  images <- await (Promise_all loads) ;;
  emit RecorderStart ;;
  let delay := div (mul (of_Z 1000) (Settings.duration settings))
                   (of_nat (Settings.frames settings)) in
  for_each (fun ii => emit (SetTimeout (DrawImage (fst ii) (snd ii))
                                       (mul delay (of_nat (fst ii)))))
           (indexed 0 images) ;;
  emit (SetTimeout RecorderStop (mul delay (of_nat (List.length images)))) ;;
  ret {| timeline := map (fun ii => (mul delay (of_nat (fst ii)), snd ii))
                         (indexed 0 images);
         stopped_at := mul delay (of_nat (List.length images)) |}.

(** [evaluate]: the helper is made from [latex + "+0"] and observed;
    the calculator then publishes its values. *)
Definition evaluate (c : calculator) (latex : string)
  : observation number :=
  let expression := HelperExpression (latex ++ "+0")%string in
  deliver numericValue (numericValues h c (latex ++ "+0")%string)
          (observe expression).

Definition screenshot (opts : screenshot_opts) : M string :=
  c <- get_calc ;;
  emit (Screenshot opts c) ;;
  match asyncScreenshot h c opts with
  | CallsBack dataurl => ret dataurl
  | Throws => throw "asyncScreenshot"
  | Never => await Pending
  end.

(** The helper of [setup] for one edge, observed with [_ => res()]. *)
Definition watch (c : calculator) (latex : string) : observation unit :=
  deliver (fun _ => tt) (numericValues h c latex)
          (observe (HelperExpression latex)).

Definition setup : M unit :=
  on_calc setup_calc ;;
  c <- get_calc ;;
  let ox1 := watch c "B_{x1}" in
  let ox2 := watch c "B_{x2}" in
  let oy1 := watch c "B_{y1}" in
  let oy2 := watch c "B_{y2}" in
  set_bounds {| x1 := observed ox1; x2 := observed ox2;
                y1 := observed oy1; y2 := observed oy2 |} ;;
  await (Promise_all [settled ox1; settled ox2; settled oy1; settled oy2]) ;;
  ret tt.

Definition getMathBounds (bounds : bounds_t) : rect :=
  {| left := Math_min (numericValue (x1 bounds)) (numericValue (x2 bounds));
     right := Math_max (numericValue (x1 bounds)) (numericValue (x2 bounds));
     bottom := Math_min (numericValue (y1 bounds)) (numericValue (y2 bounds));
     top := Math_max (numericValue (y1 bounds)) (numericValue (y2 bounds)) |}.

(** Line 150: the time of sample [i] out of [frames]. *)
Definition sample_time (min max : number) (frames i : nat) : number :=
  add min (mul (div (of_nat i) (sub (of_nat frames) (of_Z 1)))
               (sub max min)).

Definition hide (i : string) (b : bool) : expression_state :=
  {| u_id := i; u_type := None; u_latex := None; u_hidden := Some b;
     u_secret := None; u_color := None; u_fill := None;
     u_sliderBounds := None |}.

Definition time_is (time : number) : expression_state :=
  {| u_id := "bounds time"; u_type := None;
     u_latex := Some (TimeAssign time); u_hidden := None;
     u_secret := None; u_color := None; u_fill := None;
     u_sliderBounds := None |}.

Definition captureFrames (settings : Settings.t) (opts : screenshot_opts)
  : M (list string) :=
  c <- get_calc ;;
  let expressions := getExpressions c in
  folder <- property (find_id "bounds" expressions) ;;
  let folderHidden := hidden folder in
  let shown := getSettings c in
  on_calc (updateSettings {| showGrid := false; showXAxis := false;
                             showYAxis := false |}) ;;
  on_calc (setExpression (hide "bounds" true)) ;;
  let slider := find_id "bounds time" expressions in
  s <- property slider ;;
  sb <- property (sliderBounds s) ;;
  c <- get_calc ;;
  min <- await (settled (evaluate c (min sb))) ;;
  c <- get_calc ;;
  max <- await (settled (evaluate c (max sb))) ;;
  frames <- for_each
              (fun i =>
                 let time := sample_time min max (Settings.frames settings) i in
                 on_calc (setExpression (time_is time)) ;;
                 screenshot opts)
              (seq 0 (Settings.frames settings)) ;;
  on_calc (setExpression (hide "bounds" folderHidden)) ;;
  on_calc (updateSettings {| showGrid := showGrid shown;
                             showXAxis := showXAxis shown;
                             showYAxis := showYAxis shown |}) ;;
  ret frames.

Definition secret_is (i : string) (b : bool) : expression_state :=
  {| u_id := i; u_type := None; u_latex := None; u_hidden := None;
     u_secret := Some b; u_color := None; u_fill := None;
     u_sliderBounds := None |}.

Definition render_opts (bounds : rect) (settings : Settings.t)
  : screenshot_opts :=
  {| width := Math_floor (mul (sub (right bounds) (left bounds))
                              (Settings.resolution settings));
     height := Math_floor (mul (sub (top bounds) (bottom bounds))
                               (Settings.resolution settings));
     mode := "stretch";
     mathBounds := bounds |}.

Definition render (settings : Settings.t) : M unit :=
  fun w =>
    (let bounds := getMathBounds (bounds w) in
     let opts := render_opts bounds settings in
     on_calc (setExpression (secret_is "bounds start action" true)) ;;
     frames <- captureFrames settings opts ;;
     blob <- createVideo frames (width opts) (height opts) settings ;;
     downloadBlob blob "desmos.webm" ;;
     on_calc (setExpression (secret_is "bounds start action" false))) w.

(** The observer of [a_{nimate}] (lines 193-196); the promise of
    [render] is not awaited. *)
Definition on_animate (settings : Settings.t) (animate : helper) (w : world)
  : world :=
  if neqb (numericValue animate) (of_Z 0)
  then world_of (render settings w) else w.

End Script.

(** The settings of the script (lines 180-188). *)
Definition the_settings : Settings.t :=
  {| Settings.duration := of_Z 5;
     Settings.frames := 200;
     Settings.resolution := of_Z 10 |}.

Unset Implicit Arguments.

(** ** Observations used in the statements *)

(** The text of the expression with id [i], if there is one with a text. *)
Definition latex_of (i : string) (c : calculator) : option tex :=
  match find_id i (expressions c) with
  | Some e => latex e
  | None => None
  end.

Definition ids_of (c : calculator) : list string :=
  map id (expressions c).

(** What [captureFrames] hides: the three display flags and the [hidden]
    flag of the bounds folder. *)
Definition chrome (c : calculator) : graph_settings * option bool :=
  (settings c, option_map hidden (find_id "bounds" (expressions c))).

Definition chrome_hidden : graph_settings * option bool :=
  ({| showGrid := false; showXAxis := false; showYAxis := false |},
   Some true).

(** The calculator once [setup] has run in world [w]. *)
Definition after_setup (h : host) (w : world) : world :=
  world_of (setup h w).

(** [setup_calc] on the list alone. *)
Definition setup_list (l : list expression) : list expression :=
  let l1 := set_items base_items l in
  let l2 := if negb (has "bounds x1" (map id l))
            then set_items edge_items l1 else l1 in
  let l3 := if negb (has "bounds time" (map id l))
            then set_item time_item l2 else l2 in
  map place l3.

(** The ids of the two calls to [setExpressions]. *)
Definition base_ids : list string := map u_id base_items.
Definition edge_ids : list string := map u_id edge_items.

(** The calculator during a capture: display flags off, folder hidden. *)
Definition hide_chrome (c : calculator) : calculator :=
  setExpression (hide "bounds" true)
    (updateSettings {| showGrid := false; showXAxis := false;
                       showYAxis := false |} c).

(** Lines 155-156. *)
Definition restore_chrome (folderHidden : bool) (shown : graph_settings)
  (c : calculator) : calculator :=
  updateSettings {| showGrid := showGrid shown; showXAxis := showXAxis shown;
                    showYAxis := showYAxis shown |}
    (setExpression (hide "bounds" folderHidden) c).

(** The assignments of the loop of [captureFrames], and the screenshot
    requests it makes, for the times [t i]. *)
Definition sweep (t : nat -> number) (l : list nat) (c : calculator)
  : calculator :=
  fold_left (fun c i => setExpression (time_is (t i)) c) l c.

Fixpoint shots (o : screenshot_opts) (t : nat -> number) (l : list nat)
  (c : calculator) : list event :=
  match l with
  | [] => []
  | i :: r =>
      let c' := setExpression (time_is (t i)) c in
      Screenshot o c' :: shots o t r c'
  end.

(** The body of the loop of [captureFrames], for the times [t i]. *)
Definition capture_body (h : host) (o : screenshot_opts) (t : nat -> number)
  (i : nat) : M string :=
  (on_calc (setExpression (time_is (t i))) ;; screenshot h o)%js.

(** The text of the time slider that a screenshot request shows. *)
Definition shown_time (e : event) : option tex :=
  match e with
  | Screenshot _ c => latex_of "bounds time" c
  | _ => None
  end.

(** The sizes an event of [render] uses are those of [o]. *)
Definition sized (o : screenshot_opts) (e : event) : Prop :=
  match e with
  | Screenshot o' _ => o' = o
  | CreateCanvas w h => w = width o /\ h = height o
  | _ => True
  end.

(** The log of a video assembly whose images all decode. *)
Definition delay_of (st : Settings.t) : number :=
  div (mul (of_Z 1000) (Settings.duration st)) (of_nat (Settings.frames st)).

Definition draw_offset (st : Settings.t) (i : nat) : number :=
  mul (delay_of st) (of_nat i).

Definition loading (wd ht : number) (srcs : list string) : list event :=
  [CreateCanvas wd ht; NewMediaRecorder] ++ map NewImage srcs.

Definition schedule (st : Settings.t) (images : list string) : list event :=
  map (fun ii => SetTimeout (DrawImage (fst ii) (snd ii))
                            (draw_offset st (fst ii)))
      (indexed 0 images)
  ++ [SetTimeout RecorderStop (draw_offset st (List.length images))].

(** ** Sessions used as examples *)

(** A host that publishes the values of a table, answers every
    screenshot request and decodes every image but "broken". *)
Fixpoint published (table : list (string * list number)) (l : string)
  : list number :=
  match table with
  | [] => []
  | (k, vs) :: r => if String.eqb k l then vs else published r l
  end.

Definition table_host (table : list (string * list number)) : host :=
  {| numericValues := fun _ l => published table l;
     asyncScreenshot := fun _ _ => CallsBack "data:image/png";
     decodes := fun src => negb (String.eqb src "broken") |}.

Definition demo_table : list (string * list number) :=
  [ ("0+0", [of_Z 0]); ("1+0", [of_Z 1; of_Z 2]);
    ("-1+0", [of_Z (-1)]); ("0.1+0", [decimal 1 10]);
    ("B_{x1}", [decimal (-96) 10]); ("B_{x2}", [decimal 96 10]);
    ("B_{y1}", [decimal (-54) 10]); ("B_{y2}", [decimal 54 10]) ].

Definition demo_host : host := table_host demo_table.

Definition empty_world : world :=
  {| calc := {| expressions := [];
                settings := {| showGrid := true; showXAxis := true;
                               showYAxis := true |} |};
     bounds := {| x1 := HelperExpression ""; x2 := HelperExpression "";
                  y1 := HelperExpression ""; y2 := HelperExpression "" |};
     trace := [] |}.

(** A new graph after [setup]. *)
Definition fresh_world : world := after_setup demo_host empty_world.

Definition with_calc (c : calculator) (w : world) : world :=
  {| calc := c; bounds := bounds w; trace := trace w |}.

(** The user deletes an expression. *)
Definition removeExpression (i : string) (c : calculator) : calculator :=
  {| expressions := filter (fun e => negb (String.eqb (id e) i))
                           (expressions c);
     settings := settings c |}.

(** The user clicks the start action once: [a_{nimate}] becomes 1. *)
Definition clicked_world : world :=
  with_calc (setExpression
               {| u_id := "bounds animate"; u_type := None;
                  u_latex := Some (Tex "a_{nimate}=1"); u_hidden := None;
                  u_secret := None; u_color := None; u_fill := None;
                  u_sliderBounds := None |}
               (calc fresh_world))
            fresh_world.

(** The user deletes the time slider. *)
Definition sliderless_world : world :=
  with_calc (removeExpression "bounds time" (calc fresh_world)) fresh_world.

(** The user sets the range of the time slider to [-1, 0.1]. *)
Definition ranged_world : world :=
  with_calc (setExpression
               {| u_id := "bounds time"; u_type := None; u_latex := None;
                  u_hidden := None; u_secret := None; u_color := None;
                  u_fill := None;
                  u_sliderBounds := Some {| min := "-1"; max := "0.1" |} |}
               (calc fresh_world))
            fresh_world.

Definition settings_with (n : nat) : Settings.t :=
  {| Settings.duration := of_Z 5; Settings.frames := n;
     Settings.resolution := of_Z 10 |}.

(** The viewport of the end-to-end scenario. *)
Definition demo_rect : rect :=
  {| left := decimal (-96) 10; right := decimal 96 10;
     bottom := decimal (-54) 10; top := decimal 54 10 |}.

(** The two corner points exchanged on one axis. *)
Definition swap_x (b : bounds_t) : bounds_t :=
  {| x1 := x2 b; x2 := x1 b; y1 := y1 b; y2 := y2 b |}.

Definition swap_y (b : bounds_t) : bounds_t :=
  {| x1 := x1 b; x2 := x2 b; y1 := y2 b; y2 := y1 b |}.

(** A helper whose expression has the value [v]. *)
Definition helper_at (l : string) (v : number) : helper :=
  {| helperLatex := l; numericValue := v; observers := 1 |}.

(** [B_{x1}] is not a number (its definition was deleted, say). *)
Definition undefined_x1 : bounds_t :=
  {| x1 := helper_at "B_{x1}" NaN; x2 := helper_at "B_{x2}" (of_Z 1);
     y1 := helper_at "B_{y1}" (of_Z 0); y2 := helper_at "B_{y2}" (of_Z 1) |}.

(** A graph that has "bounds x1" and no other edge. *)
Definition x1_only_world : world :=
  with_calc (setExpression
               (secret_item "bounds x1" true None None "B_{x1}=3")
               (calc empty_world))
            empty_world.

(** The value a run returned, or [d]. *)
Definition result_of {A} (r : outcome A) (d : A) : A :=
  match r with Returned a _ => a | _ => d end.

(** The size and viewport of the end-to-end scenario. *)
Definition demo_opts : screenshot_opts := render_opts demo_rect the_settings.

(** Captures of a new graph: one frame, and the script's 200. *)
Definition one_frame_run : outcome (list string) :=
  captureFrames demo_host (settings_with 1) demo_opts fresh_world.

Definition full_run : outcome (list string) :=
  captureFrames demo_host the_settings demo_opts fresh_world.

(** A capture of two frames over the range [-1, 0.1]. *)
Definition ranged_run : outcome (list string) :=
  captureFrames demo_host (settings_with 2) demo_opts ranged_world.

(** A capture after the time slider was deleted. *)
Definition sliderless_run : outcome (list string) :=
  captureFrames demo_host the_settings demo_opts sliderless_world.

(** Two stills, the second of which does not decode. *)
Definition broken_stills : list string := ["data:image/png"; "broken"].

(** Two items that differ at most in their text. *)
Definition same_but_latex (e e' : expression) : Prop :=
  id e' = id e /\ type e' = type e /\ hidden e' = hidden e
  /\ secret e' = secret e /\ color e' = color e /\ fill e' = fill e
  /\ folderId e' = folderId e /\ title e' = title e
  /\ sliderBounds e' = sliderBounds e.

(** The stills [fs] are what the host answered, one by one, to the
    requests of the loop of [captureFrames] for the times [t i]. *)
Fixpoint answered (h : host) (o : screenshot_opts) (t : nat -> number)
  (l : list nat) (c : calculator) (fs : list string) : Prop :=
  match l, fs with
  | [], [] => True
  | i :: r, f :: fr =>
      let c' := setExpression (time_is (t i)) c in
      asyncScreenshot h c' o = CallsBack f /\ answered h o t r c' fr
  | _, _ => False
  end.

(** The number of downloads a log holds. *)
Fixpoint downloads (tr : list event) : nat :=
  match tr with
  | [] => 0
  | Download _ _ :: r => S (downloads r)
  | _ :: r => downloads r
  end.

(** What is filed under the bounds folder: the test of lines 103-107. *)
Definition filed (e : expression) : Prop :=
  if String.eqb (id e) "bounds" then title e = Some "Bounds"
  else if String.prefix "bounds" (id e) then folderId e = Some "bounds"
  else True.

(** The calculator [render] hands to [captureFrames]. *)
Definition render_start (c : calculator) : calculator :=
  setExpression (secret_is "bounds start action" true) c.

(** A host that answers the first request only: it throws once the
    slider is past 0. *)
Definition one_shot_host : host :=
  {| numericValues := fun _ l => published demo_table l;
     asyncScreenshot :=
       fun c _ =>
         match latex_of "bounds time" c with
         | Some (TimeAssign time) =>
             if ltb (of_Z 0) time then Throws else CallsBack "data:image/png"
         | _ => CallsBack "data:image/png"
         end;
     decodes := fun _ => true |}.

(** A number that is neither NaN nor infinite. *)
Definition is_finite (a : number) : bool :=
  match a with
  | S754_zero _ | S754_finite _ _ _ => true
  | _ => false
  end.

(** The [secret] flag of the start action, if the item is there. *)
Definition start_action_secret (c : calculator) : option bool :=
  option_map secret (find_id "bounds start action" (expressions c)).

(** [y] is the floor of [x], the greatest integer that is not above
    [x].  A finite double with an exponent [e >= 0] is an integer.  One
    with [e < 0] is the fraction [n / 2^(-e)], where [n] is the mantissa
    with its sign, and its floor is the double of the integer [z] with
    [z <= n / 2^(-e) < z + 1].  Zeros, infinities and NaN are their own
    floor. *)
Definition floor_of (x y : number) : Prop :=
  match x with
  | S754_finite s m e =>
      if (0 <=? e)%Z then y = x
      else exists z : Z,
             y = of_Z z
             /\ (z * 2 ^ (- e) <= cond_Zopp s (Zpos m)
                 < (z + 1) * 2 ^ (- e))%Z
  | _ => y = x
  end.

(** A screenshot request with the options [o]. *)
Definition request_with (o : screenshot_opts) (e : event) : Prop :=
  exists shown, e = Screenshot o shown.

(** The settings of the script at 7 pixels per unit. *)
Definition coarse_settings : Settings.t :=
  {| Settings.duration := of_Z 5; Settings.frames := 200;
     Settings.resolution := of_Z 7 |}.

(** Two frames and a duration of 0 seconds. *)
Definition still_settings : Settings.t :=
  {| Settings.duration := of_Z 0; Settings.frames := 2;
     Settings.resolution := of_Z 10 |}.

(** The mantissa of the double of a positive integer below 2^53: the
    integer shifted left until it has 53 binary digits. *)
Definition mantissa (p : positive) : positive :=
  match (53 - Zpos (digits2_pos p))%Z with
  | Zpos k => Pos.iter xO p k
  | _ => p
  end.

(** ** The expression list *)

Section ExpressionList.

Lemma find_id_set_item_other (i : string) (u : expression_state)
  (l : list expression) :
  u_id u <> i -> find_id i (set_item u l) = find_id i l.
Proof.
  intros Hne. unfold find_id.
  induction l as [|e r IH]; simpl.
  - destruct (String.eqb_spec (u_id u) i); [contradiction | reflexivity].
  - destruct (String.eqb_spec (id e) (u_id u)) as [Heq|Hd]; simpl.
    + destruct (String.eqb_spec (id e) i) as [Hi|_]; [|reflexivity].
      congruence.
    + destruct (String.eqb (id e) i); [reflexivity | exact IH].
Qed.

Lemma find_id_set_item_same (u : expression_state) (l : list expression) :
  find_id (u_id u) (set_item u l)
  = Some (match find_id (u_id u) l with
          | Some e => merge u e
          | None => create u
          end).
Proof.
  unfold find_id.
  induction l as [|e r IH]; simpl.
  - rewrite String.eqb_refl. reflexivity.
  - destruct (String.eqb (id e) (u_id u)) eqn:E; simpl.
    + rewrite E. reflexivity.
    + rewrite E. exact IH.
Qed.

Lemma find_id_id (i : string) (l : list expression) (e : expression) :
  find_id i l = Some e -> id e = i.
Proof.
  unfold find_id. intros H. apply find_some in H.
  destruct H as [_ H]. apply String.eqb_eq. exact H.
Qed.

Lemma find_id_set_items_other (i : string) (us : list expression_state)
  (l : list expression) :
  (forall u, In u us -> u_id u <> i) ->
  find_id i (set_items us l) = find_id i l.
Proof.
  unfold set_items. revert l.
  induction us as [|u r IH]; intros l Hne; simpl.
  - reflexivity.
  - rewrite IH by (intros v Hv; apply Hne; right; exact Hv).
    apply find_id_set_item_other. apply Hne. left. reflexivity.
Qed.

Lemma place_id (e : expression) : id (place e) = id e.
Proof.
  unfold place.
  destruct (String.eqb (id e) "bounds"); [reflexivity|].
  destruct (String.prefix "bounds" (id e)); reflexivity.
Qed.

Lemma place_latex (e : expression) : latex (place e) = latex e.
Proof.
  unfold place.
  destruct (String.eqb (id e) "bounds"); [reflexivity|].
  destruct (String.prefix "bounds" (id e)); reflexivity.
Qed.

Lemma place_idempotent (e : expression) : place (place e) = place e.
Proof.
  unfold place at 2.
  destruct (String.eqb (id e) "bounds") eqn:E1.
  - unfold place; simpl. rewrite E1. reflexivity.
  - destruct (String.prefix "bounds" (id e)) eqn:E2.
    + unfold place; simpl. rewrite E1, E2. reflexivity.
    + unfold place. rewrite E1, E2. reflexivity.
Qed.

Lemma find_id_map_place (i : string) (l : list expression) :
  find_id i (map place l) = option_map place (find_id i l).
Proof.
  unfold find_id.
  induction l as [|e r IH]; simpl; [reflexivity|].
  rewrite place_id.
  destruct (String.eqb (id e) i); [reflexivity | exact IH].
Qed.

Lemma has_find_id (i : string) (l : list expression) :
  has i (map id l) = match find_id i l with Some _ => true | None => false end.
Proof.
  unfold has, find_id.
  induction l as [|e r IH]; simpl; [reflexivity|].
  rewrite (String.eqb_sym i (id e)).
  destruct (String.eqb (id e) i); [reflexivity | exact IH].
Qed.

Lemma map_id_set_item (u : expression_state) (l : list expression) :
  map id (set_item u l)
  = if has (u_id u) (map id l) then map id l else map id l ++ [u_id u].
Proof.
  unfold has.
  induction l as [|e r IH]; simpl; [reflexivity|].
  rewrite (String.eqb_sym (u_id u) (id e)).
  destruct (String.eqb (id e) (u_id u)); simpl; [reflexivity|].
  rewrite IH. destruct (existsb (String.eqb (u_id u)) (map id r));
    reflexivity.
Qed.

Lemma has_In (i : string) (ids : list string) :
  has i ids = true <-> In i ids.
Proof.
  unfold has. rewrite existsb_exists. split.
  - intros [x [Hx He]]. apply String.eqb_eq in He. subst. exact Hx.
  - intros H. exists i. split; [exact H | apply String.eqb_refl].
Qed.

Lemma NoDup_set_item (u : expression_state) (l : list expression) :
  NoDup (map id l) -> NoDup (map id (set_item u l)).
Proof.
  intros H. rewrite map_id_set_item.
  destruct (has (u_id u) (map id l)) eqn:E; [exact H|].
  apply NoDup_app; [exact H | repeat constructor; intros [] | ].
  intros a Ha [Hb|[]]. subst a.
  apply has_In in Ha. congruence.
Qed.

Lemma NoDup_set_items (us : list expression_state) (l : list expression) :
  NoDup (map id l) -> NoDup (map id (set_items us l)).
Proof.
  unfold set_items. revert l.
  induction us as [|u r IH]; intros l H; simpl; [exact H|].
  apply IH. apply NoDup_set_item. exact H.
Qed.

Lemma map_id_map_place (l : list expression) :
  map id (map place l) = map id l.
Proof.
  rewrite map_map. apply map_ext. exact place_id.
Qed.

End ExpressionList.

(** ** [setup] on the expression list *)

Section SetupList.

Lemma setup_calc_list (c : calculator) :
  setup_calc c = {| expressions := setup_list (expressions c);
                    settings := settings c |}.
Proof.
  unfold setup_calc, setup_list, setState, getState, place_all,
    getExpressions, setExpressions, setExpression.
  destruct (negb (has "bounds x1" (map id (expressions c))));
    destruct (negb (has "bounds time" (map id (expressions c))));
    reflexivity.
Qed.

Lemma merge_idempotent (u : expression_state) (e : expression) :
  merge u (merge u e) = merge u e.
Proof.
  unfold merge; simpl.
  destruct u as [i ty la hi se co fi sb]; simpl.
  destruct ty, la, hi, se, co, fi, sb; reflexivity.
Qed.

Lemma merge_create (u : expression_state) : merge u (create u) = create u.
Proof.
  unfold merge, create; simpl.
  destruct u as [i ty la hi se co fi sb]; simpl.
  destruct ty, la, hi, se, co, fi, sb; reflexivity.
Qed.

Lemma merge_place (u : expression_state) (e : expression) :
  merge u (place e) = place (merge u e).
Proof.
  unfold place; simpl.
  destruct (String.eqb (id e) "bounds"); [reflexivity|].
  destruct (String.prefix "bounds" (id e)); reflexivity.
Qed.

(** An item that already has the properties of [u] is left as it is. *)
Lemma set_item_fixed (u : expression_state) (l : list expression)
  (e : expression) :
  find_id (u_id u) l = Some e -> merge u e = e -> set_item u l = l.
Proof.
  unfold find_id.
  induction l as [|a r IH]; simpl; intros Hf Hm; [discriminate|].
  destruct (String.eqb (id a) (u_id u)).
  - injection Hf as ->. rewrite Hm. reflexivity.
  - rewrite (IH Hf Hm). reflexivity.
Qed.

(** After [setExpressions us], every item of [us] is in the list with
    its properties, when the ids of [us] are distinct. *)
Lemma set_items_agree (us : list expression_state) :
  NoDup (map u_id us) ->
  forall (l : list expression) (u : expression_state),
    In u us ->
    exists e, find_id (u_id u) (set_items us l) = Some e /\ merge u e = e.
Proof.
  induction us as [|v r IH]; intros Hnd l u Hin; [destruct Hin|].
  inversion Hnd as [|? ? Hv Hr]; subst.
  change (set_items (v :: r) l) with (set_items r (set_item v l)).
  destruct Hin as [->|Hin].
  - rewrite find_id_set_items_other.
    + rewrite find_id_set_item_same. eexists. split; [reflexivity|].
      destruct (find_id (u_id u) l);
        [apply merge_idempotent | apply merge_create].
    + intros w Hw Heq. apply Hv. rewrite <- Heq. apply in_map. exact Hw.
  - apply IH; assumption.
Qed.

Lemma set_items_fixed (us : list expression_state) (l : list expression) :
  (forall u, In u us ->
     exists e, find_id (u_id u) l = Some e /\ merge u e = e) ->
  set_items us l = l.
Proof.
  unfold set_items. revert l.
  induction us as [|v r IH]; intros l H; simpl; [reflexivity|].
  destruct (H v (or_introl eq_refl)) as [e [Hf Hm]].
  rewrite (set_item_fixed v l e Hf Hm).
  apply IH. intros u Hu. apply H. right. exact Hu.
Qed.

Lemma base_ids_NoDup : NoDup base_ids.
Proof.
  unfold base_ids; simpl.
  repeat (constructor; [simpl; intuition discriminate|]). constructor.
Qed.

Lemma edge_ids_NoDup : NoDup edge_ids.
Proof.
  unfold edge_ids; simpl.
  repeat (constructor; [simpl; intuition discriminate|]). constructor.
Qed.

Lemma not_base_id (i : string) :
  ~ In i base_ids -> forall u, In u base_items -> u_id u <> i.
Proof.
  intros Hn u Hu Heq. apply Hn. rewrite <- Heq.
  unfold base_ids. apply in_map. exact Hu.
Qed.

Lemma edge_not_base (u : expression_state) :
  In u edge_items -> forall v, In v base_items -> u_id v <> u_id u.
Proof.
  intros Hu v Hv.
  simpl in Hu, Hv.
  repeat (destruct Hu as [<-|Hu]);
    repeat (destruct Hv as [<-|Hv]); try discriminate;
    try destruct Hv; destruct Hu.
Qed.

Lemma time_not_edge (u : expression_state) :
  In u edge_items -> u_id time_item <> u_id u.
Proof.
  simpl. intros Hu.
  repeat (destruct Hu as [<-|Hu]); try discriminate. destruct Hu.
Qed.

Lemma time_not_base (u : expression_state) :
  In u base_items -> u_id time_item <> u_id u.
Proof.
  simpl. intros Hu.
  repeat (destruct Hu as [<-|Hu]); try discriminate. destruct Hu.
Qed.

(** Ids outside the six of the first call, with the edges and the
    slider in place: [setup] only files the item in the folder. *)
Lemma find_id_setup_list_other (i : string) (l : list expression) :
  has "bounds x1" (map id l) = true ->
  has "bounds time" (map id l) = true \/ i <> "bounds time" ->
  ~ In i base_ids ->
  find_id i (setup_list l) = option_map place (find_id i l).
Proof.
  intros Hx Ht Hb. unfold setup_list. rewrite Hx. simpl negb.
  rewrite find_id_map_place. f_equal.
  destruct (has "bounds time" (map id l)) eqn:E; simpl negb.
  - apply find_id_set_items_other. apply not_base_id. exact Hb.
  - destruct Ht as [Ht|Ht]; [discriminate|].
    rewrite find_id_set_item_other by (simpl; congruence).
    apply find_id_set_items_other. apply not_base_id. exact Hb.
Qed.

(** Without "bounds x1", every edge item is written with its default. *)
Lemma find_id_setup_list_edge (u : expression_state)
  (l : list expression) :
  has "bounds x1" (map id l) = false ->
  In u edge_items ->
  exists e, find_id (u_id u) (setup_list l) = Some e /\ merge u e = e.
Proof.
  intros Hx Hu. unfold setup_list. rewrite Hx. simpl negb.
  rewrite find_id_map_place.
  destruct (set_items_agree edge_items edge_ids_NoDup
              (set_items base_items l) u Hu)
    as [e [Hf Hm]].
  exists (place e). split.
  - destruct (negb (has "bounds time" (map id l))).
    + rewrite find_id_set_item_other by (apply time_not_edge; exact Hu).
      rewrite Hf. reflexivity.
    + rewrite Hf. reflexivity.
  - rewrite merge_place, Hm. reflexivity.
Qed.

Lemma find_id_setup_list_base (u : expression_state)
  (l : list expression) :
  In u base_items ->
  exists e, find_id (u_id u) (setup_list l) = Some e /\ merge u e = e.
Proof.
  intros Hu. unfold setup_list.
  rewrite find_id_map_place.
  destruct (set_items_agree base_items base_ids_NoDup l u Hu)
    as [e [Hf Hm]].
  exists (place e). split.
  - assert (H2 : find_id (u_id u)
              (if negb (has "bounds x1" (map id l))
               then set_items edge_items (set_items base_items l)
               else set_items base_items l) = Some e).
    { destruct (negb (has "bounds x1" (map id l))); [|exact Hf].
      rewrite find_id_set_items_other; [exact Hf|].
      intros v Hv Heq. exact (edge_not_base v Hv u Hu (eq_sym Heq)). }
    destruct (negb (has "bounds time" (map id l))).
    + rewrite find_id_set_item_other by (apply time_not_base; exact Hu).
      rewrite H2. reflexivity.
    + rewrite H2. reflexivity.
  - rewrite merge_place, Hm. reflexivity.
Qed.

Lemma has_setup_list_x1 (l : list expression) :
  has "bounds x1" (map id (setup_list l)) = true.
Proof.
  rewrite has_find_id.
  destruct (has "bounds x1" (map id l)) eqn:E.
  - rewrite find_id_setup_list_other; try assumption.
    + rewrite has_find_id in E.
      destruct (find_id "bounds x1" l); [reflexivity | discriminate].
    + right. discriminate.
    + simpl. intuition discriminate.
  - destruct (find_id_setup_list_edge
                (secret_item "bounds x1" true None None "B_{x1}=-9.6") l E)
      as [e [Hf _]]; [left; reflexivity|].
    simpl in Hf. rewrite Hf. reflexivity.
Qed.

Lemma has_setup_list_time (l : list expression) :
  has "bounds time" (map id (setup_list l)) = true.
Proof.
  rewrite has_find_id. unfold setup_list.
  rewrite find_id_map_place.
  destruct (has "bounds time" (map id l)) eqn:E; simpl negb.
  - assert (H : find_id "bounds time" l <> None).
    { rewrite has_find_id in E.
      destruct (find_id "bounds time" l); [discriminate | discriminate]. }
    destruct (negb (has "bounds x1" (map id l)));
      repeat (rewrite find_id_set_items_other
               by (simpl; intuition (subst; discriminate)));
      destruct (find_id "bounds time" l); try reflexivity;
      contradiction.
  - cbv iota. change "bounds time" with (u_id time_item).
    rewrite find_id_set_item_same. reflexivity.
Qed.

Theorem setup_list_idempotent (l : list expression) :
  setup_list (setup_list l) = setup_list l.
Proof.
  unfold setup_list at 1.
  rewrite has_setup_list_x1, has_setup_list_time. simpl negb. cbv iota.
  rewrite set_items_fixed.
  - unfold setup_list. rewrite map_map.
    apply map_ext. exact place_idempotent.
  - intros u Hu. apply find_id_setup_list_base. exact Hu.
Qed.

Lemma setup_list_NoDup (l : list expression) :
  NoDup (map id l) -> NoDup (map id (setup_list l)).
Proof.
  intros H. unfold setup_list. rewrite map_id_map_place.
  assert (H1 := NoDup_set_items base_items l H).
  assert (H2 : NoDup (map id
              (if negb (has "bounds x1" (map id l))
               then set_items edge_items (set_items base_items l)
               else set_items base_items l))).
  { destruct (negb (has "bounds x1" (map id l)));
      [apply NoDup_set_items|]; exact H1. }
  destruct (negb (has "bounds time" (map id l)));
    [apply NoDup_set_item|]; exact H2.
Qed.

End SetupList.

(** ** Runs of the monad *)

Section Runs.

Lemma bind_returned {A B} (m : M A) (k : A -> M B) (w w' : world) (b : B) :
  bind m k w = Returned b w' ->
  exists a w1, m w = Returned a w1 /\ k a w1 = Returned b w'.
Proof.
  unfold bind. destruct (m w) as [a w1|e w1|w1]; intros H;
    try discriminate.
  exists a, w1. split; [reflexivity | exact H].
Qed.

Lemma setup_calc_run (h : host) (w : world) :
  calc (after_setup h w) = setup_calc (calc w).
Proof.
  unfold after_setup, setup, bind, on_calc, get_calc, set_bounds, await,
    ret; simpl.
  repeat match goal with
         | |- context [settled ?o] => destruct (settled o)
         end; reflexivity.
Qed.

Lemma Promise_all_decoded (h : host) (srcs : list string) :
  forallb (decodes h) srcs = true ->
  Promise_all (map (fun src => if decodes h src
                               then Fulfilled src else Pending) srcs)
  = Fulfilled srcs.
Proof.
  induction srcs as [|a r IH]; simpl; intros H; [reflexivity|].
  apply andb_prop in H. destruct H as [Ha Hr].
  rewrite Ha, (IH Hr). reflexivity.
Qed.

Lemma Promise_all_undecoded (h : host) (srcs : list string) :
  forallb (decodes h) srcs = false ->
  Promise_all (map (fun src => if decodes h src
                               then Fulfilled src else Pending) srcs)
  = Pending.
Proof.
  induction srcs as [|a r IH]; simpl; intros H; [discriminate|].
  destruct (decodes h a); simpl in H; [|reflexivity].
  rewrite (IH H). reflexivity.
Qed.

(** Loading never fails and never waits: each [loadImage] logs the
    image and hands back its promise. *)
Lemma for_each_loadImage (h : host) (srcs : list string) (w : world) :
  for_each (loadImage h) srcs w
  = Returned (map (fun src => if decodes h src
                              then Fulfilled src else Pending) srcs)
             {| calc := calc w; bounds := bounds w;
                trace := trace w ++ map NewImage srcs |}.
Proof.
  revert w. induction srcs as [|a r IH]; intros w; simpl.
  - unfold ret. rewrite app_nil_r. destruct w; reflexivity.
  - unfold bind at 1. unfold loadImage at 1.
    unfold bind at 1. unfold emit at 1. unfold ret at 1.
    unfold bind at 1. rewrite IH. unfold ret. simpl.
    rewrite <- app_assoc. reflexivity.
Qed.

Lemma for_each_timers (st : Settings.t) (l : list (nat * string))
  (w : world) :
  for_each (fun ii => emit (SetTimeout (DrawImage (fst ii) (snd ii))
                                       (mul (delay_of st) (of_nat (fst ii)))))
           l w
  = Returned (map (fun _ => tt) l)
             {| calc := calc w; bounds := bounds w;
                trace := trace w
                         ++ map (fun ii => SetTimeout
                                             (DrawImage (fst ii) (snd ii))
                                             (draw_offset st (fst ii))) l |}.
Proof.
  revert w. induction l as [|a r IH]; intros w; simpl.
  - unfold ret. rewrite app_nil_r. destruct w; reflexivity.
  - unfold bind at 1. unfold emit at 1.
    unfold bind at 1. rewrite IH. unfold ret. simpl.
    rewrite <- app_assoc. reflexivity.
Qed.

(** [createVideo] when every image decodes. *)
Lemma createVideo_decoded (h : host) (srcs : list string)
  (wd ht : number) (st : Settings.t) (w : world) :
  forallb (decodes h) srcs = true ->
  createVideo h srcs wd ht st w
  = Returned {| timeline := map (fun ii => (draw_offset st (fst ii), snd ii))
                                (indexed 0 srcs);
                stopped_at := draw_offset st (List.length srcs) |}
             {| calc := calc w; bounds := bounds w;
                trace := trace w ++ loading wd ht srcs
                         ++ [RecorderStart] ++ schedule st srcs |}.
Proof.
  intros Hd. unfold createVideo.
  unfold bind at 1. unfold emit at 1.
  unfold bind at 1. unfold emit at 1.
  unfold bind at 1. rewrite for_each_loadImage.
  unfold bind at 1. rewrite (Promise_all_decoded h srcs Hd).
  unfold await at 1.
  unfold bind at 1. unfold emit at 1.
  unfold bind at 1.
  fold (delay_of st). rewrite for_each_timers.
  unfold bind at 1. unfold emit at 1. unfold ret. simpl.
  unfold loading, schedule, draw_offset. simpl.
  repeat rewrite <- app_assoc. reflexivity.
Qed.

(** [createVideo] when some image does not decode. *)
Lemma createVideo_undecoded (h : host) (srcs : list string)
  (wd ht : number) (st : Settings.t) (w : world) :
  forallb (decodes h) srcs = false ->
  createVideo h srcs wd ht st w
  = Hangs {| calc := calc w; bounds := bounds w;
             trace := trace w ++ loading wd ht srcs |}.
Proof.
  intros Hd. unfold createVideo.
  unfold bind at 1. unfold emit at 1.
  unfold bind at 1. unfold emit at 1.
  unfold bind at 1. rewrite for_each_loadImage.
  unfold bind at 1. rewrite (Promise_all_undecoded h srcs Hd).
  unfold await at 1. simpl. unfold loading. simpl.
  repeat rewrite <- app_assoc. reflexivity.
Qed.

End Runs.

(** ** [captureFrames] *)

Section Capture.

Variable h : host.
Variable o : screenshot_opts.

(** [captureFrames] with its sequencing spelled out. *)
Lemma captureFrames_unfold (st : Settings.t) (w : world) :
  captureFrames h st o w
  = match find_id "bounds" (expressions (calc w)) with
    | None => Threw "TypeError" w
    | Some folder =>
        let w1 := with_calc (hide_chrome (calc w)) w in
        match find_id "bounds time" (expressions (calc w)) with
        | None => Threw "TypeError" w1
        | Some s =>
            match sliderBounds s with
            | None => Threw "TypeError" w1
            | Some sb =>
                match settled (evaluate h (calc w1) (min sb)) with
                | Pending => Hangs w1
                | Fulfilled mn =>
                    match settled (evaluate h (calc w1) (max sb)) with
                    | Pending => Hangs w1
                    | Fulfilled mx =>
                        match for_each
                                (capture_body h o
                                   (sample_time mn mx (Settings.frames st)))
                                (seq 0 (Settings.frames st)) w1 with
                        | Returned fs w2 =>
                            Returned fs
                              (with_calc
                                 (restore_chrome (hidden folder)
                                    (settings (calc w)) (calc w2)) w2)
                        | Threw e w2 => Threw e w2
                        | Hangs w2 => Hangs w2
                        end
                    end
                end
            end
        end
    end.
Proof.
  unfold captureFrames.
  unfold bind at 1. unfold get_calc at 1.
  unfold bind at 1. unfold getExpressions.
  destruct (find_id "bounds" (expressions (calc w))) as [folder|];
    [|reflexivity].
  unfold property at 1, ret at 1.
  unfold bind at 1. unfold on_calc at 1.
  unfold bind at 1. unfold on_calc at 1.
  unfold bind at 1.
  destruct (find_id "bounds time" (expressions (calc w))) as [s|];
    [|reflexivity].
  unfold property at 1, ret at 1.
  unfold bind at 1.
  destruct (sliderBounds s) as [sb|]; [|reflexivity].
  unfold property at 1, ret at 1.
  unfold bind at 1. unfold get_calc at 1.
  unfold bind at 1. cbv zeta. simpl calc.
  fold (hide_chrome (calc w)).
  change (with_calc (hide_chrome (calc w)) w)
    with {| calc := hide_chrome (calc w); bounds := bounds w;
            trace := trace w |}.
  simpl calc.
  destruct (settled (evaluate h (hide_chrome (calc w)) (min sb)))
    as [|mn]; [reflexivity|].
  unfold await at 1.
  unfold bind at 1. unfold get_calc at 1.
  unfold bind at 1. simpl calc.
  destruct (settled (evaluate h (hide_chrome (calc w)) (max sb)))
    as [|mx]; [reflexivity|].
  unfold await at 1.
  unfold bind at 1.
  match goal with
  | |- match ?run with _ => _ end = match ?run' with _ => _ end =>
      change run' with run; destruct run as [fs w2|e w2|w2]
  end; reflexivity.
Qed.

Variable t : nat -> number.

Lemma capture_body_run (i : nat) (w : world) :
  let c' := setExpression (time_is (t i)) (calc w) in
  let w' := {| calc := c'; bounds := bounds w;
               trace := trace w ++ [Screenshot o c'] |} in
  capture_body h o t i w
  = match asyncScreenshot h c' o with
    | CallsBack dataurl => Returned dataurl w'
    | Throws => Threw "asyncScreenshot" w'
    | Never => Hangs w'
    end.
Proof.
  unfold capture_body, screenshot, bind, on_calc, get_calc, emit; simpl.
  destruct (asyncScreenshot h _ o); reflexivity.
Qed.

(** However the loop ends, it has made the first [k] assignments and
    the first [k] requests; it returns only after all of them. *)
Lemma capture_loop (l : list nat) (w : world) :
  exists k,
    k <= List.length l
    /\ calc (world_of (for_each (capture_body h o t) l w))
       = sweep t (firstn k l) (calc w)
    /\ trace (world_of (for_each (capture_body h o t) l w))
       = trace w ++ shots o t (firstn k l) (calc w)
    /\ bounds (world_of (for_each (capture_body h o t) l w)) = bounds w
    /\ (forall fs w', for_each (capture_body h o t) l w = Returned fs w' ->
          k = List.length l /\ List.length fs = List.length l).
Proof.
  revert w. induction l as [|i r IH]; intros w.
  - exists 0. simpl. rewrite app_nil_r.
    split; [lia|]. split; [reflexivity|]. split; [reflexivity|].
    split; [reflexivity|].
    intros bs w' H. injection H as <- _. split; reflexivity.
  - set (c' := setExpression (time_is (t i)) (calc w)).
    set (w1 := {| calc := c'; bounds := bounds w;
                  trace := trace w ++ [Screenshot o c'] |}).
    assert (E : for_each (capture_body h o t) (i :: r) w
                = match asyncScreenshot h c' o with
                  | CallsBack d =>
                      bind (for_each (capture_body h o t) r)
                           (fun bs => ret (d :: bs)) w1
                  | Throws => Threw "asyncScreenshot" w1
                  | Never => Hangs w1
                  end).
    { simpl for_each. unfold bind at 1. rewrite capture_body_run.
      cbv zeta. fold c'. fold w1.
      destruct (asyncScreenshot h c' o); reflexivity. }
    rewrite E. clear E.
    destruct (asyncScreenshot h c' o) as [d| |].
    + match goal with
      | |- context [for_each (capture_body h o t) r] =>
          destruct (IH w1) as [k [Hk [Hc [Ht [Hb Hr]]]]];
          set (run := for_each (capture_body h o t) r) in *
      end.
      exists (S k). simpl in Hc, Ht, Hb.
      assert (Hw : world_of (bind run (fun bs => ret (d :: bs)) w1)
                   = world_of (run w1)).
      { unfold bind, ret. destruct (run w1); reflexivity. }
      rewrite Hw. simpl. rewrite Hc, Ht, Hb, <- app_assoc.
      split; [lia|]. split; [reflexivity|]. split; [reflexivity|].
      split; [reflexivity|].
      intros bs w' H.
      unfold bind, ret in H. destruct (run w1) as [bs2 w2|e w2|w2];
        try discriminate.
      destruct (Hr bs2 w2 eq_refl) as [-> Hl].
      injection H as <- _. simpl. rewrite Hl. split; reflexivity.
    + exists 1. simpl.
      split; [lia|]. split; [reflexivity|]. split; [reflexivity|].
      split; [reflexivity|]. intros; discriminate.
    + exists 1. simpl.
      split; [lia|]. split; [reflexivity|]. split; [reflexivity|].
      split; [reflexivity|]. intros; discriminate.
Qed.

End Capture.

(** ** Comparison of numbers *)

Section Comparison.

Lemma SFcompare_antisym (a b : number) :
  SFcompare b a = option_map CompOpp (SFcompare a b).
Proof.
  destruct a as [sa|sa| |sa ma ea], b as [sb|sb| |sb mb eb]; simpl;
    try reflexivity;
    try (destruct sa; reflexivity); try (destruct sb; reflexivity);
    try (destruct sa, sb; reflexivity).
  rewrite (Z.compare_antisym ea eb).
  change (Pos.compare_cont Eq mb ma) with (Pos.compare mb ma).
  change (Pos.compare_cont Eq ma mb) with (Pos.compare ma mb).
  rewrite (Pos.compare_antisym ma mb).
  destruct sa, sb; simpl; try reflexivity;
    destruct (Z.compare ea eb); simpl; try reflexivity;
    destruct (Pos.compare ma mb); reflexivity.
Qed.

Lemma SFcompare_Eq (a b : number) :
  SFcompare a b = Some Eq ->
  a = b \/ exists s s', a = S754_zero s /\ b = S754_zero s'.
Proof.
  destruct a as [sa|sa| |sa ma ea], b as [sb|sb| |sb mb eb]; simpl;
    intros H; try discriminate H;
    try (right; do 2 eexists; split; reflexivity);
    try (destruct sa; discriminate H);
    try (destruct sb; discriminate H);
    try (destruct sa, sb; try discriminate H; left; reflexivity).
  change (Pos.compare_cont Eq ma mb) with (Pos.compare ma mb) in H.
  destruct sa, sb; try discriminate H;
    destruct (Z.compare_spec ea eb); try discriminate H;
    destruct (Pos.compare_spec ma mb); try discriminate H;
    subst; left; reflexivity.
Qed.

Lemma SFcompare_None (a b : number) :
  SFcompare a b = None -> is_nan a = true \/ is_nan b = true.
Proof.
  destruct a as [sa|sa| |sa ma ea], b as [sb|sb| |sb mb eb]; simpl;
    try discriminate; auto.
Qed.

Lemma SFcompare_refl (a : number) :
  is_nan a = false -> SFcompare a a = Some Eq.
Proof.
  destruct a as [sa|sa| |sa ma ea]; simpl; try discriminate; intros _.
  - reflexivity.
  - destruct sa; reflexivity.
  - rewrite Z.compare_refl.
    change (Pos.compare_cont Eq ma ma) with (Pos.compare ma ma).
    rewrite Pos.compare_refl. destruct sa; reflexivity.
Qed.

Lemma Math_min_comm (a b : number) : Math_min a b = Math_min b a.
Proof.
  unfold Math_min. rewrite (SFcompare_antisym a b).
  destruct (SFcompare a b) as [[| |]|] eqn:E; simpl; try reflexivity.
  destruct (SFcompare_Eq a b E) as [->|[s [s' [-> ->]]]].
  - destruct b as [[|]| | |]; reflexivity.
  - destruct s, s'; reflexivity.
Qed.

Lemma Math_max_comm (a b : number) : Math_max a b = Math_max b a.
Proof.
  unfold Math_max. rewrite (SFcompare_antisym a b).
  destruct (SFcompare a b) as [[| |]|] eqn:E; simpl; try reflexivity.
  destruct (SFcompare_Eq a b E) as [->|[s [s' [-> ->]]]].
  - destruct b as [[|]| | |]; reflexivity.
  - destruct s, s'; reflexivity.
Qed.

Lemma Math_min_le_max (a b : number) :
  is_nan a = false -> is_nan b = false ->
  leb (Math_min a b) (Math_max a b) = true.
Proof.
  intros Ha Hb. unfold Math_min, Math_max, leb, SFleb.
  destruct (SFcompare a b) as [[| |]|] eqn:E.
  - destruct (SFcompare_Eq a b E) as [->|[s [s' [-> ->]]]].
    + assert (R := SFcompare_refl b Hb).
      destruct b as [[|]| | |]; rewrite R; reflexivity.
    + destruct s, s'; reflexivity.
  - rewrite E. reflexivity.
  - rewrite (SFcompare_antisym a b), E. reflexivity.
  - destruct (SFcompare_None a b E); congruence.
Qed.

End Comparison.

(** ** The chrome and the time slider through a capture *)

Section Chrome.

Lemma settings_eta (g : graph_settings) :
  {| showGrid := showGrid g; showXAxis := showXAxis g;
     showYAxis := showYAxis g |} = g.
Proof. destruct g; reflexivity. Qed.

Lemma chrome_time_is (time : number) (c : calculator) :
  chrome (setExpression (time_is time) c) = chrome c.
Proof.
  unfold chrome, setExpression; simpl.
  rewrite find_id_set_item_other by (simpl; discriminate).
  reflexivity.
Qed.

Lemma chrome_sweep (t : nat -> number) (l : list nat) (c : calculator) :
  chrome (sweep t l c) = chrome c.
Proof.
  unfold sweep. revert c.
  induction l as [|i r IH]; intros c; simpl; [reflexivity|].
  rewrite IH. apply chrome_time_is.
Qed.

Lemma hidden_set_hide (b : bool) (l : list expression) :
  option_map hidden (find_id "bounds" (set_item (hide "bounds" b) l))
  = Some b.
Proof.
  change "bounds" with (u_id (hide "bounds" b)) at 1.
  rewrite find_id_set_item_same.
  destruct (find_id (u_id (hide "bounds" b)) l); reflexivity.
Qed.

Lemma chrome_hide_chrome (c : calculator) :
  chrome (hide_chrome c) = chrome_hidden.
Proof.
  unfold chrome, hide_chrome, setExpression, updateSettings; simpl.
  rewrite hidden_set_hide. reflexivity.
Qed.

Lemma chrome_restore_chrome (b : bool) (g : graph_settings)
  (c : calculator) :
  chrome (restore_chrome b g c) = (g, Some b).
Proof.
  unfold chrome, restore_chrome, setExpression, updateSettings; simpl.
  rewrite hidden_set_hide, settings_eta. reflexivity.
Qed.

Lemma latex_of_time_is (time : number) (c : calculator) :
  latex_of "bounds time" (setExpression (time_is time) c)
  = Some (TimeAssign time).
Proof.
  unfold latex_of, setExpression; simpl.
  change "bounds time" with (u_id (time_is time)) at 1.
  rewrite find_id_set_item_same.
  destruct (find_id (u_id (time_is time)) (expressions c)); reflexivity.
Qed.

Lemma latex_of_restore_chrome (i : string) (b : bool) (g : graph_settings)
  (c : calculator) :
  i <> "bounds" ->
  latex_of i (restore_chrome b g c) = latex_of i c.
Proof.
  intros Hi. unfold latex_of, restore_chrome, setExpression, updateSettings.
  simpl. rewrite find_id_set_item_other by (simpl; congruence).
  reflexivity.
Qed.

Lemma sweep_snoc (t : nat -> number) (l : list nat) (i : nat)
  (c : calculator) :
  sweep t (l ++ [i]) c = setExpression (time_is (t i)) (sweep t l c).
Proof. unfold sweep. rewrite fold_left_app. reflexivity. Qed.

(** The slider a request shows is the one assigned just before it. *)
Lemma shown_time_shots (o : screenshot_opts) (t : nat -> number)
  (l : list nat) (c : calculator) :
  map shown_time (shots o t l c)
  = map (fun i => Some (TimeAssign (t i))) l.
Proof.
  revert c. induction l as [|i r IH]; intros c; simpl; [reflexivity|].
  rewrite latex_of_time_is, IH. reflexivity.
Qed.

Lemma sized_shots (o : screenshot_opts) (t : nat -> number)
  (l : list nat) (c : calculator) :
  Forall (sized o) (shots o t l c).
Proof.
  revert c. induction l as [|i r IH]; intros c; simpl; constructor.
  - reflexivity.
  - apply IH.
Qed.

(** A capture that returns: what it read, what it left and what it
    asked for. *)
Lemma captureFrames_returned (h : host) (o : screenshot_opts)
  (st : Settings.t) (w w' : world) (fs : list string) :
  captureFrames h st o w = Returned fs w' ->
  exists folder s sb mn mx,
    find_id "bounds" (expressions (calc w)) = Some folder
    /\ find_id "bounds time" (expressions (calc w)) = Some s
    /\ sliderBounds s = Some sb
    /\ settled (evaluate h (hide_chrome (calc w)) (min sb)) = Fulfilled mn
    /\ settled (evaluate h (hide_chrome (calc w)) (max sb)) = Fulfilled mx
    /\ calc w'
       = restore_chrome (hidden folder) (settings (calc w))
           (sweep (sample_time mn mx (Settings.frames st))
                  (seq 0 (Settings.frames st)) (hide_chrome (calc w)))
    /\ trace w'
       = trace w ++ shots o (sample_time mn mx (Settings.frames st))
                          (seq 0 (Settings.frames st)) (hide_chrome (calc w))
    /\ List.length fs = Settings.frames st.
Proof.
  rewrite captureFrames_unfold. cbv zeta.
  destruct (find_id "bounds" (expressions (calc w))) as [folder|] eqn:Ef;
    [|discriminate].
  destruct (find_id "bounds time" (expressions (calc w))) as [s|] eqn:Es;
    [|discriminate].
  destruct (sliderBounds s) as [sb|] eqn:Esb; [|discriminate].
  simpl calc.
  destruct (settled (evaluate h (hide_chrome (calc w)) (min sb)))
    as [|mn] eqn:Emn; [discriminate|].
  destruct (settled (evaluate h (hide_chrome (calc w)) (max sb)))
    as [|mx] eqn:Emx; [discriminate|].
  set (t := sample_time mn mx (Settings.frames st)).
  destruct (capture_loop h o t (seq 0 (Settings.frames st))
              (with_calc (hide_chrome (calc w)) w))
    as [k [_ [Hc [Ht [_ Hr]]]]].
  destruct (for_each (capture_body h o t) (seq 0 (Settings.frames st))
              (with_calc (hide_chrome (calc w)) w))
    as [bs w2|e w2|w2]; try discriminate.
  intros H. injection H as <- <-.
  destruct (Hr bs w2 eq_refl) as [-> Hl].
  rewrite firstn_all in Hc, Ht. simpl in Hc, Ht.
  rewrite length_seq in Hl.
  exists folder, s, sb, mn, mx.
  simpl. rewrite Hc, Ht. repeat split; try reflexivity; assumption.
Qed.

(** The slider after a capture of at least one frame. *)
Lemma captureFrames_leaves_last_sample (h : host) (o : screenshot_opts)
  (st : Settings.t) (w w' : world) (fs : list string) :
  1 <= Settings.frames st ->
  captureFrames h st o w = Returned fs w' ->
  exists s sb mn mx,
    find_id "bounds time" (expressions (calc w)) = Some s
    /\ sliderBounds s = Some sb
    /\ settled (evaluate h (hide_chrome (calc w)) (min sb)) = Fulfilled mn
    /\ settled (evaluate h (hide_chrome (calc w)) (max sb)) = Fulfilled mx
    /\ latex_of "bounds time" (calc w')
       = Some (TimeAssign (sample_time mn mx (Settings.frames st)
                                       (Settings.frames st - 1))).
Proof.
  intros Hn H.
  destruct (captureFrames_returned h o st w w' fs H)
    as [folder [s [sb [mn [mx [_ [Hs [Hsb [Hmn [Hmx [Hc _]]]]]]]]]]].
  exists s, sb, mn, mx. repeat split; try assumption.
  rewrite Hc, latex_of_restore_chrome by discriminate.
  destruct (Settings.frames st) as [|n]; [lia|].
  rewrite seq_S, sweep_snoc, latex_of_time_is. simpl.
  rewrite Nat.sub_0_r. reflexivity.
Qed.

End Chrome.

(** ** The value observer *)

Section Observer.

Context {A : Type} (cb : helper -> A).

Lemma notify_observed (o : observation A) (v : number) :
  helperLatex (observed (notify cb o v)) = helperLatex (observed o)
  /\ observers (observed (notify cb o v)) = observers (observed o).
Proof.
  unfold notify; simpl. destruct (observers (observed o)); split; reflexivity.
Qed.

Lemma deliver_observed (vs : list number) (o : observation A) :
  observers (observed o) <> 0 ->
  helperLatex (observed (deliver cb vs o)) = helperLatex (observed o)
  /\ observers (observed (deliver cb vs o)) = observers (observed o)
  /\ calls (deliver cb vs o) = calls o + List.length vs.
Proof.
  unfold deliver. revert o.
  induction vs as [|v r IH]; intros o Ho; simpl.
  - repeat split. lia.
  - destruct (notify_observed o v) as [N1 N2].
    destruct (IH (notify cb o v)) as [H1 [H2 H3]]; [congruence|].
    rewrite H1, H2, H3, N1, N2. repeat split.
    unfold notify; simpl.
    destruct (observers (observed o)); [contradiction|]. simpl. lia.
Qed.

Lemma deliver_fulfilled (vs : list number) (o : observation A) (a : A) :
  settled o = Fulfilled a -> settled (deliver cb vs o) = Fulfilled a.
Proof.
  unfold deliver. revert o.
  induction vs as [|v r IH]; intros o H; simpl; [exact H|].
  apply IH. unfold notify; simpl.
  destruct (observers (observed o)); simpl; rewrite H; reflexivity.
Qed.

Lemma deliver_first (v : number) (vs : list number) (o : observation A) :
  observers (observed o) <> 0 ->
  settled o = Pending ->
  settled (deliver cb (v :: vs) o)
  = Fulfilled (cb {| helperLatex := helperLatex (observed o);
                     numericValue := v;
                     observers := observers (observed o) |}).
Proof.
  intros Ho H. change (deliver cb (v :: vs) o)
    with (deliver cb vs (notify cb o v)).
  apply deliver_fulfilled. unfold notify; simpl.
  destruct (observers (observed o)); [contradiction|].
  simpl. rewrite H. reflexivity.
Qed.

End Observer.

(** ** Doubles of integers and their products *)

Section Integers.

Local Open Scope Z_scope.

(** A positive integer with [d] binary digits lies in [2^(d-1), 2^d). *)
Lemma digits2_pos_bounds (p : positive) :
  2 ^ (Zpos (digits2_pos p) - 1) <= Zpos p < 2 ^ Zpos (digits2_pos p).
Proof.
  induction p as [p IH | p IH |]; cbn [digits2_pos].
  - rewrite Pos2Z.inj_succ.
    replace (Z.succ (Zpos (digits2_pos p)) - 1)
      with (Z.succ (Zpos (digits2_pos p) - 1)) by lia.
    rewrite !Z.pow_succ_r by lia. lia.
  - rewrite Pos2Z.inj_succ.
    replace (Z.succ (Zpos (digits2_pos p)) - 1)
      with (Z.succ (Zpos (digits2_pos p) - 1)) by lia.
    rewrite !Z.pow_succ_r by lia. lia.
  - cbn. lia.
Qed.

Lemma digits2_pos_unique (p : positive) (d : Z) :
  2 ^ (d - 1) <= Zpos p < 2 ^ d -> 1 <= d -> Zpos (digits2_pos p) = d.
Proof.
  intros [L U] Hd.
  destruct (digits2_pos_bounds p) as [L' U'].
  assert (Zpos (digits2_pos p) - 1 < d).
  { apply (Z.pow_lt_mono_r_iff 2); lia. }
  assert (d - 1 < Zpos (digits2_pos p)).
  { apply (Z.pow_lt_mono_r_iff 2); lia. }
  lia.
Qed.

Lemma digits2_pos_le (a b : positive) :
  Zpos a <= Zpos b -> Zpos (digits2_pos a) <= Zpos (digits2_pos b).
Proof.
  intros H.
  destruct (digits2_pos_bounds a) as [La Ua].
  destruct (digits2_pos_bounds b) as [Lb Ub].
  assert (Zpos (digits2_pos a) - 1 < Zpos (digits2_pos b)); [|lia].
  apply (Z.pow_lt_mono_r_iff 2); lia.
Qed.

Lemma digits2_pos_mul (a b : positive) :
  Zpos (digits2_pos (a * b))
  <= Zpos (digits2_pos a) + Zpos (digits2_pos b).
Proof.
  destruct (digits2_pos_bounds a) as [La Ua].
  destruct (digits2_pos_bounds b) as [Lb Ub].
  destruct (digits2_pos_bounds (a * b)) as [Lc Uc].
  assert (Zpos (digits2_pos (a * b)) - 1
          < Zpos (digits2_pos a) + Zpos (digits2_pos b)); [|lia].
  apply (Z.pow_lt_mono_r_iff 2); [lia | lia |].
  rewrite Z.pow_add_r by lia.
  apply Z.le_lt_trans with (Zpos a * Zpos b);
    [rewrite <- Pos2Z.inj_mul; exact Lc |].
  apply Z.mul_lt_mono_nonneg; lia.
Qed.

(** Shifting left by [n] digits. *)
Lemma iter_xO_value (p n : positive) :
  Zpos (Pos.iter xO p n) = Zpos p * 2 ^ Zpos n.
Proof.
  induction n as [ | n IH] using Pos.peano_ind.
  - cbn. lia.
  - rewrite Pos.iter_succ, Pos2Z.inj_xO, IH, Pos2Z.inj_succ, Z.pow_succ_r
      by lia.
    lia.
Qed.

Lemma digits2_pos_iter_xO (m n : positive) :
  Zpos (digits2_pos (Pos.iter xO m n)) = Zpos (digits2_pos m) + Zpos n.
Proof.
  apply digits2_pos_unique; [| lia].
  rewrite iter_xO_value.
  destruct (digits2_pos_bounds m) as [L U].
  replace (Zpos (digits2_pos m) + Zpos n - 1)
    with ((Zpos (digits2_pos m) - 1) + Zpos n) by lia.
  rewrite !Z.pow_add_r by lia.
  assert (0 < 2 ^ Zpos n) by (apply Z.pow_pos_nonneg; lia).
  split; nia.
Qed.

(** The iterator of the library's rounding is [Pos.iter]. *)
Lemma iter_pos_iter {A : Type} (f : A -> A) (n : positive) (x : A) :
  iter_pos f n x = Pos.iter f x n.
Proof.
  revert x. induction n as [n IH | n IH |]; intro x; cbn [iter_pos Pos.iter].
  - rewrite !IH. rewrite <- !Pos.iter_swap. reflexivity.
  - rewrite !IH. reflexivity.
  - reflexivity.
Qed.

(** Shifting out [n] zero digits leaves no remainder. *)
Lemma shr_exact (m n : positive) :
  iter_pos shr_1 n
    {| shr_m := Zpos (Pos.iter xO m n); shr_r := false; shr_s := false |}
  = {| shr_m := Zpos m; shr_r := false; shr_s := false |}.
Proof.
  rewrite iter_pos_iter.
  induction n as [ | n IH] using Pos.peano_ind.
  - reflexivity.
  - rewrite Pos.iter_succ_r. rewrite Pos.iter_succ. cbn [shr_1 orb]. exact IH.
Qed.

(** One step of the right shift: the mantissa is halved, the digit
    shifted out becomes the round bit and the old round bit is added to
    the sticky bit. *)
Lemma shr_1_spec (r : shr_record) :
  0 <= shr_m r ->
  shr_m (shr_1 r) = shr_m r / 2
  /\ shr_r (shr_1 r) = Z.odd (shr_m r)
  /\ shr_s (shr_1 r) = shr_r r || shr_s r.
Proof.
  destruct r as [m b c]. cbn [shr_m shr_r shr_s]. intros H.
  rewrite <- Z.div2_div.
  destruct m as [|[p|p|]|p]; try lia; cbn; repeat split; reflexivity.
Qed.

Lemma divide_pow2_succ (a k : Z) :
  0 <= k -> a mod 2 ^ (Z.succ k) = 0 ->
  a mod 2 ^ k = 0 /\ Z.odd (a / 2 ^ k) = false.
Proof.
  intros Hk H. rewrite Z.pow_succ_r in H by lia.
  assert (P : 0 < 2 ^ k) by (apply Z.pow_pos_nonneg; lia).
  apply Z.mod_divide in H; [|lia]. destruct H as [c Hc]. subst a.
  replace (c * (2 * 2 ^ k)) with ((c * 2) * 2 ^ k) by ring.
  split.
  - apply Z.mod_mul. lia.
  - rewrite Z.div_mul by lia. rewrite Z.odd_mul. apply andb_false_r.
Qed.

(** [k] steps of the right shift divide by [2^k]; when nothing is
    lost the location is exact. *)
Lemma iter_shr_1 (M k : positive) :
  shr_m (iter_pos shr_1 k
           {| shr_m := Zpos M; shr_r := false; shr_s := false |})
  = Zpos M / 2 ^ Zpos k
  /\ (Zpos M mod 2 ^ Zpos k = 0 ->
      loc_of_shr_record
        (iter_pos shr_1 k
           {| shr_m := Zpos M; shr_r := false; shr_s := false |})
      = loc_Exact).
Proof.
  rewrite iter_pos_iter.
  assert (K : shr_m (Pos.iter shr_1
                       {| shr_m := Zpos M; shr_r := false; shr_s := false |} k)
              = Zpos M / 2 ^ Zpos k
              /\ (Zpos M mod 2 ^ Zpos k = 0 ->
                  shr_r (Pos.iter shr_1
                           {| shr_m := Zpos M; shr_r := false;
                              shr_s := false |} k) = false
                  /\ shr_s (Pos.iter shr_1
                              {| shr_m := Zpos M; shr_r := false;
                                 shr_s := false |} k) = false)).
  { induction k as [|k IH] using Pos.peano_ind.
    - cbn [Pos.iter].
      destruct (shr_1_spec {| shr_m := Zpos M; shr_r := false;
                              shr_s := false |}) as [A [B C]];
        [cbn; lia|].
      cbn [shr_m shr_r shr_s] in A, B, C. rewrite A, B, C.
      split; [reflexivity|]. intros H.
      rewrite Zmod_odd in H. destruct (Z.odd (Zpos M)); [discriminate|].
      split; reflexivity.
    - rewrite Pos.iter_succ.
      set (r := Pos.iter shr_1 _ k) in *. destruct IH as [Hm Hx].
      assert (P : 0 < 2 ^ Zpos k) by (apply Z.pow_pos_nonneg; lia).
      destruct (shr_1_spec r) as [A [B C]];
        [rewrite Hm; apply Z.div_pos; lia|].
      rewrite A, B, C, Hm. rewrite Pos2Z.inj_succ. split.
      + rewrite Z.pow_succ_r by lia.
        rewrite Z.div_div by lia. f_equal. ring.
      + intros Hdiv.
        destruct (divide_pow2_succ _ _ (Pos2Z.is_nonneg k) Hdiv) as [D1 D2].
        destruct (Hx D1) as [R S]. rewrite R, S, D2. split; reflexivity. }
  destruct K as [K1 K2]. split; [exact K1|].
  intros H. destruct (K2 H) as [R S].
  destruct (Pos.iter shr_1 _ k) as [m b c]. cbn in R, S. subst b c.
  reflexivity.
Qed.

Lemma round_nearest_even_bounds (q : Z) (l : location) :
  q <= round_nearest_even q l <= q + 1.
Proof.
  destruct l as [|[| |]]; cbn; try destruct (Z.even q); lia.
Qed.

Lemma fexp_normal (d : Z) : -1021 <= d -> fexp prec emax d = d - 53.
Proof. intro H. unfold fexp, emin, prec, emax. lia. Qed.

(** A mantissa that is in place is not rounded. *)
Lemma round_canonical (s : bool) (m : positive) (e : Z) :
  fexp prec emax (Zpos (digits2_pos m) + e) = e -> e <= 971 ->
  binary_round_aux prec emax s (Zpos m) e loc_Exact = S754_finite s m e.
Proof.
  intros D He.
  assert (S : shr_fexp prec emax (Zpos m) e loc_Exact
              = ({| shr_m := Zpos m; shr_r := false; shr_s := false |}, e)).
  { unfold shr_fexp. cbn [Zdigits2 shr_record_of_loc]. rewrite D.
    rewrite Z.sub_diag. reflexivity. }
  unfold binary_round_aux. rewrite S.
  cbn [shr_m loc_of_shr_record round_nearest_even]. rewrite S. cbn [shr_m].
  replace (e <=? emax - prec) with true; [reflexivity |].
  symmetry. apply Z.leb_le. unfold emax, prec. lia.
Qed.

(** Nor is one that is in place after [n] zero digits are shifted
    out. *)
Lemma round_shifted_canonical (s : bool) (m n : positive) (e : Z) :
  fexp prec emax (Zpos (digits2_pos m) + (e + Zpos n)) = e + Zpos n ->
  e + Zpos n <= 971 ->
  binary_round_aux prec emax s (Zpos (Pos.iter xO m n)) e loc_Exact
  = S754_finite s m (e + Zpos n).
Proof.
  intros D He.
  assert (S : shr_fexp prec emax (Zpos (Pos.iter xO m n)) e loc_Exact
              = ({| shr_m := Zpos m; shr_r := false; shr_s := false |},
                 e + Zpos n)).
  { unfold shr_fexp. cbn [Zdigits2 shr_record_of_loc].
    rewrite digits2_pos_iter_xO.
    replace (Zpos (digits2_pos m) + Zpos n + e)
      with (Zpos (digits2_pos m) + (e + Zpos n)) by lia.
    rewrite D.
    replace (e + Zpos n - e) with (Zpos n) by lia.
    cbn [shr]. rewrite shr_exact. reflexivity. }
  assert (S' : shr_fexp prec emax (Zpos m) (e + Zpos n) loc_Exact
              = ({| shr_m := Zpos m; shr_r := false; shr_s := false |},
                 e + Zpos n)).
  { unfold shr_fexp. cbn [Zdigits2 shr_record_of_loc]. rewrite D.
    rewrite Z.sub_diag. reflexivity. }
  unfold binary_round_aux. rewrite S.
  cbn [shr_m loc_of_shr_record round_nearest_even]. rewrite S'. cbn [shr_m].
  replace (e + Zpos n <=? emax - prec) with true; [reflexivity |].
  symmetry. apply Z.leb_le. unfold emax, prec. lia.
Qed.

(** Rounding a mantissa of [53 + s] digits: [s] digits are shifted out
    and the rest is kept or increased by one. *)
Lemma round_inexact (M s : positive) (E : Z) :
  Zpos (digits2_pos M) = 53 + Zpos s -> -1074 <= E + Zpos s ->
  exists mr : positive,
    Zpos M / 2 ^ Zpos s <= Zpos mr <= Zpos M / 2 ^ Zpos s + 1
    /\ (Zpos M mod 2 ^ Zpos s = 0 -> Zpos mr = Zpos M / 2 ^ Zpos s)
    /\ exists (m2 : positive) (e2 : Z),
         binary_round_aux prec emax false (Zpos M) E loc_Exact
         = (if e2 <=? 971 then S754_finite false m2 e2
            else S754_infinity false)
         /\ Zpos (digits2_pos m2) = 53
         /\ E + Zpos s <= e2
         /\ Zpos m2 * 2 ^ (e2 - (E + Zpos s)) = Zpos mr.
Proof.
  intros D He.
  destruct (digits2_pos_bounds M) as [L U]. rewrite D in L, U.
  assert (P : 0 < 2 ^ Zpos s) by (apply Z.pow_pos_nonneg; lia).
  replace (53 + Zpos s - 1) with (52 + Zpos s) in L by lia.
  rewrite Z.pow_add_r in L, U by lia.
  set (q := Zpos M / 2 ^ Zpos s).
  assert (Lq : 2 ^ 52 <= q).
  { apply Z.div_le_lower_bound; [exact P | lia]. }
  assert (Uq : q < 2 ^ 53).
  { apply Z.div_lt_upper_bound; [exact P | lia]. }
  destruct (iter_shr_1 M s) as [Hm Hx]. fold q in Hm.
  set (rec := iter_pos shr_1 s
                {| shr_m := Zpos M; shr_r := false; shr_s := false |}) in *.
  assert (S : shr_fexp prec emax (Zpos M) E loc_Exact = (rec, E + Zpos s)).
  { unfold shr_fexp. cbn [Zdigits2 shr_record_of_loc]. rewrite D.
    rewrite fexp_normal by lia.
    replace (53 + Zpos s + E - 53 - E) with (Zpos s) by lia.
    reflexivity. }
  pose proof (round_nearest_even_bounds q (loc_of_shr_record rec)) as B.
  destruct (round_nearest_even q (loc_of_shr_record rec)) as [|mr|mr] eqn:R;
    try lia.
  exists mr. split; [exact B|]. split.
  { intros H. rewrite (Hx H) in R. cbn in R. lia. }
  unfold binary_round_aux. rewrite S. rewrite Hm, R.
  destruct (Z.ltb_spec (Zpos mr) (2 ^ 53)) as [Hlt | Hge].
  - assert (Dm : Zpos (digits2_pos mr) = 53).
    { apply digits2_pos_unique; [|lia]. split; [|exact Hlt].
      replace (53 - 1) with 52 by lia. lia. }
    assert (S' : shr_fexp prec emax (Zpos mr) (E + Zpos s) loc_Exact
                 = ({| shr_m := Zpos mr; shr_r := false; shr_s := false |},
                    E + Zpos s)).
    { unfold shr_fexp. cbn [Zdigits2 shr_record_of_loc]. rewrite Dm.
      rewrite fexp_normal by lia.
      replace (53 + (E + Zpos s) - 53 - (E + Zpos s)) with 0 by lia.
      reflexivity. }
    rewrite S'. cbn [shr_m].
    exists mr, (E + Zpos s).
    split; [reflexivity|]. split; [exact Dm|]. split; [lia|].
    rewrite Z.sub_diag. rewrite Z.pow_0_r. lia.
  - assert (Em : mr = 9007199254740992%positive).
    { apply Pos2Z.inj. change (Zpos 9007199254740992) with (2 ^ 53). lia. }
    subst mr.
    assert (S' : shr_fexp prec emax (Zpos 9007199254740992) (E + Zpos s)
                   loc_Exact
                 = ({| shr_m := Zpos 4503599627370496; shr_r := false;
                       shr_s := false |}, E + Zpos s + 1)).
    { unfold shr_fexp. cbn [Zdigits2 shr_record_of_loc].
      change (Zpos (digits2_pos 9007199254740992)) with 54.
      rewrite fexp_normal by lia.
      replace (54 + (E + Zpos s) - 53 - (E + Zpos s)) with 1 by lia.
      reflexivity. }
    rewrite S'. cbn [shr_m].
    exists 4503599627370496%positive, (E + Zpos s + 1).
    split; [reflexivity|]. split; [reflexivity|]. split; [lia|].
    replace (E + Zpos s + 1 - (E + Zpos s)) with 1 by lia. reflexivity.
Qed.

Lemma mantissa_value (p : positive) :
  Zpos p < 2 ^ 53 ->
  Zpos (mantissa p) = Zpos p * 2 ^ (53 - Zpos (digits2_pos p))
  /\ Zpos (digits2_pos (mantissa p)) = 53.
Proof.
  intro B. unfold mantissa.
  destruct (digits2_pos_bounds p) as [L U].
  assert (Zpos (digits2_pos p) <= 53).
  { assert (Zpos (digits2_pos p) - 1 < 53); [| lia].
    apply (Z.pow_lt_mono_r_iff 2); lia. }
  destruct (53 - Zpos (digits2_pos p)) as [| k | k] eqn:E; [| | lia].
  - split; [rewrite Z.pow_0_r; lia | lia].
  - split; [apply iter_xO_value | rewrite digits2_pos_iter_xO; lia].
Qed.

(** The double of a positive integer below 2^53. *)
Lemma of_Z_pos (p : positive) :
  Zpos p < 2 ^ 53 ->
  of_Z (Zpos p) = S754_finite false (mantissa p) (Zpos (digits2_pos p) - 53).
Proof.
  intro B.
  destruct (digits2_pos_bounds p) as [L U].
  assert (Zpos (digits2_pos p) <= 53).
  { assert (Zpos (digits2_pos p) - 1 < 53); [| lia].
    apply (Z.pow_lt_mono_r_iff 2); lia. }
  unfold of_Z, binary_normalize, binary_round, shl_align, mantissa.
  rewrite fexp_normal by lia.
  replace (Zpos (digits2_pos p) + 0 - 53 - 0)
    with (- (53 - Zpos (digits2_pos p))) by lia.
  destruct (53 - Zpos (digits2_pos p)) as [| k | k] eqn:E; [| | lia];
    cbn [Z.opp].
  - replace (Zpos (digits2_pos p) - 53) with 0 by lia.
    apply round_canonical; [|lia].
    rewrite fexp_normal by lia. lia.
  - replace (Zpos (digits2_pos p) + 0 - 53)
      with (Zpos (digits2_pos p) - 53) by lia.
    apply round_canonical; [|lia].
    rewrite digits2_pos_iter_xO, fexp_normal by lia. lia.
Qed.

(** What [valid_binary] says of a finite double: at most 53 digits,
    and exactly 53 unless the exponent is the least one. *)
Lemma valid_finite (s : bool) (m : positive) (e : Z) :
  valid_binary prec emax (S754_finite s m e) = true ->
  Zpos (digits2_pos m) <= 53 /\ -1074 <= e <= 971
  /\ (Zpos (digits2_pos m) = 53 \/ e = -1074).
Proof.
  unfold valid_binary, bounded, canonical_mantissa. intros H.
  apply andb_prop in H. destruct H as [C B].
  apply Z.eqb_eq in C. apply Z.leb_le in B.
  unfold fexp, emin, emax, prec in *. lia.
Qed.

(** The product of a double [md * 2^ed] and a positive integer [k]
    below 2^53 is the integer [md * k], rounded to 53 digits, times
    [2^ed]. *)
Lemma round_product (md k : positive) (ed : Z) :
  Zpos (digits2_pos md) <= 53 -> -1074 <= ed <= 971 ->
  (Zpos (digits2_pos md) = 53 \/ ed = -1074) ->
  Zpos k < 2 ^ 53 ->
  exists (m2 : positive) (e2 : Z),
    mul (S754_finite false md ed) (of_Z (Zpos k))
    = (if e2 <=? 971 then S754_finite false m2 e2 else S754_infinity false)
    /\ ed <= e2
    /\ Zpos (digits2_pos m2) <= 53
    /\ (ed < e2 -> Zpos (digits2_pos m2) = 53)
    /\ Zpos (md * k) - 2 ^ Z.max (Zpos (digits2_pos (md * k)) - 53) 0
       < Zpos m2 * 2 ^ (e2 - ed)
       < Zpos (md * k) + 2 ^ Z.max (Zpos (digits2_pos (md * k)) - 53) 0
    /\ (Zpos (digits2_pos (md * k)) <= 53 ->
        Zpos m2 * 2 ^ (e2 - ed) = Zpos (md * k)).
Proof.
  intros Dm He V Bk.
  rewrite (of_Z_pos k Bk).
  destruct (mantissa_value k Bk) as [Vk Dk].
  destruct (digits2_pos_bounds k) as [Lk Uk].
  assert (Hdk : Zpos (digits2_pos k) <= 53).
  { assert (Zpos (digits2_pos k) - 1 < 53); [| lia].
    apply (Z.pow_lt_mono_r_iff 2); lia. }
  set (dk := Zpos (digits2_pos k)) in *.
  set (P := (md * k)%positive).
  set (dP := Zpos (digits2_pos P)).
  assert (HdP : Zpos (digits2_pos md) <= dP).
  { apply digits2_pos_le. unfold P. rewrite Pos2Z.inj_mul. nia. }
  assert (VM : Zpos (md * mantissa k) = Zpos P * 2 ^ (53 - dk)).
  { unfold P. rewrite !Pos2Z.inj_mul, Vk. ring. }
  unfold mul, SFmul. cbn [xorb].
  destruct (Z_le_gt_dec dP 53) as [Hex | Hin].
  - (* the product has at most 53 digits: it is exact *)
    assert (F : fexp prec emax (dP + ed) = ed).
    { unfold fexp, emin, emax, prec. lia. }
    assert (R : binary_round_aux prec emax false
                  (Zpos (md * mantissa k)) (ed + (dk - 53)) loc_Exact
                = S754_finite false P ed).
    { destruct (53 - dk) as [|n|n] eqn:En; try lia.
      - assert (EM : (md * mantissa k)%positive = P).
        { apply Pos2Z.inj. rewrite VM, Z.pow_0_r. lia. }
        rewrite EM. replace (ed + (dk - 53)) with ed by lia.
        apply round_canonical; [exact F | lia].
      - assert (EM : (md * mantissa k)%positive = Pos.iter xO P n).
        { apply Pos2Z.inj. rewrite VM, iter_xO_value. reflexivity. }
        rewrite EM.
        replace ed with (ed + (dk - 53) + Zpos n) at 2 by lia.
        apply round_shifted_canonical.
        + replace (ed + (dk - 53) + Zpos n) with ed by lia. exact F.
        + lia. }
    rewrite R. exists P, ed.
    replace (ed <=? 971) with true by (symmetry; apply Z.leb_le; lia).
    split; [reflexivity|]. split; [lia|]. split; [exact Hex|].
    split; [lia|].
    rewrite Z.sub_diag, Z.pow_0_r, Z.mul_1_r.
    replace (Z.max (dP - 53) 0) with 0 by lia. rewrite Z.pow_0_r.
    split; [lia | reflexivity].
  - (* more than 53 digits: [t] of them are rounded away *)
    destruct (dP - 53) as [|t|t] eqn:Et; try lia.
    destruct (dP - dk) as [|sp|sp] eqn:Es; try lia.
    assert (Pt : 0 < 2 ^ Zpos t) by (apply Z.pow_pos_nonneg; lia).
    assert (Pk : 0 < 2 ^ (53 - dk)) by (apply Z.pow_pos_nonneg; lia).
    assert (Esp : 2 ^ Zpos sp = 2 ^ Zpos t * 2 ^ (53 - dk)).
    { rewrite <- Z.pow_add_r by lia. f_equal. lia. }
    assert (DM : Zpos (digits2_pos (md * mantissa k)) = 53 + Zpos sp).
    { apply digits2_pos_unique; [|lia]. rewrite VM.
      destruct (digits2_pos_bounds P) as [LP UP]. fold dP in LP, UP.
      replace (53 + Zpos sp - 1) with ((dP - 1) + (53 - dk)) by lia.
      replace (53 + Zpos sp) with (dP + (53 - dk)) by lia.
      rewrite !Z.pow_add_r by lia. split; nia. }
    destruct (round_inexact (md * mantissa k) sp (ed + (dk - 53)) DM)
      as [mr [Bmr [Exact [m2 [e2 [R [D2 [Le2 W]]]]]]]]; [lia|].
    assert (Q : Zpos (md * mantissa k) / 2 ^ Zpos sp = Zpos P / 2 ^ Zpos t).
    { rewrite VM, Esp. apply Z.div_mul_cancel_r; lia. }
    rewrite Q in Bmr, Exact.
    replace (ed + (dk - 53) + Zpos sp) with (ed + Zpos t) in Le2, W by lia.
    exists m2, e2. split; [exact R|]. split; [lia|]. split; [lia|].
    split; [intros _; exact D2|].
    replace (Z.max (Zpos t) 0) with (Zpos t) by lia.
    assert (WW : Zpos m2 * 2 ^ (e2 - ed) = Zpos mr * 2 ^ Zpos t).
    { replace (e2 - ed) with (e2 - (ed + Zpos t) + Zpos t) by lia.
      rewrite Z.pow_add_r by lia. rewrite Z.mul_assoc, W. reflexivity. }
    rewrite WW.
    pose proof (Z.mul_div_le (Zpos P) (2 ^ Zpos t) Pt) as Lo.
    pose proof (Z.mul_succ_div_gt (Zpos P) (2 ^ Zpos t) Pt) as Hi.
    split; [|lia].
    destruct (Z.eq_dec (Zpos mr) (Zpos P / 2 ^ Zpos t)) as [Eq | Ne].
    + rewrite Eq. split; nia.
    + assert (Eq : Zpos mr = Zpos P / 2 ^ Zpos t + 1) by lia.
      assert (Nz : Zpos P mod 2 ^ Zpos t <> 0).
      { intros H. apply Ne. apply Exact.
        rewrite VM, Esp.
        apply Z.mod_divide in H; [|lia]. destruct H as [c Hc].
        rewrite Hc.
        replace (c * 2 ^ Zpos t * 2 ^ (53 - dk))
          with (c * (2 ^ Zpos t * 2 ^ (53 - dk))) by ring.
        apply Z.mod_mul. lia. }
      pose proof (Z.div_mod (Zpos P) (2 ^ Zpos t)) as DMod.
      pose proof (Z.mod_pos_bound (Zpos P) (2 ^ Zpos t) Pt) as MB.
      rewrite Eq. split; nia.
Qed.

(** Two doubles in the form [round_product] gives them, the first with
    the smaller value: it has the smaller exponent and is the smaller
    double. *)
Lemma compare_scaled (m1 m2 : positive) (e1 e2 ed : Z) :
  ed <= e1 -> ed <= e2 ->
  Zpos (digits2_pos m2) <= 53 ->
  (ed < e1 -> Zpos (digits2_pos m1) = 53) ->
  Zpos m1 * 2 ^ (e1 - ed) < Zpos m2 * 2 ^ (e2 - ed) ->
  e1 <= e2
  /\ SFcompare (S754_finite false m1 e1) (S754_finite false m2 e2) = Some Lt.
Proof.
  intros L1 L2 D2 N1 H.
  destruct (digits2_pos_bounds m1) as [Lm1 Um1].
  destruct (digits2_pos_bounds m2) as [Lm2 Um2].
  assert (U2 : Zpos m2 < 2 ^ 53).
  { apply Z.lt_le_trans with (2 ^ Zpos (digits2_pos m2)); [exact Um2|].
    apply Z.pow_le_mono_r; lia. }
  assert (P2 : 0 < 2 ^ (e2 - ed)) by (apply Z.pow_pos_nonneg; lia).
  assert (Le : e1 <= e2).
  { destruct (Z_le_gt_dec e1 e2) as [Le | Gt]; [exact Le|]. exfalso.
    rewrite (N1 ltac:(lia)) in Lm1. replace (53 - 1) with 52 in Lm1 by lia.
    replace (e1 - ed) with ((e1 - e2) + (e2 - ed)) in H by lia.
    rewrite Z.pow_add_r in H by lia.
    assert (A : 2 ^ 1 <= 2 ^ (e1 - e2)) by (apply Z.pow_le_mono_r; lia).
    rewrite Z.pow_1_r in A.
    rewrite Z.mul_assoc in H.
    apply Z.mul_lt_mono_pos_r in H; [|exact P2].
    assert (U2' : Zpos m2 < 2 * 2 ^ 52) by lia.
    remember (2 ^ 52) as c eqn:Hc. remember (2 ^ (e1 - e2)) as a eqn:Ha.
    clear Hc Ha. nia. }
  split; [exact Le|].
  cbn [SFcompare].
  destruct (Z.compare_spec e1 e2) as [E | E | E]; [| reflexivity | lia].
  subst e2.
  replace (Pos.compare_cont Eq m1 m2) with Lt; [reflexivity|].
  symmetry. apply Pos.compare_lt_iff.
  change (Zpos m1 < Zpos m2). nia.
Qed.

(** The roundings of [md * i] and [md * j] stay apart when [j] is
    below 2^51. *)
Lemma product_gap (md i j : positive) (Wi Wj : Z) :
  Zpos i < Zpos j -> Zpos j < 2 ^ 51 ->
  Wi < Zpos (md * i) + 2 ^ Z.max (Zpos (digits2_pos (md * i)) - 53) 0 ->
  (Zpos (digits2_pos (md * i)) <= 53 -> Wi = Zpos (md * i)) ->
  Zpos (md * j) - 2 ^ Z.max (Zpos (digits2_pos (md * j)) - 53) 0 < Wj ->
  (Zpos (digits2_pos (md * j)) <= 53 -> Wj = Zpos (md * j)) ->
  Wi < Wj.
Proof.
  intros Hij Hj Ui Ei Lj Ej.
  assert (PP : Zpos (md * i) + Zpos md <= Zpos (md * j)).
  { rewrite !Pos2Z.inj_mul. nia. }
  assert (Dij : Zpos (digits2_pos (md * i)) <= Zpos (digits2_pos (md * j)))
    by (apply digits2_pos_le; lia).
  destruct (Z_le_gt_dec (Zpos (digits2_pos (md * j))) 53) as [Hex | Hin].
  - rewrite (Ei ltac:(lia)), (Ej Hex). lia.
  - replace (Z.max (Zpos (digits2_pos (md * j)) - 53) 0)
      with (Zpos (digits2_pos (md * j)) - 53) in Lj by lia.
    assert (Dj : Zpos (digits2_pos j) <= 51).
    { destruct (digits2_pos_bounds j) as [L U].
      assert (Zpos (digits2_pos j) - 1 < 51); [|lia].
      apply (Z.pow_lt_mono_r_iff 2); lia. }
    pose proof (digits2_pos_mul md j) as Dm.
    destruct (digits2_pos_bounds md) as [Lmd Umd].
    set (tj := Zpos (digits2_pos (md * j)) - 53) in *.
    assert (G : 2 * 2 ^ tj <= Zpos md).
    { apply Z.le_trans with (2 ^ (Zpos (digits2_pos md) - 1)); [|exact Lmd].
      replace (2 * 2 ^ tj) with (2 ^ (tj + 1))
        by (rewrite Z.pow_add_r by lia; lia).
      apply Z.pow_le_mono_r; lia. }
    assert (Gi : 2 ^ Z.max (Zpos (digits2_pos (md * i)) - 53) 0 <= 2 ^ tj)
      by (apply Z.pow_le_mono_r; lia).
    lia.
Qed.

(** The products of a positive double with the integers up to [n] are
    finite as soon as the last one is. *)
Lemma finite_products (md pn pk : positive) (ed : Z) :
  valid_binary prec emax (S754_finite false md ed) = true ->
  Zpos pn < 2 ^ 51 ->
  is_finite (mul (S754_finite false md ed) (of_Z (Zpos pn))) = true ->
  Zpos pk <= Zpos pn ->
  exists (m2 : positive) (e2 : Z),
    mul (S754_finite false md ed) (of_Z (Zpos pk)) = S754_finite false m2 e2
    /\ ed <= e2 /\ e2 <= 971
    /\ Zpos (digits2_pos m2) <= 53
    /\ (ed < e2 -> Zpos (digits2_pos m2) = 53)
    /\ Zpos (md * pk) - 2 ^ Z.max (Zpos (digits2_pos (md * pk)) - 53) 0
       < Zpos m2 * 2 ^ (e2 - ed)
       < Zpos (md * pk) + 2 ^ Z.max (Zpos (digits2_pos (md * pk)) - 53) 0
    /\ (Zpos (digits2_pos (md * pk)) <= 53 ->
        Zpos m2 * 2 ^ (e2 - ed) = Zpos (md * pk)).
Proof.
  intros V Bn F Hk.
  destruct (valid_finite _ _ _ V) as [Dm [He Vd]].
  assert (B53 : 2 ^ 51 < 2 ^ 53) by reflexivity.
  destruct (round_product md pn ed Dm He Vd ltac:(lia))
    as [mn [en [Rn [Ln [Dn [Nn [[Wln Wun] Exn]]]]]]].
  assert (Fen : en <= 971).
  { rewrite Rn in F. destruct (Z.leb_spec en 971); [lia | discriminate]. }
  destruct (round_product md pk ed Dm He Vd ltac:(lia))
    as [mk [ek [Rk [Lk [Dk [Nk [[Wlk Wuk] Exk]]]]]]].
  assert (Fek : ek <= 971).
  { destruct (Z.eq_dec (Zpos pk) (Zpos pn)) as [E | NE].
    - injection E as ->.
      rewrite Rn in Rk.
      destruct (Z.leb_spec en 971); [|lia].
      destruct (Z.leb_spec ek 971); [lia | discriminate].
    - assert (Hlt : Zpos pk < Zpos pn) by lia.
      pose proof (product_gap md pk pn _ _ Hlt Bn Wuk Exk Wln Exn) as G.
      destruct (compare_scaled mk mn ek en ed Lk Ln Dn Nk G) as [Le _].
      lia. }
  exists mk, ek.
  replace (ek <=? 971) with true in Rk by (symmetry; apply Z.leb_le; lia).
  split; [exact Rk|]. split; [exact Lk|]. split; [exact Fek|].
  split; [exact Dk|]. split; [exact Nk|]. split; [split; assumption|].
  exact Exk.
Qed.

(** The offsets [delay * i] for a positive delay increase with [i]. *)
Lemma positive_delay_offsets (md : positive) (ed : Z) (n i j : nat) :
  valid_binary prec emax (S754_finite false md ed) = true ->
  Z.of_nat n < 2 ^ 51 ->
  is_finite (mul (S754_finite false md ed) (of_nat n)) = true ->
  (i < j <= n)%nat ->
  ltb (mul (S754_finite false md ed) (of_nat i))
      (mul (S754_finite false md ed) (of_nat j)) = true.
Proof.
  intros V Bn F Hij. unfold of_nat in *.
  destruct n as [|n']; [lia|].
  destruct j as [|j']; [lia|].
  rewrite (Nat2Z.inj_succ n'), <- (Zpos_P_of_succ_nat n') in *.
  rewrite (Nat2Z.inj_succ j'), <- (Zpos_P_of_succ_nat j').
  assert (Hjn : Zpos (Pos.of_succ_nat j') <= Zpos (Pos.of_succ_nat n'))
    by lia.
  destruct (finite_products md _ _ ed V Bn F Hjn)
    as [mj [ej [Rj [Lj [_ [Dj [Nj [[Wlj Wuj] Exj]]]]]]]].
  rewrite Rj.
  destruct i as [|i'].
  - reflexivity.
  - rewrite (Nat2Z.inj_succ i'), <- (Zpos_P_of_succ_nat i').
    assert (Hin : Zpos (Pos.of_succ_nat i') <= Zpos (Pos.of_succ_nat n'))
      by lia.
    destruct (finite_products md _ _ ed V Bn F Hin)
      as [mi [ei [Ri [Li [_ [Di [Ni [[Wli Wui] Exi]]]]]]]].
    rewrite Ri.
    assert (Hlt : Zpos (Pos.of_succ_nat i') < Zpos (Pos.of_succ_nat j'))
      by lia.
    assert (Bj : Zpos (Pos.of_succ_nat j') < 2 ^ 51) by lia.
    pose proof (product_gap md _ _ _ _ Hlt Bj Wui Exi Wlj Exj) as G.
    destruct (compare_scaled mi mj ei ej ed Li Lj Dj Ni G) as [_ C].
    unfold ltb, SFltb. rewrite C. reflexivity.
Qed.

End Integers.

(** ** The schedule of the video *)

Section Schedule.

Lemma length_indexed {A : Type} (k : nat) (l : list A) :
  List.length (indexed k l) = List.length l.
Proof.
  revert k. induction l as [|a r IH]; intros k; simpl;
    [reflexivity | rewrite IH; reflexivity].
Qed.

Lemma nth_error_indexed {A : Type} (k i : nat) (l : list A) :
  nth_error (indexed k l) i
  = option_map (fun a => (k + i, a)) (nth_error l i).
Proof.
  revert k i. induction l as [|a r IH]; intros k i.
  - destruct i; reflexivity.
  - destruct i as [|i]; simpl.
    + rewrite Nat.add_0_r. reflexivity.
    + rewrite IH. rewrite Nat.add_succ_r. reflexivity.
Qed.

(** The timers of [schedule], one by one. *)
Lemma schedule_timers (st : Settings.t) (srcs : list string) :
  List.length (schedule st srcs) = S (List.length srcs)
  /\ (forall i src,
        nth_error srcs i = Some src ->
        nth_error (schedule st srcs) i
        = Some (SetTimeout (DrawImage i src)
                           (mul (delay_of st) (of_nat i))))
  /\ nth_error (schedule st srcs) (List.length srcs)
     = Some (SetTimeout RecorderStop
                        (mul (delay_of st) (of_nat (List.length srcs)))).
Proof.
  unfold schedule, draw_offset.
  set (f := fun ii : nat * string =>
              SetTimeout (DrawImage (fst ii) (snd ii))
                         (mul (delay_of st) (of_nat (fst ii)))).
  assert (L : List.length (map f (indexed 0 srcs)) = List.length srcs)
    by (rewrite length_map; apply length_indexed).
  split; [rewrite length_app, L; simpl; lia|]. split.
  - intros i src H.
    assert (Hi : i < List.length srcs)
      by (apply nth_error_Some; rewrite H; discriminate).
    rewrite nth_error_app1 by (rewrite L; exact Hi).
    rewrite nth_error_map, nth_error_indexed, H. reflexivity.
  - rewrite nth_error_app2 by (rewrite L; apply Nat.le_refl).
    rewrite L, Nat.sub_diag. reflexivity.
Qed.

Lemma loading_not_started (wd ht : number) (srcs : list string) :
  ~ In RecorderStart (loading wd ht srcs).
Proof.
  unfold loading. intros Hin. apply in_app_or in Hin.
  destruct Hin as [Hin|Hin].
  - simpl in Hin. intuition discriminate.
  - apply in_map_iff in Hin. destruct Hin as [src [Hs _]]. discriminate.
Qed.

(** [Math.floor] gives the floor. *)
Lemma Math_floor_floor_of (x : number) : floor_of x (Math_floor x).
Proof.
  destruct x as [s|s| |s m e]; try reflexivity.
  unfold floor_of, Math_floor.
  destruct (0 <=? e)%Z eqn:E; [reflexivity|].
  apply Z.leb_gt in E.
  exists (Z.shiftr (cond_Zopp s (Zpos m)) (- e)).
  split; [reflexivity|].
  rewrite Z.shiftr_div_pow2 by lia.
  assert (P : (0 < 2 ^ (- e))%Z) by (apply Z.pow_pos_nonneg; lia).
  split.
  - rewrite Z.mul_comm. apply Z.mul_div_le. exact P.
  - rewrite Z.mul_comm. apply Z.mul_succ_div_gt. exact P.
Qed.

Lemma shots_requests (o : screenshot_opts) (t : nat -> number)
  (l : list nat) (c : calculator) :
  List.length (shots o t l c) = List.length l
  /\ Forall (request_with o) (shots o t l c).
Proof.
  revert c. induction l as [|i r IH]; intros c; simpl.
  - split; [reflexivity | constructor].
  - destruct (IH (setExpression (time_is (t i)) c)) as [L F].
    split; [rewrite L; reflexivity|].
    constructor; [eexists; reflexivity | exact F].
Qed.

Lemma sample_time_single (mn mx : number) : sample_time mn mx 1 0 = NaN.
Proof.
  unfold sample_time.
  change (div (of_nat 0) (sub (of_nat 1) (of_Z 1))) with NaN.
  destruct mn; reflexivity.
Qed.

End Schedule.

(** ** What [render] asks for *)

Section Render.

Variable h : host.

Lemma captureFrames_sized (o : screenshot_opts) (st : Settings.t)
  (w : world) :
  exists evs,
    trace (world_of (captureFrames h st o w)) = trace w ++ evs
    /\ Forall (sized o) evs.
Proof.
  assert (Hnil : exists evs, trace w = trace w ++ evs /\ Forall (sized o) evs).
  { exists []. rewrite app_nil_r. split; [reflexivity | constructor]. }
  rewrite captureFrames_unfold. cbv zeta.
  destruct (find_id "bounds" (expressions (calc w))) as [folder|];
    [|exact Hnil].
  destruct (find_id "bounds time" (expressions (calc w))) as [s|];
    [|exact Hnil].
  destruct (sliderBounds s) as [sb|]; [|exact Hnil].
  simpl calc.
  destruct (settled (evaluate h (hide_chrome (calc w)) (min sb)))
    as [|mn]; [exact Hnil|].
  destruct (settled (evaluate h (hide_chrome (calc w)) (max sb)))
    as [|mx]; [exact Hnil|].
  set (t := sample_time mn mx (Settings.frames st)).
  destruct (capture_loop h o t (seq 0 (Settings.frames st))
              (with_calc (hide_chrome (calc w)) w))
    as [k [_ [_ [Ht _]]]].
  exists (shots o t (firstn k (seq 0 (Settings.frames st)))
                (hide_chrome (calc w))).
  split; [|apply sized_shots].
  destruct (for_each (capture_body h o t) (seq 0 (Settings.frames st))
              (with_calc (hide_chrome (calc w)) w)); exact Ht.
Qed.

Lemma createVideo_sized (o : screenshot_opts) (srcs : list string)
  (st : Settings.t) (w : world) :
  exists evs,
    trace (world_of (createVideo h srcs (width o) (height o) st w))
    = trace w ++ evs
    /\ Forall (sized o) evs.
Proof.
  assert (Hl : Forall (sized o) (loading (width o) (height o) srcs)).
  { unfold loading. apply Forall_app. split.
    - repeat constructor.
    - apply Forall_forall. intros e He. apply in_map_iff in He.
      destruct He as [src [<- _]]. exact I. }
  destruct (forallb (decodes h) srcs) eqn:E.
  - rewrite createVideo_decoded by exact E. cbn [world_of trace].
    eexists. split; [reflexivity|].
    apply Forall_app. split; [exact Hl|].
    constructor; [exact I|].
    unfold schedule. apply Forall_app. split.
    + apply Forall_forall. intros e He. apply in_map_iff in He.
      destruct He as [ii [<- _]]. exact I.
    + repeat constructor.
  - rewrite createVideo_undecoded by exact E. cbn [world_of trace].
    eexists. split; [reflexivity | exact Hl].
Qed.

Lemma render_sized (st : Settings.t) (w : world) :
  exists evs,
    trace (world_of (render h st w)) = trace w ++ evs
    /\ Forall (sized (render_opts (getMathBounds (bounds w)) st)) evs.
Proof.
  set (o := render_opts (getMathBounds (bounds w)) st).
  unfold render. fold o.
  unfold bind at 1. unfold on_calc at 1.
  set (w0 := {| calc := setExpression (secret_is "bounds start action" true)
                          (calc w);
                bounds := bounds w; trace := trace w |}).
  destruct (captureFrames_sized o st w0) as [e1 [H1 F1]].
  unfold bind at 1.
  destruct (captureFrames h st o w0) as [fs w1|e w1|w1]; simpl in H1;
    try (exists e1; split; [exact H1 | exact F1]).
  destruct (createVideo_sized o fs st w1) as [e2 [H2 F2]].
  unfold bind at 1.
  destruct (createVideo h fs (width o) (height o) st w1) as [b w2|e w2|w2];
    simpl in H2;
    try (exists (e1 ++ e2); cbn [world_of]; rewrite H2, H1, <- app_assoc;
         split; [reflexivity | apply Forall_app; split; assumption]).
  unfold downloadBlob, bind, emit, on_calc. simpl.
  exists (e1 ++ e2 ++ [Download b "desmos.webm";
                       SetTimeout RevokeObjectURL (of_Z 1000)]).
  rewrite H2, H1. repeat rewrite <- app_assoc. split; [reflexivity|].
  apply Forall_app. split; [exact F1|].
  apply Forall_app. split; [exact F2|]. repeat constructor.
Qed.

Lemma after_setup_world (w : world) :
  after_setup h w
  = {| calc := setup_calc (calc w);
       bounds := {| x1 := observed (watch h (setup_calc (calc w)) "B_{x1}");
                    x2 := observed (watch h (setup_calc (calc w)) "B_{x2}");
                    y1 := observed (watch h (setup_calc (calc w)) "B_{y1}");
                    y2 := observed (watch h (setup_calc (calc w)) "B_{y2}") |};
       trace := trace w |}.
Proof.
  unfold after_setup, setup, bind, on_calc, get_calc, set_bounds, await,
    ret; simpl.
  repeat match goal with
         | |- context [settled ?o] => destruct (settled o)
         end; reflexivity.
Qed.

(** [createVideo] by whether every still decodes. *)
Lemma createVideo_run (srcs : list string) (wd ht : number)
  (st : Settings.t) (w : world) :
  createVideo h srcs wd ht st w
  = if forallb (decodes h) srcs
    then Returned {| timeline := map (fun ii => (draw_offset st (fst ii),
                                                 snd ii))
                                     (indexed 0 srcs);
                     stopped_at := draw_offset st (List.length srcs) |}
                  {| calc := calc w; bounds := bounds w;
                     trace := trace w ++ loading wd ht srcs
                              ++ [RecorderStart] ++ schedule st srcs |}
    else Hangs {| calc := calc w; bounds := bounds w;
                  trace := trace w ++ loading wd ht srcs |}.
Proof.
  destruct (forallb (decodes h) srcs) eqn:E.
  - apply createVideo_decoded. exact E.
  - apply createVideo_undecoded. exact E.
Qed.

(** [render] with its sequencing spelled out. *)
Lemma render_unfold (st : Settings.t) (w : world) :
  let o := render_opts (getMathBounds (bounds w)) st in
  render h st w
  = match captureFrames h st o (with_calc (render_start (calc w)) w) with
    | Returned fs w1 =>
        match createVideo h fs (width o) (height o) st w1 with
        | Returned b w2 =>
            Returned tt
              {| calc := setExpression (secret_is "bounds start action" false)
                           (calc w2);
                 bounds := bounds w2;
                 trace := (trace w2 ++ [Download b "desmos.webm"])
                          ++ [SetTimeout RevokeObjectURL (of_Z 1000)] |}
        | Threw e w2 => Threw e w2
        | Hangs w2 => Hangs w2
        end
    | Threw e w1 => Threw e w1
    | Hangs w1 => Hangs w1
    end.
Proof.
  cbv zeta. unfold render.
  unfold bind at 1. unfold on_calc at 1.
  change {| calc := setExpression (secret_is "bounds start action" true)
                      (calc w);
            bounds := bounds w; trace := trace w |}
    with (with_calc (render_start (calc w)) w).
  unfold bind at 1.
  destruct (captureFrames h st (render_opts (getMathBounds (bounds w)) st)
              (with_calc (render_start (calc w)) w))
    as [fs w1|e w1|w1]; reflexivity.
Qed.

End Render.

(** A render that returns: the capture returned, its stills all decoded,
    and the log continues with the assembly and the download. *)
Lemma render_returned (h : host) (st : Settings.t) (w w' : world)
  (u : unit) :
  render h st w = Returned u w' ->
  exists fs w1,
    captureFrames h st (render_opts (getMathBounds (bounds w)) st)
      (with_calc (render_start (calc w)) w) = Returned fs w1
    /\ forallb (decodes h) fs = true
    /\ calc w' = setExpression (secret_is "bounds start action" false)
                   (calc w1)
    /\ trace w'
       = trace w1
         ++ loading (width (render_opts (getMathBounds (bounds w)) st))
                    (height (render_opts (getMathBounds (bounds w)) st)) fs
         ++ [RecorderStart] ++ schedule st fs
         ++ [Download
               {| timeline := map (fun ii => (draw_offset st (fst ii),
                                              snd ii)) (indexed 0 fs);
                  stopped_at := draw_offset st (List.length fs) |}
               "desmos.webm";
             SetTimeout RevokeObjectURL (of_Z 1000)].
Proof.
  rewrite render_unfold. cbv zeta.
  destruct (captureFrames h st (render_opts (getMathBounds (bounds w)) st)
              (with_calc (render_start (calc w)) w))
    as [fs w1|e w1|w1]; try discriminate.
  rewrite createVideo_run.
  destruct (forallb (decodes h) fs) eqn:E; try discriminate.
  intros H. apply (f_equal world_of) in H. cbn [world_of] in H. subst w'.
  exists fs, w1. split; [reflexivity|]. split; [exact E|].
  split; [reflexivity|]. cbn [trace].
  repeat rewrite <- app_assoc. reflexivity.
Qed.

(** ** The chrome after a capture, however it ends *)

Section ChromeAfter.

Lemma captureFrames_restores (h : host) (o : screenshot_opts)
  (st : Settings.t) (w w' : world) (fs : list string) :
  captureFrames h st o w = Returned fs w' ->
  chrome (calc w') = chrome (calc w).
Proof.
  intros H.
  destruct (captureFrames_returned h o st w w' fs H)
    as [folder [s [sb [mn [mx [Hf [_ [_ [_ [_ [Hc _]]]]]]]]]]].
  rewrite Hc, chrome_restore_chrome. unfold chrome.
  rewrite Hf. reflexivity.
Qed.

End ChromeAfter.

(** * The claims *)

(** C1.  In a capture that returns, sample [i] of [N] is shot with the
    slider at [min + (i / (N - 1)) * (max - min)], computed in double
    arithmetic from the values of the slider's bounds.  With [N = 1] that
    is not the minimum: line 150 divides 0 by [frames - 1 = 0], the time
    is NaN whatever the range is, and NaN is what the one screenshot
    shows and what the slider is left at. *)
Theorem C1_sample_times_and_single_frame (h : host) (o : screenshot_opts)
  (st : Settings.t) (w w' : world) (fs : list string) :
  captureFrames h st o w = Returned fs w' ->
  exists s sb mn mx evs,
    find_id "bounds time" (expressions (calc w)) = Some s
    /\ sliderBounds s = Some sb
    /\ settled (evaluate h (hide_chrome (calc w)) (min sb)) = Fulfilled mn
    /\ settled (evaluate h (hide_chrome (calc w)) (max sb)) = Fulfilled mx
    /\ List.length fs = Settings.frames st
    /\ trace w' = trace w ++ evs
    /\ map shown_time evs
       = map (fun i => Some (TimeAssign
                               (sample_time mn mx (Settings.frames st) i)))
             (seq 0 (Settings.frames st))
    /\ (Settings.frames st = 1 ->
        map shown_time evs = [Some (TimeAssign NaN)]
        /\ latex_of "bounds time" (calc w') = Some (TimeAssign NaN)).
Proof.
  intros H.
  destruct (captureFrames_returned h o st w w' fs H)
    as [folder [s [sb [mn [mx [_ [Hs [Hsb [Hmn [Hmx [Hc [Ht Hl]]]]]]]]]]]].
  exists s, sb, mn, mx. eexists.
  repeat (split; [eassumption|]).
  split; [apply shown_time_shots|].
  intros Hn. rewrite shown_time_shots, Hc, Hn.
  rewrite latex_of_restore_chrome by discriminate.
  simpl. rewrite latex_of_time_is, sample_time_single.
  split; reflexivity.
Qed.

Lemma C1_single_frame_witness :
  captureFrames demo_host (settings_with 1) demo_opts fresh_world
  = Returned (result_of one_frame_run []) (world_of one_frame_run)
  /\ latex_of "bounds time" (calc (world_of one_frame_run))
     = Some (TimeAssign NaN).
Proof.
  assert (E : captureFrames demo_host (settings_with 1) demo_opts
                fresh_world
              = Returned (result_of one_frame_run [])
                         (world_of one_frame_run))
    by (vm_compute; reflexivity).
  split; [exact E|].
  destruct (C1_sample_times_and_single_frame demo_host demo_opts
              (settings_with 1) fresh_world (world_of one_frame_run)
              (result_of one_frame_run []) E)
    as [s [sb [mn [mx [evs [_ [_ [_ [_ [_ [_ [_ Hone]]]]]]]]]]]].
  exact (proj2 (Hone eq_refl)).
Defined.

(** C2 (amended).  A capture that returns leaves the display flags and
    the folder's hidden flag as it found them.  A capture that throws or
    never settles does not restore them: unless it stopped before
    touching anything (there is no bounds folder), the three flags are
    off and the folder is hidden. *)
Theorem C2_chrome_restored_only_on_return (h : host) (o : screenshot_opts)
  (st : Settings.t) (w : world) :
  match captureFrames h st o w with
  | Returned _ w' => chrome (calc w') = chrome (calc w)
  | Threw _ w' | Hangs w' =>
      (find_id "bounds" (expressions (calc w)) = None /\ calc w' = calc w)
      \/ chrome (calc w') = chrome_hidden
  end.
Proof.
  rewrite captureFrames_unfold. cbv zeta.
  destruct (find_id "bounds" (expressions (calc w))) as [folder|] eqn:Ef;
    [|left; split; reflexivity].
  assert (Hh : chrome (calc (with_calc (hide_chrome (calc w)) w))
               = chrome_hidden) by apply chrome_hide_chrome.
  destruct (find_id "bounds time" (expressions (calc w))) as [s|];
    [|right; exact Hh].
  destruct (sliderBounds s) as [sb|]; [|right; exact Hh].
  simpl calc.
  destruct (settled (evaluate h (hide_chrome (calc w)) (min sb)))
    as [|mn]; [right; exact Hh|].
  destruct (settled (evaluate h (hide_chrome (calc w)) (max sb)))
    as [|mx]; [right; exact Hh|].
  set (t := sample_time mn mx (Settings.frames st)).
  destruct (capture_loop h o t (seq 0 (Settings.frames st))
              (with_calc (hide_chrome (calc w)) w))
    as [k [_ [Hc _]]].
  destruct (for_each (capture_body h o t) (seq 0 (Settings.frames st))
              (with_calc (hide_chrome (calc w)) w))
    as [bs w2|e w2|w2]; simpl in Hc.
  - simpl. rewrite chrome_restore_chrome. unfold chrome.
    rewrite Ef. reflexivity.
  - right. rewrite Hc, chrome_sweep. apply chrome_hide_chrome.
  - right. rewrite Hc, chrome_sweep. apply chrome_hide_chrome.
Qed.

(** C2, as stated, fails: once the time slider has been deleted, reading
    its bounds throws after the chrome was hidden, and the chrome stays
    hidden. *)
Lemma C2_chrome_left_hidden_after_failure :
  sliderless_run = Threw "TypeError" (world_of sliderless_run)
  /\ chrome (calc (world_of sliderless_run))
     <> chrome (calc sliderless_world).
Proof.
  split.
  - vm_compute. reflexivity.
  - vm_compute. discriminate.
Qed.

(** C3 (amended).  The rectangle of [getMathBounds] does not depend on
    the order of the two corners on either axis, whatever the four values
    are; and when none of the four is NaN, [left <= right] and
    [bottom <= top]. *)
Theorem C3_viewport_ordered_for_numbers (b : bounds_t) :
  (getMathBounds (swap_x b) = getMathBounds b
   /\ getMathBounds (swap_y b) = getMathBounds b)
  /\ (is_nan (numericValue (x1 b)) = false ->
      is_nan (numericValue (x2 b)) = false ->
      is_nan (numericValue (y1 b)) = false ->
      is_nan (numericValue (y2 b)) = false ->
      leb (left (getMathBounds b)) (right (getMathBounds b)) = true
      /\ leb (bottom (getMathBounds b)) (top (getMathBounds b)) = true).
Proof.
  split.
  - unfold getMathBounds, swap_x, swap_y; simpl. split.
    + rewrite (Math_min_comm (numericValue (x2 b))),
        (Math_max_comm (numericValue (x2 b))). reflexivity.
    + rewrite (Math_min_comm (numericValue (y2 b))),
        (Math_max_comm (numericValue (y2 b))). reflexivity.
  - intros Hx1 Hx2 Hy1 Hy2. unfold getMathBounds; simpl.
    split; apply Math_min_le_max; assumption.
Qed.

Lemma C3_viewport_witness :
  leb (left (getMathBounds (bounds fresh_world)))
      (right (getMathBounds (bounds fresh_world))) = true
  /\ leb (bottom (getMathBounds (bounds fresh_world)))
         (top (getMathBounds (bounds fresh_world))) = true.
Proof.
  apply (proj2 (C3_viewport_ordered_for_numbers (bounds fresh_world)));
    vm_compute; reflexivity.
Defined.

(** C3, as stated, fails: when [B_{x1}] has no numeric value both
    [Math.min] and [Math.max] are NaN, and [NaN <= NaN] is false. *)
Lemma C3_undefined_corner_unordered :
  leb (left (getMathBounds undefined_x1))
      (right (getMathBounds undefined_x1)) = false.
Proof. reflexivity. Qed.

(** C4 (amended).  Running [setup] a second time changes nothing, and a
    run makes no id occur twice.  When "bounds x1" and "bounds time" are
    there, a run keeps the text of every expression but the six of its
    first [setExpressions] call, so the edges and the time slider keep
    what the user gave them; the animate binding is one of the six and
    is written back to [a_{nimate}=0] by every run. *)
Theorem C4_setup_twice_is_setup_once (h : host) (w : world) :
  after_setup h (after_setup h w) = after_setup h w
  /\ (NoDup (ids_of (calc w)) -> NoDup (ids_of (calc (after_setup h w))))
  /\ (forall i,
        has "bounds x1" (ids_of (calc w)) = true ->
        has "bounds time" (ids_of (calc w)) = true ->
        ~ In i base_ids ->
        latex_of i (calc (after_setup h w)) = latex_of i (calc w))
  /\ latex_of "bounds animate" (calc (after_setup h w))
     = Some (Tex "a_{nimate}=0").
Proof.
  split; [|split; [|split]].
  - rewrite (after_setup_world h (after_setup h w)).
    rewrite (after_setup_world h w). simpl.
    assert (E : setup_calc (setup_calc (calc w)) = setup_calc (calc w)).
    { rewrite (setup_calc_list (setup_calc (calc w))).
      rewrite (setup_calc_list (calc w)). simpl.
      rewrite setup_list_idempotent. reflexivity. }
    rewrite E. reflexivity.
  - intros H. rewrite setup_calc_run, setup_calc_list.
    unfold ids_of; simpl. apply setup_list_NoDup. exact H.
  - intros i Hx Ht Hi. rewrite setup_calc_run, setup_calc_list.
    unfold latex_of, ids_of in *; simpl.
    rewrite find_id_setup_list_other; auto.
    destruct (find_id i (expressions (calc w))); simpl;
      [apply place_latex | reflexivity].
  - rewrite setup_calc_run, setup_calc_list. unfold latex_of; simpl.
    destruct (find_id_setup_list_base
                (secret_item "bounds animate" true None None "a_{nimate}=0")
                (expressions (calc w)))
      as [e [Hf Hm]].
    + simpl. auto 10.
    + simpl in Hf. rewrite Hf. rewrite <- Hm. reflexivity.
Qed.

Lemma C4_setup_witness :
  NoDup (ids_of (calc fresh_world))
  /\ after_setup demo_host (after_setup demo_host fresh_world)
     = after_setup demo_host fresh_world
  /\ NoDup (ids_of (calc (after_setup demo_host fresh_world)))
  /\ latex_of "bounds time" (calc (after_setup demo_host ranged_world))
     = latex_of "bounds time" (calc ranged_world).
Proof.
  assert (N : NoDup (ids_of (calc fresh_world))).
  { vm_compute. repeat (constructor; [simpl; intuition discriminate|]).
    constructor. }
  split; [exact N|]. split; [|split].
  - exact (proj1 (C4_setup_twice_is_setup_once demo_host fresh_world)).
  - exact (proj1 (proj2 (C4_setup_twice_is_setup_once demo_host fresh_world))
             N).
  - apply (proj1 (proj2 (proj2
             (C4_setup_twice_is_setup_once demo_host ranged_world)))).
    + vm_compute. reflexivity.
    + vm_compute. reflexivity.
    + vm_compute. intuition discriminate.
Defined.

(** C4, as stated, fails: after one click on the start action the
    animate binding is [a_{nimate}=1], and a second [setup] overwrites
    it. *)
Lemma C4_animate_overwritten_by_second_setup :
  latex_of "bounds animate" (calc clicked_world)
  = Some (Tex "a_{nimate}=1")
  /\ latex_of "bounds animate" (calc (after_setup demo_host clicked_world))
     <> latex_of "bounds animate" (calc clicked_world).
Proof.
  split.
  - vm_compute. reflexivity.
  - vm_compute. discriminate.
Qed.

(** C5.  The width and height [render] asks for are the floors of the
    spans of the viewport times the resolution, whatever the viewport
    and the resolution are.  Every screenshot request and canvas of a
    render has that size, and a render that returns has made one
    screenshot request of that size per frame and then created a canvas
    of that size.  For the viewport -9.6..9.6 by -5.4..5.4 they are 192
    and 108 at resolution 10, and 134 and 75 at resolution 7, where the
    products 134.4 and 75.6 are not whole. *)
Theorem C5_capture_dimensions (h : host) (st : Settings.t) (w : world) :
  let r := getMathBounds (bounds w) in
  let o := render_opts r st in
  floor_of (mul (sub (right r) (left r)) (Settings.resolution st)) (width o)
  /\ floor_of (mul (sub (top r) (bottom r)) (Settings.resolution st))
              (height o)
  /\ (exists evs, trace (world_of (render h st w)) = trace w ++ evs
                  /\ Forall (sized o) evs)
  /\ (forall w',
        render h st w = Returned tt w' ->
        exists requests rest,
          trace w' = trace w ++ requests
                     ++ CreateCanvas (width o) (height o) :: rest
          /\ List.length requests = Settings.frames st
          /\ Forall (request_with o) requests)
  /\ (width (render_opts demo_rect the_settings) = of_Z 192
      /\ height (render_opts demo_rect the_settings) = of_Z 108)
  /\ (width (render_opts demo_rect coarse_settings) = of_Z 134
      /\ height (render_opts demo_rect coarse_settings) = of_Z 75).
Proof.
  cbv zeta.
  split; [apply Math_floor_floor_of|].
  split; [apply Math_floor_floor_of|].
  split; [apply render_sized|].
  split; [|split; split; vm_compute; reflexivity].
  intros w' H.
  destruct (render_returned h st w w' tt H) as [fs [w1 [Hc [_ [_ Ht]]]]].
  destruct (captureFrames_returned h _ st _ w1 fs Hc)
    as [folder [s [sb [mn [mx [_ [_ [_ [_ [_ [_ [Ht1 _]]]]]]]]]]]].
  cbn [calc trace with_calc] in Ht1.
  destruct (shots_requests (render_opts (getMathBounds (bounds w)) st)
              (sample_time mn mx (Settings.frames st))
              (seq 0 (Settings.frames st))
              (hide_chrome (render_start (calc w)))) as [L F].
  rewrite length_seq in L.
  eexists. eexists. split; [|split; [exact L | exact F]].
  rewrite Ht, Ht1. unfold loading. cbn [app].
  rewrite <- app_assoc. reflexivity.
Qed.

(** A render of two frames of a new graph returns: its log holds two
    requests of 192 by 108 and then the canvas of 192 by 108. *)
Lemma C5_capture_dimensions_witness :
  render demo_host (settings_with 2) fresh_world
  = Returned tt (world_of (render demo_host (settings_with 2) fresh_world))
  /\ exists requests rest,
       trace (world_of (render demo_host (settings_with 2) fresh_world))
       = trace fresh_world ++ requests
         ++ CreateCanvas (of_Z 192) (of_Z 108) :: rest
       /\ List.length requests = 2
       /\ Forall (request_with
                    (render_opts (getMathBounds (bounds fresh_world))
                       (settings_with 2))) requests.
Proof.
  assert (E : render demo_host (settings_with 2) fresh_world
              = Returned tt
                  (world_of (render demo_host (settings_with 2) fresh_world)))
    by (vm_compute; reflexivity).
  split; [exact E|].
  destruct (C5_capture_dimensions demo_host (settings_with 2) fresh_world)
    as [_ [_ [_ [K _]]]].
  exact (K _ E).
Defined.

(** C6 (amended).  [createVideo] starts the recording only once every
    still has loaded: the start is in its log exactly when every still
    decodes.  Then the log is, in this order: the canvas, the recorder
    and one image per still; the start; one timer per still, the [i]-th
    drawing still [i] at [delay * i]; and the timer that stops the
    recorder at [delay] times the number of stills, where
    [delay = 1000 * duration / frames] milliseconds.  When the delay is
    a positive finite double, there are fewer than 2^51 stills and the
    offset of the stop is finite, the offsets increase strictly with
    the index and the stop comes strictly after the last draw. *)
Theorem C6_video_schedule (h : host) (srcs : list string) (wd ht : number)
  (st : Settings.t) (w : world) :
  exists evs,
    trace (world_of (createVideo h srcs wd ht st w)) = trace w ++ evs
    /\ (In RecorderStart evs <-> forallb (decodes h) srcs = true)
    /\ (forallb (decodes h) srcs = true ->
        exists timers,
          evs = [CreateCanvas wd ht; NewMediaRecorder] ++ map NewImage srcs
                ++ [RecorderStart] ++ timers
          /\ List.length timers = S (List.length srcs)
          /\ (forall i src,
                nth_error srcs i = Some src ->
                nth_error timers i
                = Some (SetTimeout (DrawImage i src)
                                   (mul (delay_of st) (of_nat i))))
          /\ nth_error timers (List.length srcs)
             = Some (SetTimeout RecorderStop
                       (mul (delay_of st) (of_nat (List.length srcs)))))
    /\ delay_of st
       = div (mul (of_Z 1000) (Settings.duration st))
             (of_nat (Settings.frames st))
    /\ (forall (m : positive) (e : Z),
          delay_of st = S754_finite false m e ->
          valid_binary prec emax (delay_of st) = true ->
          (Z.of_nat (List.length srcs) < 2 ^ 51)%Z ->
          is_finite (mul (delay_of st) (of_nat (List.length srcs))) = true ->
          forall i j, i < j <= List.length srcs ->
            ltb (mul (delay_of st) (of_nat i))
                (mul (delay_of st) (of_nat j)) = true).
Proof.
  assert (O : forall (m : positive) (e : Z),
            delay_of st = S754_finite false m e ->
            valid_binary prec emax (delay_of st) = true ->
            (Z.of_nat (List.length srcs) < 2 ^ 51)%Z ->
            is_finite (mul (delay_of st) (of_nat (List.length srcs))) = true ->
            forall i j, i < j <= List.length srcs ->
              ltb (mul (delay_of st) (of_nat i))
                  (mul (delay_of st) (of_nat j)) = true).
  { intros m e Hd. rewrite Hd. intros V B F i j Hij.
    exact (positive_delay_offsets m e (List.length srcs) i j V B F Hij). }
  destruct (forallb (decodes h) srcs) eqn:E.
  - rewrite (createVideo_decoded h srcs wd ht st w E). cbn [world_of trace].
    exists (loading wd ht srcs ++ [RecorderStart] ++ schedule st srcs).
    split; [reflexivity|]. split; [|split; [|split; [reflexivity | exact O]]].
    + split; [reflexivity|]. intros _.
      apply in_or_app. right. left. reflexivity.
    + intros _. exists (schedule st srcs).
      split; [unfold loading; rewrite <- app_assoc; reflexivity|].
      apply schedule_timers.
  - rewrite (createVideo_undecoded h srcs wd ht st w E). cbn [world_of trace].
    exists (loading wd ht srcs).
    split; [reflexivity|]. split; [|split; [|split; [reflexivity | exact O]]].
    + split; [|discriminate].
      intros Hin. destruct (loading_not_started wd ht srcs Hin).
    + discriminate.
Qed.

(** The 200 stills of a capture of a new graph, with the settings of the
    script: the delay is 25 ms, the last draw is at 4975 ms and the stop
    at 5000 ms, after it. *)
Lemma C6_video_schedule_witness :
  delay_of the_settings = of_Z 25
  /\ mul (delay_of the_settings) (of_nat 199) = of_Z 4975
  /\ mul (delay_of the_settings) (of_nat 200) = of_Z 5000
  /\ ltb (mul (delay_of the_settings) (of_nat 199))
         (mul (delay_of the_settings) (of_nat 200)) = true.
Proof.
  assert (Hd : delay_of the_settings
               = S754_finite false 7036874417766400 (-48))
    by (vm_compute; reflexivity).
  assert (Hl : List.length (result_of full_run []) = 200)
    by (vm_compute; reflexivity).
  split; [vm_compute; reflexivity|].
  split; [vm_compute; reflexivity|].
  split; [vm_compute; reflexivity|].
  destruct (C6_video_schedule demo_host (result_of full_run [])
              (width demo_opts) (height demo_opts) the_settings
              (world_of full_run)) as [evs [_ [_ [_ [_ O]]]]].
  rewrite Hl in O.
  apply (O _ _ Hd); [vm_compute; reflexivity | reflexivity
                     | vm_compute; reflexivity | lia].
Defined.

(** C6, as stated, fails: with a duration of 0 every still decodes, the
    timers are set, and the offsets of the two draws and of the stop are
    all 0, so they do not increase. *)
Lemma C6_offsets_coincide_at_duration_zero :
  trace (world_of (createVideo demo_host ["data:image/png"; "data:image/png"]
                     (of_Z 192) (of_Z 108) still_settings empty_world))
  = [CreateCanvas (of_Z 192) (of_Z 108); NewMediaRecorder;
     NewImage "data:image/png"; NewImage "data:image/png"; RecorderStart;
     SetTimeout (DrawImage 0 "data:image/png") (of_Z 0);
     SetTimeout (DrawImage 1 "data:image/png") (of_Z 0);
     SetTimeout RecorderStop (of_Z 0)]
  /\ ltb (mul (delay_of still_settings) (of_nat 0))
         (mul (delay_of still_settings) (of_nat 1)) = false
  /\ ltb (mul (delay_of still_settings) (of_nat 1))
         (mul (delay_of still_settings) (of_nat 2)) = false.
Proof.
  split; [vm_compute; reflexivity|].
  split; vm_compute; reflexivity.
Qed.

(** C7 (amended).  When a still does not decode, [createVideo] neither
    returns nor throws: the promise of that image is never settled, the
    recording is not started, no timer is set and no video is made.  The
    caller is not told. *)
Theorem C7_undecodable_still_never_settles (h : host) (srcs : list string)
  (wd ht : number) (st : Settings.t) (w : world) :
  forallb (decodes h) srcs = false ->
  createVideo h srcs wd ht st w
  = Hangs {| calc := calc w; bounds := bounds w;
             trace := trace w ++ loading wd ht srcs |}
  /\ returned (createVideo h srcs wd ht st w) = None
  /\ ~ In RecorderStart (loading wd ht srcs).
Proof.
  intros Hd. rewrite (createVideo_undecoded h srcs wd ht st w Hd).
  split; [reflexivity|]. split; [reflexivity|].
  unfold loading. intros Hin. apply in_app_or in Hin.
  destruct Hin as [Hin|Hin].
  - simpl in Hin. intuition discriminate.
  - apply in_map_iff in Hin. destruct Hin as [src [Hs _]]. discriminate.
Qed.

Lemma C7_undecodable_still_witness :
  forallb (decodes demo_host) broken_stills = false
  /\ returned (createVideo demo_host broken_stills (of_Z 192) (of_Z 108)
                 the_settings empty_world) = None.
Proof.
  split; [reflexivity|].
  apply (C7_undecodable_still_never_settles demo_host broken_stills
           (of_Z 192) (of_Z 108) the_settings empty_world eq_refl).
Defined.

(** C7, as stated, fails: with a still that does not decode the assembly
    does not end in an error the caller could see. *)
Lemma C7_decode_failure_not_surfaced :
  createVideo demo_host broken_stills (of_Z 192) (of_Z 108)
    the_settings empty_world
  = Hangs {| calc := calc empty_world; bounds := bounds empty_world;
             trace := loading (of_Z 192) (of_Z 108) broken_stills |}
  /\ ~ exists message w',
        createVideo demo_host broken_stills (of_Z 192) (of_Z 108)
          the_settings empty_world = Threw message w'.
Proof.
  split.
  - vm_compute. reflexivity.
  - intros [message [w' H]]. vm_compute in H. discriminate.
Qed.

(** C8 (amended).  [evaluate] makes its helper from the text followed by
    "+0", whatever the text is, and its promise is fulfilled once, by the
    first value the calculator publishes; the callback is never removed:
    it stays registered and runs again for every later value. *)
Theorem C8_evaluate_resolves_once_keeps_observing (h : host)
  (c : calculator) (l : string) :
  helperLatex (observed (evaluate h c l)) = (l ++ "+0")%string
  /\ settled (evaluate h c l)
     = match numericValues h c (l ++ "+0")%string with
       | [] => Pending
       | v :: _ => Fulfilled v
       end
  /\ observers (observed (evaluate h c l)) = 1
  /\ calls (evaluate h c l)
     = List.length (numericValues h c (l ++ "+0")%string).
Proof.
  unfold evaluate.
  destruct (deliver_observed numericValue
              (numericValues h c (l ++ "+0")%string)
              (observe (HelperExpression (l ++ "+0")%string)))
    as [H1 [H2 H3]]; [discriminate|].
  split; [exact H1|]. split; [|split; [exact H2 | exact H3]].
  destruct (numericValues h c (l ++ "+0")%string) as [|v vs].
  - reflexivity.
  - rewrite deliver_first by (discriminate || reflexivity). reflexivity.
Qed.

(** C8, as stated, fails: the calculator publishes 1 and then 2 for
    "1+0"; the promise holds 1, but the callback has run twice and is
    still registered. *)
Lemma C8_subscription_not_discarded :
  settled (evaluate demo_host (calc fresh_world) "1") = Fulfilled (of_Z 1)
  /\ calls (evaluate demo_host (calc fresh_world) "1") = 2
  /\ observers (observed (evaluate demo_host (calc fresh_world) "1")) <> 0.
Proof.
  split; [reflexivity|]. split; [reflexivity|]. discriminate.
Qed.

(** C9 (amended).  A capture of two frames or more that returns has
    restored the chrome and left the time slider at the last sample,
    [min + ((N-1)/(N-1)) * (max - min)] in double arithmetic, where [min]
    and [max] are the values of the slider's bounds; it is not put back
    to what it was.  (That sample is the maximum up to rounding.) *)
Theorem C9_time_left_at_last_sample (h : host) (o : screenshot_opts)
  (st : Settings.t) (w w' : world) (fs : list string) :
  2 <= Settings.frames st ->
  captureFrames h st o w = Returned fs w' ->
  chrome (calc w') = chrome (calc w)
  /\ exists s sb mn mx,
       find_id "bounds time" (expressions (calc w)) = Some s
       /\ sliderBounds s = Some sb
       /\ settled (evaluate h (hide_chrome (calc w)) (min sb)) = Fulfilled mn
       /\ settled (evaluate h (hide_chrome (calc w)) (max sb)) = Fulfilled mx
       /\ latex_of "bounds time" (calc w')
          = Some (TimeAssign (sample_time mn mx (Settings.frames st)
                                          (Settings.frames st - 1))).
Proof.
  intros Hn H. split.
  - exact (captureFrames_restores h o st w w' fs H).
  - apply (captureFrames_leaves_last_sample h o st w w' fs); [lia | exact H].
Qed.

Lemma C9_time_left_witness :
  2 <= Settings.frames the_settings
  /\ captureFrames demo_host the_settings demo_opts fresh_world
     = Returned (result_of full_run []) (world_of full_run)
  /\ chrome (calc (world_of full_run)) = chrome (calc fresh_world)
  /\ latex_of "bounds time" (calc fresh_world) = Some (Tex "t_{ime}=0")
  /\ latex_of "bounds time" (calc (world_of full_run))
     = Some (TimeAssign (of_Z 1)).
Proof.
  assert (Hn : 2 <= Settings.frames the_settings) by (simpl; lia).
  assert (E : captureFrames demo_host the_settings demo_opts fresh_world
              = Returned (result_of full_run []) (world_of full_run))
    by (vm_compute; reflexivity).
  split; [exact Hn|]. split; [exact E|].
  destruct (C9_time_left_at_last_sample demo_host demo_opts the_settings
              fresh_world (world_of full_run) (result_of full_run []) Hn E)
    as [Hc _].
  split; [exact Hc|]. split; vm_compute; reflexivity.
Defined.

(** C9, as stated, fails: over the range [-1, 0.1] the last of two
    samples is -1 + (0.1 - -1) = 0.10000000000000009, not the maximum
    0.1 that [evaluate] returned. *)
Lemma C9_last_sample_is_not_the_maximum :
  ranged_run = Returned (result_of ranged_run []) (world_of ranged_run)
  /\ settled (evaluate demo_host (hide_chrome (calc ranged_world)) "0.1")
     = Fulfilled (decimal 1 10)
  /\ latex_of "bounds time" (calc (world_of ranged_run))
     = Some (TimeAssign (S754_finite false 7205759403792800 (-56)))
  /\ latex_of "bounds time" (calc (world_of ranged_run))
     <> Some (TimeAssign (decimal 1 10)).
Proof.
  split; [vm_compute; reflexivity|].
  split; [vm_compute; reflexivity|].
  split; [vm_compute; reflexivity|].
  vm_compute. discriminate.
Qed.

(** C10.  [setup] looks for "bounds x1" only.  If it is there, each of
    "bounds x2", "bounds y1" and "bounds y2" is in the list after [setup]
    exactly when it was before, and the four edges have the texts they
    had: a missing edge is not created.  If it is not there, the four
    edges are in the list afterwards with the texts [B_{x1}=-9.6],
    [B_{x2}= 9.6], [B_{y1}=-5.4] and [B_{y2}= 5.4], whatever the other
    three were before. *)
Theorem C10_edges_depend_on_x1_only (h : host) (w : world) :
  let before := calc w in
  let after := calc (after_setup h w) in
  if has "bounds x1" (ids_of before)
  then
    (has "bounds x1" (ids_of after) = true
     /\ has "bounds x2" (ids_of after) = has "bounds x2" (ids_of before)
     /\ has "bounds y1" (ids_of after) = has "bounds y1" (ids_of before)
     /\ has "bounds y2" (ids_of after) = has "bounds y2" (ids_of before))
    /\ (latex_of "bounds x1" after = latex_of "bounds x1" before
        /\ latex_of "bounds x2" after = latex_of "bounds x2" before
        /\ latex_of "bounds y1" after = latex_of "bounds y1" before
        /\ latex_of "bounds y2" after = latex_of "bounds y2" before)
  else
    (has "bounds x1" (ids_of after) = true
     /\ has "bounds x2" (ids_of after) = true
     /\ has "bounds y1" (ids_of after) = true
     /\ has "bounds y2" (ids_of after) = true)
    /\ (latex_of "bounds x1" after = Some (Tex "B_{x1}=-9.6")
        /\ latex_of "bounds x2" after = Some (Tex "B_{x2}= 9.6")
        /\ latex_of "bounds y1" after = Some (Tex "B_{y1}=-5.4")
        /\ latex_of "bounds y2" after = Some (Tex "B_{y2}= 5.4")).
Proof.
  cbv zeta. rewrite setup_calc_run, setup_calc_list.
  unfold ids_of, latex_of; simpl expressions.
  destruct (has "bounds x1" (map id (expressions (calc w)))) eqn:Hx.
  - assert (K : forall i, In i ["bounds x1"; "bounds x2"; "bounds y1";
                                "bounds y2"] ->
                  find_id i (setup_list (expressions (calc w)))
                  = option_map place (find_id i (expressions (calc w)))).
    { intros i Hi. apply find_id_setup_list_other.
      - exact Hx.
      - right. simpl in Hi. intuition (subst; discriminate).
      - simpl in Hi. simpl. intuition (subst; discriminate). }
    assert (P : forall i, In i ["bounds x1"; "bounds x2"; "bounds y1";
                                "bounds y2"] ->
                  has i (map id (setup_list (expressions (calc w))))
                  = has i (map id (expressions (calc w)))
                  /\ match find_id i (setup_list (expressions (calc w))) with
                     | Some e => latex e
                     | None => None
                     end
                     = match find_id i (expressions (calc w)) with
                       | Some e => latex e
                       | None => None
                       end).
    { intros i Hi. rewrite !has_find_id, (K i Hi).
      destruct (find_id i (expressions (calc w))); simpl;
        [split; [reflexivity | apply place_latex] | split; reflexivity]. }
    destruct (P "bounds x1") as [H1 L1]; [simpl; tauto|].
    destruct (P "bounds x2") as [H2 L2]; [simpl; tauto|].
    destruct (P "bounds y1") as [H3 L3]; [simpl; tauto|].
    destruct (P "bounds y2") as [H4 L4]; [simpl; tauto|].
    rewrite Hx in H1. tauto.
  - assert (P : forall u, In u edge_items ->
                  has (u_id u) (map id (setup_list (expressions (calc w))))
                  = true
                  /\ match find_id (u_id u)
                             (setup_list (expressions (calc w))) with
                     | Some e => latex e
                     | None => None
                     end = u_latex u).
    { intros u Hu.
      destruct (find_id_setup_list_edge u (expressions (calc w)) Hx Hu)
        as [e [Hf Hm]].
      rewrite has_find_id, Hf. split; [reflexivity|].
      rewrite <- Hm. simpl in Hu.
      repeat (destruct Hu as [<-|Hu]; [reflexivity|]). destruct Hu. }
    destruct (P (secret_item "bounds x1" true None None "B_{x1}=-9.6"))
      as [H1 L1]; [simpl; tauto|].
    destruct (P (secret_item "bounds x2" true None None "B_{x2}= 9.6"))
      as [H2 L2]; [simpl; tauto|].
    destruct (P (secret_item "bounds y1" true None None "B_{y1}=-5.4"))
      as [H3 L3]; [simpl; tauto|].
    destruct (P (secret_item "bounds y2" true None None "B_{y2}= 5.4"))
      as [H4 L4]; [simpl; tauto|].
    simpl u_id in *. simpl u_latex in *. tauto.
Qed.

(** A graph that has "bounds x1" with the text [B_{x1}=3] and no other
    edge: after [setup] the other three are still missing and the text
    is kept.  On an empty graph all four are created. *)
Lemma C10_edges_witness :
  (has "bounds x1" (ids_of (calc (after_setup demo_host x1_only_world)))
   = true
   /\ has "bounds x2" (ids_of (calc (after_setup demo_host x1_only_world)))
      = false
   /\ has "bounds y1" (ids_of (calc (after_setup demo_host x1_only_world)))
      = false
   /\ has "bounds y2" (ids_of (calc (after_setup demo_host x1_only_world)))
      = false
   /\ latex_of "bounds x1" (calc (after_setup demo_host x1_only_world))
      = Some (Tex "B_{x1}=3"))
  /\ (latex_of "bounds x1" (calc (after_setup demo_host empty_world))
      = Some (Tex "B_{x1}=-9.6")
      /\ latex_of "bounds x2" (calc (after_setup demo_host empty_world))
         = Some (Tex "B_{x2}= 9.6")
      /\ latex_of "bounds y1" (calc (after_setup demo_host empty_world))
         = Some (Tex "B_{y1}=-5.4")
      /\ latex_of "bounds y2" (calc (after_setup demo_host empty_world))
         = Some (Tex "B_{y2}= 5.4")).
Proof.
  split.
  - pose proof (C10_edges_depend_on_x1_only demo_host x1_only_world) as H.
    cbv zeta in H.
    change (has "bounds x1" (ids_of (calc x1_only_world))) with true in H.
    destruct H as [[H1 [H2 [H3 H4]]] [L1 _]].
    split; [exact H1|]. split; [exact H2|]. split; [exact H3|].
    split; [exact H4|]. exact L1.
  - pose proof (C10_edges_depend_on_x1_only demo_host empty_world) as H.
    cbv zeta in H.
    change (has "bounds x1" (ids_of (calc empty_world))) with false in H.
    destruct H as [_ L]. exact L.
Defined.

(** * Further properties of the script *)

(** ** [setup] *)

Section SetupMore.

Lemma watch_settled (h : host) (c : calculator) (l : string) :
  settled (watch h c l)
  = match numericValues h c l with
    | [] => Pending
    | _ :: _ => Fulfilled tt
    end.
Proof.
  unfold watch. destruct (numericValues h c l) as [|v vs]; [reflexivity|].
  rewrite deliver_first; [reflexivity | discriminate | reflexivity].
Qed.

Lemma last_cons_default (r : list number) (n d d' : number) :
  last (n :: r) d = last (n :: r) d'.
Proof.
  revert n. induction r as [|m r IH]; intros n; [reflexivity|].
  change (last (m :: r) d = last (m :: r) d'). apply IH.
Qed.

Lemma deliver_value {A : Type} (cb : helper -> A) (vs : list number)
  (o : observation A) :
  numericValue (observed (deliver cb vs o))
  = last vs (numericValue (observed o)).
Proof.
  unfold deliver. revert o.
  induction vs as [|v r IH]; intros o; [reflexivity|].
  simpl fold_left. rewrite IH.
  assert (E : numericValue (observed (notify cb o v)) = v).
  { unfold notify; simpl. destruct (observers (observed o)); reflexivity. }
  rewrite E. destruct r as [|n r]; [reflexivity|].
  change (last (n :: r) v = last (n :: r) (numericValue (observed o))).
  apply last_cons_default.
Qed.

Lemma watch_value (h : host) (c : calculator) (l : string) :
  numericValue (observed (watch h c l)) = last (numericValues h c l) NaN.
Proof. unfold watch. apply deliver_value. Qed.

(** Ids that none of the three writes of [setup] names. *)
Lemma find_id_setup_list_foreign (i : string) (l : list expression) :
  ~ In i base_ids -> ~ In i edge_ids ->
  has "bounds time" (map id l) = true \/ i <> "bounds time" ->
  find_id i (setup_list l) = option_map place (find_id i l).
Proof.
  intros Hb He Ht. unfold setup_list.
  rewrite find_id_map_place. f_equal.
  assert (H1 : find_id i (set_items base_items l) = find_id i l).
  { apply find_id_set_items_other. apply not_base_id. exact Hb. }
  assert (H2 : find_id i
                 (if negb (has "bounds x1" (map id l))
                  then set_items edge_items (set_items base_items l)
                  else set_items base_items l) = find_id i l).
  { destruct (negb (has "bounds x1" (map id l))); [|exact H1].
    rewrite find_id_set_items_other; [exact H1|].
    intros u Hu Heq. apply He. rewrite <- Heq.
    unfold edge_ids. apply in_map. exact Hu. }
  destruct (has "bounds time" (map id l)) eqn:E; simpl negb; cbv iota.
  - exact H2.
  - destruct Ht as [Ht|Ht]; [discriminate|].
    rewrite find_id_set_item_other by (simpl; congruence). exact H2.
Qed.

Lemma ids_set_item (u : expression_state) (l : list expression) :
  exists added,
    map id (set_item u l) = map id l ++ added /\ incl added [u_id u].
Proof.
  rewrite map_id_set_item. destruct (has (u_id u) (map id l)).
  - exists []. rewrite app_nil_r. split; [reflexivity|]. intros a [].
  - exists [u_id u]. split; [reflexivity | apply incl_refl].
Qed.

Lemma ids_set_items (us : list expression_state) (l : list expression) :
  exists added,
    map id (set_items us l) = map id l ++ added
    /\ incl added (map u_id us).
Proof.
  unfold set_items. revert l.
  induction us as [|u r IH]; intros l; simpl.
  - exists []. rewrite app_nil_r. split; [reflexivity|]. intros a [].
  - destruct (ids_set_item u l) as [a1 [E1 I1]].
    destruct (IH (set_item u l)) as [a2 [E2 I2]].
    exists (a1 ++ a2). rewrite E2, E1, <- app_assoc.
    split; [reflexivity|].
    intros a Ha. apply in_app_or in Ha. destruct Ha as [Ha|Ha].
    + apply I1 in Ha. destruct Ha as [<-|[]]. left. reflexivity.
    + right. apply I2. exact Ha.
Qed.

Lemma ids_setup_list (l : list expression) :
  exists added,
    map id (setup_list l) = map id l ++ added
    /\ incl added (base_ids ++ edge_ids ++ ["bounds time"]).
Proof.
  unfold setup_list. rewrite map_id_map_place.
  destruct (ids_set_items base_items l) as [a1 [E1 I1]].
  set (l1 := set_items base_items l) in *.
  assert (H2 : exists a2,
             map id (if negb (has "bounds x1" (map id l))
                     then set_items edge_items l1 else l1)
             = map id l1 ++ a2 /\ incl a2 edge_ids).
  { destruct (negb (has "bounds x1" (map id l))).
    - apply ids_set_items.
    - exists []. rewrite app_nil_r. split; [reflexivity|]. intros a []. }
  destruct H2 as [a2 [E2 I2]].
  set (l2 := if negb (has "bounds x1" (map id l))
             then set_items edge_items l1 else l1) in *.
  assert (H3 : exists a3,
             map id (if negb (has "bounds time" (map id l))
                     then set_item time_item l2 else l2)
             = map id l2 ++ a3 /\ incl a3 ["bounds time"]).
  { destruct (negb (has "bounds time" (map id l))).
    - apply ids_set_item.
    - exists []. rewrite app_nil_r. split; [reflexivity|]. intros a []. }
  destruct H3 as [a3 [E3 I3]].
  exists (a1 ++ a2 ++ a3). rewrite E3, E2, E1, <- !app_assoc.
  split; [reflexivity|].
  intros a Ha. apply in_app_or in Ha. destruct Ha as [Ha|Ha].
  - apply in_or_app. left. apply I1. exact Ha.
  - apply in_or_app. right. apply in_app_or in Ha.
    destruct Ha as [Ha|Ha]; apply in_or_app;
      [left; apply I2 | right; apply I3]; exact Ha.
Qed.

Lemma place_foreign (e : expression) :
  String.prefix "bounds" (id e) = false -> place e = e.
Proof.
  intros H. unfold place.
  destruct (String.eqb_spec (id e) "bounds") as [E|_].
  - rewrite E in H. discriminate.
  - rewrite H. reflexivity.
Qed.

Lemma place_filed (e : expression) : filed (place e).
Proof.
  unfold filed, place.
  destruct (String.eqb (id e) "bounds") eqn:E1.
  - simpl. rewrite E1. reflexivity.
  - destruct (String.prefix "bounds" (id e)) eqn:E2.
    + simpl. rewrite E1, E2. reflexivity.
    + rewrite E1, E2. exact I.
Qed.

End SetupMore.

Section SetupFacts.

Variable h : host.

Lemma setup_run (w : world) :
  setup h w
  = match numericValues h (setup_calc (calc w)) "B_{x1}",
          numericValues h (setup_calc (calc w)) "B_{x2}",
          numericValues h (setup_calc (calc w)) "B_{y1}",
          numericValues h (setup_calc (calc w)) "B_{y2}" with
    | _ :: _, _ :: _, _ :: _, _ :: _ => Returned tt (after_setup h w)
    | _, _, _, _ => Hangs (after_setup h w)
    end.
Proof.
  rewrite after_setup_world.
  unfold setup, bind, on_calc, get_calc, set_bounds, await, ret.
  cbn [calc bounds trace Promise_all].
  rewrite !watch_settled.
  destruct (numericValues h (setup_calc (calc w)) "B_{x1}");
    destruct (numericValues h (setup_calc (calc w)) "B_{x2}");
    destruct (numericValues h (setup_calc (calc w)) "B_{y1}");
    destruct (numericValues h (setup_calc (calc w)) "B_{y2}");
    reflexivity.
Qed.

(** X1.  [setup] returns exactly when the calculator publishes a value
    for each of [B_{x1}], [B_{x2}], [B_{y1}] and [B_{y2}]; it never
    throws, and otherwise never settles.  Either way the expressions
    have been written and the [bounds] global holds the four helpers,
    each with the last value published for it. *)
Theorem X1_setup_waits_for_the_four_edges (w : world) :
  ((exists w', setup h w = Returned tt w')
   <-> (numericValues h (setup_calc (calc w)) "B_{x1}" <> []
        /\ numericValues h (setup_calc (calc w)) "B_{x2}" <> []
        /\ numericValues h (setup_calc (calc w)) "B_{y1}" <> []
        /\ numericValues h (setup_calc (calc w)) "B_{y2}" <> []))
  /\ (forall message w', setup h w <> Threw message w')
  /\ calc (world_of (setup h w)) = setup_calc (calc w)
  /\ numericValue (x1 (bounds (world_of (setup h w))))
     = last (numericValues h (setup_calc (calc w)) "B_{x1}") NaN
  /\ numericValue (x2 (bounds (world_of (setup h w))))
     = last (numericValues h (setup_calc (calc w)) "B_{x2}") NaN
  /\ numericValue (y1 (bounds (world_of (setup h w))))
     = last (numericValues h (setup_calc (calc w)) "B_{y1}") NaN
  /\ numericValue (y2 (bounds (world_of (setup h w))))
     = last (numericValues h (setup_calc (calc w)) "B_{y2}") NaN.
Proof.
  split; [|split].
  - rewrite setup_run.
    destruct (numericValues h (setup_calc (calc w)) "B_{x1}");
      destruct (numericValues h (setup_calc (calc w)) "B_{x2}");
      destruct (numericValues h (setup_calc (calc w)) "B_{y1}");
      destruct (numericValues h (setup_calc (calc w)) "B_{y2}");
      split;
      try (intros [w' H]; discriminate H);
      try (intros [H1 [H2 [H3 H4]]]; congruence);
      try (intros _; repeat split; discriminate);
      intros _; eexists; reflexivity.
  - intros message w'. rewrite setup_run.
    destruct (numericValues h (setup_calc (calc w)) "B_{x1}");
      destruct (numericValues h (setup_calc (calc w)) "B_{x2}");
      destruct (numericValues h (setup_calc (calc w)) "B_{y1}");
      destruct (numericValues h (setup_calc (calc w)) "B_{y2}");
      discriminate.
  - change (world_of (setup h w)) with (after_setup h w).
    rewrite after_setup_world. cbn [calc bounds x1 x2 y1 y2].
    rewrite !watch_value. repeat split; reflexivity.
Qed.

(** X2.  [setup] does not touch the display settings, keeps the
    expressions that were there in their order and adds new ones, all of
    its own ids, at the end; an expression whose id does not start with
    "bounds" is exactly what it was. *)
Theorem X2_setup_leaves_the_rest_of_the_graph (w : world) :
  settings (calc (after_setup h w)) = settings (calc w)
  /\ (exists added,
        ids_of (calc (after_setup h w)) = ids_of (calc w) ++ added
        /\ incl added (base_ids ++ edge_ids ++ ["bounds time"]))
  /\ (forall i, String.prefix "bounds" i = false ->
        find_id i (expressions (calc (after_setup h w)))
        = find_id i (expressions (calc w))).
Proof.
  rewrite after_setup_world, setup_calc_list. cbn [calc settings].
  split; [reflexivity|]. split.
  - unfold ids_of. cbn [expressions]. apply ids_setup_list.
  - intros i Hi. cbn [expressions].
    rewrite find_id_setup_list_foreign.
    + destruct (find_id i (expressions (calc w))) as [e|] eqn:E;
        [|reflexivity].
      simpl. rewrite place_foreign; [reflexivity|].
      rewrite (find_id_id i _ e E). exact Hi.
    + intros Hin. simpl in Hin.
      repeat (destruct Hin as [<-|Hin]; [discriminate Hi|]). destruct Hin.
    + intros Hin. simpl in Hin.
      repeat (destruct Hin as [<-|Hin]; [discriminate Hi|]). destruct Hin.
    + right. intros ->. discriminate Hi.
Qed.

(** X3.  After [setup] every expression whose id starts with "bounds"
    is a member of the folder "bounds", the folder item apart, which is
    titled "Bounds"; and there is such a folder item, of type folder and
    not hidden, even if the user had hidden it. *)
Theorem X3_setup_files_its_items_in_a_shown_folder (w : world) :
  Forall filed (expressions (calc (after_setup h w)))
  /\ exists f,
       find_id "bounds" (expressions (calc (after_setup h w))) = Some f
       /\ type f = Folder /\ hidden f = false /\ title f = Some "Bounds".
Proof.
  rewrite after_setup_world, setup_calc_list. cbn [calc expressions].
  assert (F : Forall filed (setup_list (expressions (calc w)))).
  { unfold setup_list. apply Forall_forall. intros e He.
    apply in_map_iff in He. destruct He as [e0 [<- _]]. apply place_filed. }
  split; [exact F|].
  destruct (find_id_setup_list_base folder_item (expressions (calc w)))
    as [f [Hf Hm]]; [left; reflexivity|].
  simpl in Hf. exists f. split; [exact Hf|].
  split; [rewrite <- Hm; reflexivity|].
  split; [rewrite <- Hm; reflexivity|].
  assert (Hin : In f (setup_list (expressions (calc w)))).
  { unfold find_id in Hf. apply find_some in Hf. apply Hf. }
  rewrite Forall_forall in F. specialize (F f Hin).
  unfold filed in F. rewrite (find_id_id _ _ _ Hf) in F. exact F.
Qed.

(** X4.  A time slider that exists keeps its text and its range through
    [setup]; when there is none, [setup] makes one with the text
    [t_{ime}=0] and the range 0 to 1.  In both cases it ends up in the
    folder. *)
Theorem X4_setup_keeps_or_makes_the_slider (w : world) :
  exists s',
    find_id "bounds time" (expressions (calc (after_setup h w))) = Some s'
    /\ folderId s' = Some "bounds"
    /\ match find_id "bounds time" (expressions (calc w)) with
       | Some s => latex s' = latex s /\ sliderBounds s' = sliderBounds s
       | None => latex s' = Some (Tex "t_{ime}=0")
                 /\ sliderBounds s' = Some {| min := "0"; max := "1" |}
       end.
Proof.
  rewrite after_setup_world, setup_calc_list. cbn [calc expressions].
  destruct (find_id "bounds time" (expressions (calc w))) as [s|] eqn:E.
  - rewrite find_id_setup_list_foreign.
    + rewrite E. simpl. exists (place s).
      assert (Hid : id s = "bounds time") by exact (find_id_id _ _ _ E).
      split; [reflexivity|]. split.
      * unfold place. rewrite Hid. reflexivity.
      * unfold place. rewrite Hid. split; reflexivity.
    + simpl. intuition discriminate.
    + simpl. intuition discriminate.
    + left. rewrite has_find_id, E. reflexivity.
  - assert (Hh : has "bounds time" (map id (expressions (calc w))) = false)
      by (rewrite has_find_id, E; reflexivity).
    unfold setup_list. rewrite Hh. simpl negb. cbv iota.
    rewrite find_id_map_place.
    change "bounds time" with (u_id time_item) at 1.
    rewrite find_id_set_item_same.
    assert (Hn : find_id (u_id time_item)
                   (if negb (has "bounds x1" (map id (expressions (calc w))))
                    then set_items edge_items
                           (set_items base_items (expressions (calc w)))
                    else set_items base_items (expressions (calc w)))
                 = None).
    { destruct (negb (has "bounds x1" (map id (expressions (calc w)))));
        repeat (rewrite find_id_set_items_other
                 by (simpl; intuition (subst; discriminate)));
        exact E. }
    rewrite Hn. simpl. eexists. split; [reflexivity|].
    split; [reflexivity | split; reflexivity].
Qed.

End SetupFacts.

(** ** [captureFrames] *)

Section CaptureMore.

Variable h : host.
Variable o : screenshot_opts.

Lemma for_each_capture_cons (t : nat -> number) (i : nat) (r : list nat)
  (w : world) :
  let c' := setExpression (time_is (t i)) (calc w) in
  let w1 := {| calc := c'; bounds := bounds w;
               trace := trace w ++ [Screenshot o c'] |} in
  for_each (capture_body h o t) (i :: r) w
  = match asyncScreenshot h c' o with
    | CallsBack d =>
        bind (for_each (capture_body h o t) r) (fun bs => ret (d :: bs)) w1
    | Throws => Threw "asyncScreenshot" w1
    | Never => Hangs w1
    end.
Proof.
  cbv zeta. simpl for_each. unfold bind at 1. rewrite capture_body_run.
  cbv zeta.
  destruct (asyncScreenshot h (setExpression (time_is (t i)) (calc w)) o);
    reflexivity.
Qed.

(** The stills a loop returns are the host's answers, in order. *)
Lemma capture_loop_answered (t : nat -> number) (l : list nat) (w w' : world)
  (fs : list string) :
  for_each (capture_body h o t) l w = Returned fs w' ->
  answered h o t l (calc w) fs.
Proof.
  revert w w' fs. induction l as [|i r IH]; intros w w' fs H.
  - simpl in H. unfold ret in H. injection H as <- _. exact I.
  - rewrite for_each_capture_cons in H. cbv zeta in H.
    destruct (asyncScreenshot h (setExpression (time_is (t i)) (calc w)) o)
      as [d| |] eqn:E; try discriminate H.
    unfold bind in H.
    match type of H with
    | match ?run with _ => _ end = _ =>
        destruct run as [bs w2|e w2|w2] eqn:R; try discriminate H
    end.
    unfold ret in H. injection H as <- _.
    simpl. split; [exact E|].
    apply (IH _ _ _ R).
Qed.

(** A loop that does not return stopped at the first request the host
    did not answer. *)
Lemma capture_loop_stops (t : nat -> number) (l : list nat) (w : world) :
  match for_each (capture_body h o t) l w with
  | Returned _ _ => True
  | Threw _ w' | Hangs w' =>
      exists k fs,
        k < List.length l
        /\ answered h o t (firstn k l) (calc w) fs
        /\ calc w' = sweep t (firstn (S k) l) (calc w)
        /\ trace w' = trace w ++ shots o t (firstn (S k) l) (calc w)
        /\ forall f, asyncScreenshot h (calc w') o <> CallsBack f
  end.
Proof.
  revert w. induction l as [|i r IH]; intros w.
  - simpl. exact I.
  - rewrite for_each_capture_cons. cbv zeta.
    set (c' := setExpression (time_is (t i)) (calc w)).
    set (w1 := {| calc := c'; bounds := bounds w;
                  trace := trace w ++ [Screenshot o c'] |}).
    destruct (asyncScreenshot h c' o) as [d| |] eqn:E.
    + specialize (IH w1). unfold bind, ret.
      destruct (for_each (capture_body h o t) r w1) as [bs w2|e w2|w2];
        [exact I| |];
        destruct IH as [k [fs [Hk [Ha [Hc [Ht Hn]]]]]];
        exists (S k), (d :: fs);
        (split; [simpl; lia|]);
        (split; [simpl; fold c'; split; [exact E | exact Ha]|]);
        (split; [rewrite Hc; reflexivity|]);
        (split; [rewrite Ht; simpl; rewrite <- app_assoc; reflexivity|]);
        exact Hn.
    + exists 0, []. simpl. split; [lia|].
      split; [exact I|]. split; [reflexivity|]. split; [reflexivity|].
      intros f. fold c'. rewrite E. discriminate.
    + exists 0, []. simpl. split; [lia|].
      split; [exact I|]. split; [reflexivity|]. split; [reflexivity|].
      intros f. fold c'. rewrite E. discriminate.
Qed.

Lemma find_id_sweep_other (t : nat -> number) (i : string) (l : list nat)
  (c : calculator) :
  i <> "bounds time" ->
  find_id i (expressions (sweep t l c)) = find_id i (expressions c).
Proof.
  intros Hi. unfold sweep. revert c.
  induction l as [|n r IH]; intros c; simpl; [reflexivity|].
  rewrite IH. unfold setExpression; simpl.
  apply find_id_set_item_other. simpl. congruence.
Qed.

Lemma ids_set_item_present (u : expression_state) (l : list expression)
  (e : expression) :
  find_id (u_id u) l = Some e -> map id (set_item u l) = map id l.
Proof.
  intros H. rewrite map_id_set_item, has_find_id, H. reflexivity.
Qed.

Lemma same_but_latex_refl (e : expression) : same_but_latex e e.
Proof. unfold same_but_latex. repeat split. Qed.

Lemma same_but_latex_time_is (time : number) (e e' : expression) :
  same_but_latex e e' -> same_but_latex e (merge (time_is time) e').
Proof.
  unfold same_but_latex, merge; simpl. intros H. exact H.
Qed.

Lemma sweep_slider (t : nat -> number) (l : list nat) (c : calculator)
  (s s0 : expression) :
  find_id "bounds time" (expressions c) = Some s ->
  same_but_latex s0 s ->
  ids_of (sweep t l c) = ids_of c
  /\ exists s',
       find_id "bounds time" (expressions (sweep t l c)) = Some s'
       /\ same_but_latex s0 s'.
Proof.
  unfold sweep. revert c s.
  induction l as [|n r IH]; intros c s Hs Hsame; simpl.
  - split; [reflexivity|]. exists s. split; assumption.
  - set (c1 := setExpression (time_is (t n)) c).
    assert (H1 : find_id "bounds time" (expressions c1)
                 = Some (merge (time_is (t n)) s)).
    { unfold c1, setExpression; simpl.
      change "bounds time" with (u_id (time_is (t n))) at 1.
      rewrite find_id_set_item_same.
      change (u_id (time_is (t n))) with "bounds time". rewrite Hs.
      reflexivity. }
    destruct (IH c1 _ H1 (same_but_latex_time_is (t n) s0 s Hsame))
      as [Hi Hx].
    split; [|exact Hx].
    rewrite Hi. unfold ids_of, c1, setExpression; simpl.
    apply (ids_set_item_present (time_is (t n)) (expressions c) s). exact Hs.
Qed.

Lemma merge_hide_back (folder : expression) :
  merge (hide "bounds" (hidden folder)) (merge (hide "bounds" true) folder)
  = folder.
Proof. destruct folder; reflexivity. Qed.


Lemma captureFrames_keeps_bounds (st : Settings.t) (w w' : world)
  (fs : list string) :
  captureFrames h st o w = Returned fs w' -> bounds w' = bounds w.
Proof.
  rewrite captureFrames_unfold. cbv zeta.
  destruct (find_id "bounds" (expressions (calc w))); [|discriminate].
  destruct (find_id "bounds time" (expressions (calc w))) as [s|];
    [|discriminate].
  destruct (sliderBounds s) as [sb|]; [|discriminate].
  simpl calc.
  destruct (settled (evaluate h (hide_chrome (calc w)) (min sb)))
    as [|mn]; [discriminate|].
  destruct (settled (evaluate h (hide_chrome (calc w)) (max sb)))
    as [|mx]; [discriminate|].
  set (t := sample_time mn mx (Settings.frames st)).
  destruct (capture_loop h o t (seq 0 (Settings.frames st))
              (with_calc (hide_chrome (calc w)) w))
    as [k [_ [_ [_ [Hb _]]]]].
  destruct (for_each (capture_body h o t) (seq 0 (Settings.frames st))
              (with_calc (hide_chrome (calc w)) w))
    as [bs w2|msg w2|w2]; try discriminate.
  intros H. injection H as _ <-. simpl in *. exact Hb.
Qed.

End CaptureMore.

Section CaptureFacts.

Variable h : host.
Variable o : screenshot_opts.

Lemma firstn_seq_le (k a n : nat) :
  k <= n -> firstn k (seq a n) = seq a k.
Proof.
  revert a n. induction k as [|k IH]; intros a n Hk; [reflexivity|].
  destruct n as [|n]; [lia|]. simpl. rewrite IH by lia. reflexivity.
Qed.

(** X5.  A capture that returns has changed nothing but the text of the
    time slider: the [bounds] global, the display settings, the ids and
    their order, and every other expression are what they were, and the
    slider has kept its range and its other properties. *)
Theorem X5_capture_changes_only_the_slider_text (st : Settings.t)
  (w w' : world) (fs : list string) :
  captureFrames h st o w = Returned fs w' ->
  bounds w' = bounds w
  /\ settings (calc w') = settings (calc w)
  /\ ids_of (calc w') = ids_of (calc w)
  /\ (forall i, i <> "bounds time" ->
        find_id i (expressions (calc w'))
        = find_id i (expressions (calc w)))
  /\ exists s s',
       find_id "bounds time" (expressions (calc w)) = Some s
       /\ find_id "bounds time" (expressions (calc w')) = Some s'
       /\ same_but_latex s s'.
Proof.
  intros H.
  destruct (captureFrames_returned h o st w w' fs H)
    as [folder [s [sb [mn [mx [Hf [Hs [_ [_ [_ [Hc _]]]]]]]]]]].
  set (t := sample_time mn mx (Settings.frames st)) in *.
  set (l := seq 0 (Settings.frames st)) in *.
  assert (Ht : find_id "bounds time" (expressions (hide_chrome (calc w)))
               = Some s).
  { unfold hide_chrome, setExpression, updateSettings; simpl.
    rewrite find_id_set_item_other by (simpl; discriminate). exact Hs. }
  assert (Hb : find_id "bounds" (expressions (hide_chrome (calc w)))
               = Some (merge (hide "bounds" true) folder)).
  { unfold hide_chrome, setExpression, updateSettings; simpl.
    change "bounds" with (u_id (hide "bounds" true)) at 1.
    rewrite find_id_set_item_same.
    change (u_id (hide "bounds" true)) with "bounds". rewrite Hf.
    reflexivity. }
  destruct (sweep_slider t l (hide_chrome (calc w)) s s Ht
              (same_but_latex_refl s)) as [Hids [s' [Hs' Hsame]]].
  assert (Hb2 : find_id "bounds" (expressions (sweep t l (hide_chrome (calc w))))
                = Some (merge (hide "bounds" true) folder)).
  { rewrite find_id_sweep_other by discriminate. exact Hb. }
  split; [exact (captureFrames_keeps_bounds h o st w w' fs H)|].
  rewrite Hc. unfold restore_chrome, updateSettings, setExpression.
  cbn [settings expressions]. unfold ids_of. cbn [expressions].
  split; [apply settings_eta|]. split; [|split].
  - rewrite (ids_set_item_present (hide "bounds" (hidden folder)) _ _ Hb2).
    change (ids_of (sweep t l (hide_chrome (calc w))) = ids_of (calc w)).
    rewrite Hids. unfold ids_of, hide_chrome, setExpression, updateSettings.
    cbn [expressions].
    apply (ids_set_item_present (hide "bounds" true) _ folder). exact Hf.
  - intros i Hi. destruct (String.eqb_spec i "bounds") as [->|Hn].
    + change "bounds" with (u_id (hide "bounds" (hidden folder))) at 1.
      rewrite find_id_set_item_same.
      change (u_id (hide "bounds" (hidden folder))) with "bounds".
      rewrite Hb2, merge_hide_back, Hf. reflexivity.
    + rewrite find_id_set_item_other by (simpl; congruence).
      rewrite find_id_sweep_other by exact Hi.
      unfold hide_chrome, setExpression, updateSettings; simpl.
      apply find_id_set_item_other. simpl. congruence.
  - exists s, s'. split; [exact Hs|]. split; [|exact Hsame].
    rewrite find_id_set_item_other by (simpl; discriminate). exact Hs'.
Qed.

(** X6.  The stills of a capture that returns are the host's answers to
    its requests, in the order of the samples: still [i] is what the
    host called back with when the slider was at sample [i]. *)
Theorem X6_stills_are_the_answers_in_sample_order (st : Settings.t)
  (w w' : world) (fs : list string) :
  captureFrames h st o w = Returned fs w' ->
  exists s sb mn mx,
    find_id "bounds time" (expressions (calc w)) = Some s
    /\ sliderBounds s = Some sb
    /\ settled (evaluate h (hide_chrome (calc w)) (min sb)) = Fulfilled mn
    /\ settled (evaluate h (hide_chrome (calc w)) (max sb)) = Fulfilled mx
    /\ answered h o (sample_time mn mx (Settings.frames st))
         (seq 0 (Settings.frames st)) (hide_chrome (calc w)) fs.
Proof.
  rewrite captureFrames_unfold. cbv zeta.
  destruct (find_id "bounds" (expressions (calc w))); [|discriminate].
  destruct (find_id "bounds time" (expressions (calc w))) as [s|] eqn:Es;
    [|discriminate].
  destruct (sliderBounds s) as [sb|] eqn:Esb; [|discriminate].
  simpl calc.
  destruct (settled (evaluate h (hide_chrome (calc w)) (min sb)))
    as [|mn] eqn:Emn; [discriminate|].
  destruct (settled (evaluate h (hide_chrome (calc w)) (max sb)))
    as [|mx] eqn:Emx; [discriminate|].
  set (t := sample_time mn mx (Settings.frames st)).
  destruct (for_each (capture_body h o t) (seq 0 (Settings.frames st))
              (with_calc (hide_chrome (calc w)) w))
    as [bs w2|msg w2|w2] eqn:R; try discriminate.
  intros H. injection H as <- _.
  exists s, sb, mn, mx.
  split; [reflexivity|]. split; [exact Esb|]. split; [exact Emn|].
  split; [exact Emx|].
  exact (capture_loop_answered h o t _ _ _ _ R).
Qed.

(** X7.  A capture that does not return either failed before its first
    request, or stopped at the first request the host did not answer:
    the requests before it were answered, none was made after it, and
    the slider is left at that sample. *)
Theorem X7_capture_stops_at_the_first_unanswered_request (st : Settings.t)
  (w : world) :
  match captureFrames h st o w with
  | Returned _ _ => True
  | Threw _ w' | Hangs w' =>
      trace w' = trace w
      \/ exists mn mx k fs,
           k < Settings.frames st
           /\ answered h o (sample_time mn mx (Settings.frames st))
                (seq 0 k) (hide_chrome (calc w)) fs
           /\ trace w'
              = trace w ++ shots o (sample_time mn mx (Settings.frames st))
                                 (seq 0 (S k)) (hide_chrome (calc w))
           /\ latex_of "bounds time" (calc w')
              = Some (TimeAssign (sample_time mn mx (Settings.frames st) k))
           /\ forall f, asyncScreenshot h (calc w') o <> CallsBack f
  end.
Proof.
  rewrite captureFrames_unfold. cbv zeta.
  destruct (find_id "bounds" (expressions (calc w))); [|left; reflexivity].
  destruct (find_id "bounds time" (expressions (calc w))) as [s|];
    [|left; reflexivity].
  destruct (sliderBounds s) as [sb|]; [|left; reflexivity].
  simpl calc.
  destruct (settled (evaluate h (hide_chrome (calc w)) (min sb)))
    as [|mn]; [left; reflexivity|].
  destruct (settled (evaluate h (hide_chrome (calc w)) (max sb)))
    as [|mx]; [left; reflexivity|].
  set (t := sample_time mn mx (Settings.frames st)).
  generalize (capture_loop_stops h o t (seq 0 (Settings.frames st))
                (with_calc (hide_chrome (calc w)) w)).
  destruct (for_each (capture_body h o t) (seq 0 (Settings.frames st))
              (with_calc (hide_chrome (calc w)) w))
    as [bs w2|msg w2|w2]; [intros _; exact I| |];
    intros [k [bs [Hk [Ha [Hc [Ht Hn]]]]]];
    rewrite length_seq in Hk;
    rewrite firstn_seq_le in Ha by lia;
    rewrite firstn_seq_le in Hc, Ht by lia;
    cbn [calc trace with_calc] in Ha, Hc, Ht;
    right; exists mn, mx, k, bs;
    (split; [exact Hk|]); (split; [exact Ha|]); (split; [exact Ht|]);
    (split; [|exact Hn]);
    rewrite Hc, seq_S, sweep_snoc; apply latex_of_time_is.
Qed.


End CaptureFacts.

Lemma X5_capture_witness :
  captureFrames demo_host the_settings demo_opts fresh_world
  = Returned (result_of full_run []) (world_of full_run)
  /\ ids_of (calc (world_of full_run)) = ids_of (calc fresh_world)
  /\ find_id "bounds x1" (expressions (calc (world_of full_run)))
     = find_id "bounds x1" (expressions (calc fresh_world)).
Proof.
  assert (E : captureFrames demo_host the_settings demo_opts fresh_world
              = Returned (result_of full_run []) (world_of full_run))
    by (vm_compute; reflexivity).
  split; [exact E|].
  destruct (X5_capture_changes_only_the_slider_text demo_host demo_opts
              the_settings fresh_world (world_of full_run)
              (result_of full_run []) E) as [_ [_ [Hi [Hf _]]]].
  split; [exact Hi|]. apply Hf. discriminate.
Defined.

Lemma X6_stills_witness :
  captureFrames demo_host (settings_with 1) demo_opts fresh_world
  = Returned (result_of one_frame_run []) (world_of one_frame_run)
  /\ exists s sb mn mx,
       find_id "bounds time" (expressions (calc fresh_world)) = Some s
       /\ sliderBounds s = Some sb
       /\ settled (evaluate demo_host (hide_chrome (calc fresh_world))
                     (min sb)) = Fulfilled mn
       /\ settled (evaluate demo_host (hide_chrome (calc fresh_world))
                     (max sb)) = Fulfilled mx
       /\ answered demo_host demo_opts (sample_time mn mx 1) (seq 0 1)
            (hide_chrome (calc fresh_world)) (result_of one_frame_run []).
Proof.
  assert (E : captureFrames demo_host (settings_with 1) demo_opts
                fresh_world
              = Returned (result_of one_frame_run [])
                         (world_of one_frame_run))
    by (vm_compute; reflexivity).
  split; [exact E|].
  exact (X6_stills_are_the_answers_in_sample_order demo_host demo_opts
           (settings_with 1) fresh_world (world_of one_frame_run)
           (result_of one_frame_run []) E).
Defined.



Lemma X7_capture_stops_witness :
  captureFrames one_shot_host (settings_with 2) demo_opts fresh_world
  = Threw "asyncScreenshot"
      (world_of (captureFrames one_shot_host (settings_with 2) demo_opts
                   fresh_world))
  /\ List.length
       (trace (world_of (captureFrames one_shot_host (settings_with 2)
                           demo_opts fresh_world))) = 2
  /\ (trace (world_of (captureFrames one_shot_host (settings_with 2)
                         demo_opts fresh_world)) = trace fresh_world
      \/ exists mn mx k fs,
           k < 2
           /\ answered one_shot_host demo_opts (sample_time mn mx 2)
                (seq 0 k) (hide_chrome (calc fresh_world)) fs
           /\ trace (world_of (captureFrames one_shot_host (settings_with 2)
                                 demo_opts fresh_world))
              = trace fresh_world
                ++ shots demo_opts (sample_time mn mx 2) (seq 0 (S k))
                         (hide_chrome (calc fresh_world))
           /\ latex_of "bounds time"
                (calc (world_of (captureFrames one_shot_host
                                   (settings_with 2) demo_opts fresh_world)))
              = Some (TimeAssign (sample_time mn mx 2 k))
           /\ forall f,
                asyncScreenshot one_shot_host
                  (calc (world_of (captureFrames one_shot_host
                                     (settings_with 2) demo_opts
                                     fresh_world))) demo_opts
                <> CallsBack f).
Proof.
  assert (E : captureFrames one_shot_host (settings_with 2) demo_opts
                fresh_world
              = Threw "asyncScreenshot"
                  (world_of (captureFrames one_shot_host (settings_with 2)
                               demo_opts fresh_world)))
    by (vm_compute; reflexivity).
  split; [exact E|]. split; [vm_compute; reflexivity|].
  generalize (X7_capture_stops_at_the_first_unanswered_request
                one_shot_host demo_opts (settings_with 2) fresh_world).
  rewrite E at 1. intros T. exact T.
Defined.

(** ** [createVideo] and [render] *)

Section RenderMore.

Variable h : host.

Lemma downloads_app (a b : list event) :
  downloads (a ++ b) = downloads a + downloads b.
Proof.
  induction a as [|e r IH]; simpl; [reflexivity|].
  destruct e; simpl; rewrite IH; reflexivity.
Qed.

Lemma downloads_shots (o : screenshot_opts) (t : nat -> number)
  (l : list nat) (c : calculator) :
  downloads (shots o t l c) = 0.
Proof.
  revert c. induction l as [|i r IH]; intros c; simpl; [reflexivity|].
  apply IH.
Qed.

Lemma downloads_loading (wd ht : number) (srcs : list string) :
  downloads (loading wd ht srcs) = 0.
Proof.
  unfold loading. simpl. induction srcs as [|a r IH]; simpl;
    [reflexivity | exact IH].
Qed.

Lemma downloads_schedule (st : Settings.t) (srcs : list string) :
  downloads (schedule st srcs) = 0.
Proof.
  assert (H : forall n,
             downloads (map (fun ii => SetTimeout
                                         (DrawImage (fst ii) (snd ii))
                                         (draw_offset st (fst ii)))
                            (indexed n srcs)) = 0).
  { induction srcs as [|a r IH]; intros n; simpl;
      [reflexivity | apply IH]. }
  unfold schedule. rewrite downloads_app, H. reflexivity.
Qed.

(** A capture, however it ends, leaves the items other than the folder
    and the time slider as they were. *)
Lemma captureFrames_keeps_other_items (o : screenshot_opts)
  (st : Settings.t) (w : world) (i : string) :
  i <> "bounds" -> i <> "bounds time" ->
  find_id i (expressions (calc (world_of (captureFrames h st o w))))
  = find_id i (expressions (calc w)).
Proof.
  intros Hb Ht.
  assert (Hh : find_id i (expressions (hide_chrome (calc w)))
               = find_id i (expressions (calc w))).
  { unfold hide_chrome, setExpression, updateSettings; simpl.
    apply find_id_set_item_other. simpl. congruence. }
  rewrite captureFrames_unfold. cbv zeta.
  destruct (find_id "bounds" (expressions (calc w))) as [folder|];
    [|reflexivity].
  destruct (find_id "bounds time" (expressions (calc w))) as [s|];
    [|exact Hh].
  destruct (sliderBounds s) as [sb|]; [|exact Hh].
  simpl calc.
  destruct (settled (evaluate h (hide_chrome (calc w)) (min sb)))
    as [|mn]; [exact Hh|].
  destruct (settled (evaluate h (hide_chrome (calc w)) (max sb)))
    as [|mx]; [exact Hh|].
  set (t := sample_time mn mx (Settings.frames st)).
  destruct (capture_loop h o t (seq 0 (Settings.frames st))
              (with_calc (hide_chrome (calc w)) w))
    as [k [_ [Hc _]]].
  cbn [calc with_calc] in Hc.
  destruct (for_each (capture_body h o t) (seq 0 (Settings.frames st))
              (with_calc (hide_chrome (calc w)) w))
    as [bs w2|msg w2|w2]; cbn [world_of] in *.
  - cbn [calc with_calc]. rewrite Hc.
    unfold restore_chrome, setExpression, updateSettings; simpl.
    rewrite find_id_set_item_other by (simpl; congruence).
    rewrite find_id_sweep_other by exact Ht. exact Hh.
  - rewrite Hc, find_id_sweep_other by exact Ht. exact Hh.
  - rewrite Hc, find_id_sweep_other by exact Ht. exact Hh.
Qed.

(** A capture, however it ends, logs screenshot requests only. *)
Lemma captureFrames_downloads (o : screenshot_opts) (st : Settings.t)
  (w : world) :
  downloads (trace (world_of (captureFrames h st o w)))
  = downloads (trace w).
Proof.
  rewrite captureFrames_unfold. cbv zeta.
  destruct (find_id "bounds" (expressions (calc w))) as [folder|];
    [|reflexivity].
  destruct (find_id "bounds time" (expressions (calc w))) as [s|];
    [|reflexivity].
  destruct (sliderBounds s) as [sb|]; [|reflexivity].
  simpl calc.
  destruct (settled (evaluate h (hide_chrome (calc w)) (min sb)))
    as [|mn]; [reflexivity|].
  destruct (settled (evaluate h (hide_chrome (calc w)) (max sb)))
    as [|mx]; [reflexivity|].
  set (t := sample_time mn mx (Settings.frames st)).
  destruct (capture_loop h o t (seq 0 (Settings.frames st))
              (with_calc (hide_chrome (calc w)) w))
    as [k [_ [_ [Ht _]]]].
  cbn [trace calc with_calc] in Ht.
  destruct (for_each (capture_body h o t) (seq 0 (Settings.frames st))
              (with_calc (hide_chrome (calc w)) w))
    as [bs w2|msg w2|w2]; cbn [world_of trace with_calc] in *;
    rewrite Ht, downloads_app, downloads_shots; lia.
Qed.

Lemma secret_after_set (b : bool) (c : calculator) :
  start_action_secret (setExpression (secret_is "bounds start action" b) c)
  = Some b.
Proof.
  unfold start_action_secret, setExpression; simpl.
  change "bounds start action"
    with (u_id (secret_is "bounds start action" b)) at 1.
  rewrite find_id_set_item_same.
  destruct (find_id (u_id (secret_is "bounds start action" b))
              (expressions c)); reflexivity.
Qed.

End RenderMore.

Section RenderFacts.

Lemma draw_offset_no_frames (st : Settings.t) :
  Settings.frames st = 0 -> draw_offset st 0 = NaN.
Proof.
  intros H. unfold draw_offset, delay_of. rewrite H.
  change (of_nat 0) with (S754_zero false).
  destruct (mul (of_Z 1000) (Settings.duration st)) as [s|s| |s m e];
    reflexivity.
Qed.

End RenderFacts.

(** X9.  [render] makes the start action secret before it captures and
    makes it public again only when it returns: after a render that
    throws or never settles the start action is still secret. *)
Theorem X9_start_action_stays_secret_unless_render_returns (h : host)
  (st : Settings.t) (w : world) :
  match render h st w with
  | Returned _ w' => start_action_secret (calc w') = Some false
  | Threw _ w' | Hangs w' => start_action_secret (calc w') = Some true
  end.
Proof.
  rewrite render_unfold. cbv zeta.
  set (o := render_opts (getMathBounds (bounds w)) st).
  set (w0 := with_calc (render_start (calc w)) w).
  assert (K : start_action_secret (calc (world_of (captureFrames h st o w0)))
              = Some true).
  { unfold start_action_secret.
    rewrite captureFrames_keeps_other_items by discriminate.
    apply (secret_after_set true (calc w)). }
  destruct (captureFrames h st o w0) as [fs w1|e w1|w1];
    cbn [world_of] in K; try exact K.
  rewrite createVideo_run.
  destruct (forallb (decodes h) fs).
  - apply secret_after_set.
  - exact K.
Qed.



(** X11.  [render] starts exactly one download when it returns and none
    when it throws or never settles. *)
Theorem X11_one_download_per_returning_render (h : host) (st : Settings.t)
  (w : world) :
  downloads (trace (world_of (render h st w)))
  = downloads (trace w)
    + match render h st w with Returned _ _ => 1 | _ => 0 end.
Proof.
  rewrite render_unfold. cbv zeta.
  set (o := render_opts (getMathBounds (bounds w)) st).
  set (w0 := with_calc (render_start (calc w)) w).
  assert (K := captureFrames_downloads h o st w0).
  change (trace w0) with (trace w) in K.
  destruct (captureFrames h st o w0) as [fs w1|e w1|w1];
    cbn [world_of] in *; try (rewrite K; lia).
  rewrite createVideo_run.
  destruct (forallb (decodes h) fs); cbn [world_of trace].
  - rewrite !downloads_app, downloads_loading, downloads_schedule, K.
    simpl. lia.
  - rewrite downloads_app, downloads_loading, K. lia.
Qed.

(** X12.  With a frame count of 0 a render that returns has taken no
    screenshot and still records and downloads a video: one without any
    draw, whose stop is scheduled at [delay * 0] with
    [delay = 1000 * duration / 0], which is NaN. *)
Theorem X12_render_of_no_frame_downloads_an_empty_video (h : host)
  (st : Settings.t) (w w' : world) :
  Settings.frames st = 0 ->
  render h st w = Returned tt w' ->
  trace w'
  = trace w
    ++ [CreateCanvas (width (render_opts (getMathBounds (bounds w)) st))
                     (height (render_opts (getMathBounds (bounds w)) st));
        NewMediaRecorder; RecorderStart; SetTimeout RecorderStop NaN;
        Download {| timeline := []; stopped_at := NaN |} "desmos.webm";
        SetTimeout RevokeObjectURL (of_Z 1000)].
Proof.
  intros Hn H.
  destruct (render_returned h st w w' tt H) as [fs [w1 [Hc [_ [_ Ht]]]]].
  destruct (captureFrames_returned h _ st _ w1 fs Hc)
    as [folder [s [sb [mn [mx [_ [_ [_ [_ [_ [_ [Ht1 Hl]]]]]]]]]]]].
  rewrite Hn in Ht1, Hl. cbn [trace with_calc seq shots] in Ht1.
  rewrite app_nil_r in Ht1.
  destruct fs; [|discriminate].
  rewrite Ht, Ht1. unfold loading, schedule. cbn [map indexed List.length app].
  rewrite (draw_offset_no_frames st Hn). reflexivity.
Qed.

Lemma X12_no_frame_render_witness :
  Settings.frames (settings_with 0) = 0
  /\ render demo_host (settings_with 0) fresh_world
     = Returned tt (world_of (render demo_host (settings_with 0) fresh_world))
  /\ downloads (trace (world_of (render demo_host (settings_with 0)
                                   fresh_world))) = 1.
Proof.
  assert (E : render demo_host (settings_with 0) fresh_world
              = Returned tt
                  (world_of (render demo_host (settings_with 0) fresh_world)))
    by (vm_compute; reflexivity).
  split; [reflexivity|]. split; [exact E|].
  rewrite (X12_render_of_no_frame_downloads_an_empty_video demo_host
             (settings_with 0) fresh_world _ eq_refl E).
  reflexivity.
Defined.

(** ** The trigger and the viewport *)

Section ViewportFacts.

Lemma SFcompare_nan (a b : number) :
  is_nan a || is_nan b = true -> SFcompare a b = None.
Proof.
  destruct a as [sa|sa| |sa ma ea], b as [sb|sb| |sb mb eb];
    simpl; intros H; try discriminate H; reflexivity.
Qed.

Lemma Math_min_max_pair (a b : number) :
  if is_nan a || is_nan b
  then Math_min a b = NaN /\ Math_max a b = NaN
  else (Math_min a b = a /\ Math_max a b = b)
       \/ (Math_min a b = b /\ Math_max a b = a).
Proof.
  destruct (is_nan a || is_nan b) eqn:N.
  - unfold Math_min, Math_max. rewrite (SFcompare_nan a b N).
    split; reflexivity.
  - apply orb_false_elim in N. destruct N as [Na Nb].
    unfold Math_min, Math_max.
    destruct (SFcompare a b) as [[| |]|] eqn:E.
    + destruct (SFcompare_Eq a b E) as [->|[s [s' [-> ->]]]].
      * right. destruct b as [[|]| | |]; split; reflexivity.
      * destruct s, s'; auto.
    + left. split; reflexivity.
    + right. split; reflexivity.
    + destruct (SFcompare_None a b E); congruence.
Qed.

Lemma sub_same (a : number) :
  is_finite a = true -> sub a a = S754_zero false.
Proof.
  destruct a as [s|s| |s m e]; try discriminate; intros _.
  - destruct s; reflexivity.
  - unfold sub, SFsub. rewrite Z.sub_diag. reflexivity.
Qed.

Lemma floor_mul_zero (r : number) :
  is_finite r = true ->
  exists s, Math_floor (mul (S754_zero false) r) = S754_zero s.
Proof.
  destruct r as [s|s| |s m e]; try discriminate; intros _;
    eexists; reflexivity.
Qed.

End ViewportFacts.

(** X14.  The observer of [a_{nimate}] does nothing when the value is
    +0 or -0 and runs [render] for every other value, NaN and the
    infinities included. *)
Theorem X14_every_value_but_zero_starts_a_render (h : host)
  (st : Settings.t) (animate : helper) (w : world) :
  on_animate h st animate w
  = match numericValue animate with
    | S754_zero _ => w
    | _ => world_of (render h st w)
    end.
Proof.
  unfold on_animate, neqb.
  destruct (numericValue animate) as [s|s| |s m e]; try reflexivity;
    destruct s; reflexivity.
Qed.

(** X15.  On each axis the two edges of the viewport are the two corner
    values, in one order or the other: [getMathBounds] invents no value
    and loses none.  When a corner value of the axis is NaN both edges
    are NaN. *)
Theorem X15_viewport_edges_are_the_corner_values (b : bounds_t) :
  (if is_nan (numericValue (x1 b)) || is_nan (numericValue (x2 b))
   then left (getMathBounds b) = NaN /\ right (getMathBounds b) = NaN
   else (left (getMathBounds b) = numericValue (x1 b)
         /\ right (getMathBounds b) = numericValue (x2 b))
        \/ (left (getMathBounds b) = numericValue (x2 b)
            /\ right (getMathBounds b) = numericValue (x1 b)))
  /\ (if is_nan (numericValue (y1 b)) || is_nan (numericValue (y2 b))
      then bottom (getMathBounds b) = NaN /\ top (getMathBounds b) = NaN
      else (bottom (getMathBounds b) = numericValue (y1 b)
            /\ top (getMathBounds b) = numericValue (y2 b))
           \/ (bottom (getMathBounds b) = numericValue (y2 b)
               /\ top (getMathBounds b) = numericValue (y1 b))).
Proof.
  unfold getMathBounds. cbn [left right bottom top].
  split; apply Math_min_max_pair.
Qed.

(** X16.  The size [render] asks for degenerates with the viewport: when
    a corner value of the x axis is NaN the width is NaN, and when the
    two x corners are the same finite value and the resolution is finite
    the width is zero; likewise for the y axis and the height. *)
Theorem X16_degenerate_viewport_gives_degenerate_size (b : bounds_t)
  (st : Settings.t) :
  (is_nan (numericValue (x1 b)) || is_nan (numericValue (x2 b)) = true ->
   width (render_opts (getMathBounds b) st) = NaN)
  /\ (is_nan (numericValue (y1 b)) || is_nan (numericValue (y2 b)) = true ->
      height (render_opts (getMathBounds b) st) = NaN)
  /\ (is_finite (Settings.resolution st) = true ->
      is_finite (numericValue (x1 b)) = true ->
      numericValue (x2 b) = numericValue (x1 b) ->
      exists s, width (render_opts (getMathBounds b) st) = S754_zero s)
  /\ (is_finite (Settings.resolution st) = true ->
      is_finite (numericValue (y1 b)) = true ->
      numericValue (y2 b) = numericValue (y1 b) ->
      exists s, height (render_opts (getMathBounds b) st) = S754_zero s).
Proof.
  unfold render_opts, getMathBounds. cbn [width height left right bottom top].
  assert (Same : forall a r, is_finite r = true -> is_finite a = true ->
            exists s,
              Math_floor (mul (sub (Math_max a a) (Math_min a a)) r)
              = S754_zero s).
  { intros a r Hr Ha.
    assert (Hn : is_nan a = false) by (destruct a; try discriminate;
                                       reflexivity).
    generalize (Math_min_max_pair a a). rewrite Hn. simpl.
    intros [[-> ->]|[-> ->]]; rewrite (sub_same a Ha);
      apply floor_mul_zero; exact Hr. }
  split; [|split; [|split]].
  - intros N. generalize (Math_min_max_pair (numericValue (x1 b))
                            (numericValue (x2 b))).
    rewrite N. intros [-> ->]. reflexivity.
  - intros N. generalize (Math_min_max_pair (numericValue (y1 b))
                            (numericValue (y2 b))).
    rewrite N. intros [-> ->]. reflexivity.
  - intros Hr Ha ->. apply Same; assumption.
  - intros Hr Ha ->. apply Same; assumption.
Qed.

Lemma X16_degenerate_viewport_witness :
  exists s,
    width (render_opts
             (getMathBounds
                {| x1 := helper_at "B_{x1}" (of_Z 1);
                   x2 := helper_at "B_{x2}" (of_Z 1);
                   y1 := helper_at "B_{y1}" (of_Z 0);
                   y2 := helper_at "B_{y2}" (of_Z 1) |})
             the_settings) = S754_zero s.
Proof.
  apply (proj1 (proj2 (proj2
           (X16_degenerate_viewport_gives_degenerate_size
              {| x1 := helper_at "B_{x1}" (of_Z 1);
                 x2 := helper_at "B_{x2}" (of_Z 1);
                 y1 := helper_at "B_{y1}" (of_Z 0);
                 y2 := helper_at "B_{y2}" (of_Z 1) |}
              the_settings)))); reflexivity.
Defined.
